(** * Query routing and retrieval workflow of the counselling assistant

    A shallow embedding of the filter builder ([search_params.py]), the
    two-stage retriever ([retrievers.py]), the agents ([agents.py]), the
    workflow graph and its streaming loop ([workflow.py]) and the chat
    service ([chat_service.py]), with the properties of the specification
    stated and settled against them.

    Conventions.  Python integers are [Z].  Python [str] values are
    [string]; the case folding and the whitespace class used below are the
    ASCII ones, so the model coincides with Python on ASCII text.  A Python
    exception is a value of [exn]; a computation that may raise returns a
    [result].  Dictionaries whose keys are looked up by name are [gmap]s;
    [None] of Python is the [None] of an [option]. *)

From Stdlib Require Import ZArith Ascii String.
From stdpp Require Import base option list gmap strings pretty.

Set Warnings "-register-all".
Local Open Scope Z_scope.

(** ** Exceptions and fallible computations *)

Inductive exn : Type :=
  | TypeError (msg : string)
  | AttributeError (msg : string)
  | KeyError (msg : string)
  | ExternalError (msg : string).

(** [str(e)] *)
Definition exn_str (e : exn) : string :=
  match e with
  | TypeError m | AttributeError m | KeyError m | ExternalError m => m
  end.

Inductive result (A : Type) : Type :=
  | Ok (a : A)
  | Raise (e : exn).
Arguments Ok {A} a.
Arguments Raise {A} e.

Definition rbind {A B} (m : result A) (f : A -> result B) : result B :=
  match m with
  | Ok a => f a
  | Raise e => Raise e
  end.

#[global] Instance result_bind : MBind result := fun A B f m => rbind m f.
#[global] Instance result_ret : MRet result := fun A a => Ok a.

(** [try: body  except Exception as e: handler e] *)
Definition try_except {A} (body : result A) (handler : exn -> result A) : result A :=
  match body with
  | Ok a => Ok a
  | Raise e => handler e
  end.

Definition is_ok {A} (m : result A) : bool :=
  match m with Ok _ => true | Raise _ => false end.

(** Truthiness of the Python values that the code tests with [if x:]. *)
Definition truthy_int (o : option Z) : bool :=
  match o with Some z => negb (z =? 0) | None => false end.

Definition truthy_bool (o : option bool) : bool :=
  match o with Some b => b | None => false end.

Definition truthy_list {A} (o : option (list A)) : bool :=
  match o with Some (_ :: _) => true | _ => false end.

Definition truthy_str (o : option string) : bool :=
  match o with Some (String _ _) => true | _ => false end.

(** ** Filter builder ([search_params.py]) *)

Module SearchParams.

(** A document identifier: the conversation stores strings, the grounded
    generation step collects integers. *)
Inductive doc_id : Type :=
  | IdInt (z : Z)
  | IdStr (s : string).

#[global] Instance doc_id_eq_dec : EqDecision doc_id.
Proof. solve_decision. Defined.

(** [PriceCampusExtraction] of [models.py]. *)
Record PriceCampusExtraction : Type := mkPriceCampus {
  price : option Z;
  price_condition : option string;
  languages : option (list string);
  primos_arrivant : option bool;
  school_rank : option Z
}.

(** The inner dictionary of a condition, [{"$gte": v}] and the like. *)
Inductive comparison : Type :=
  | Gte (v : Z)
  | Lte (v : Z)
  | EqTrue
  | In_ (vs : list string)
  | Nin (ids : list doc_id).

#[global] Instance comparison_eq_dec : EqDecision comparison.
Proof. solve_decision. Defined.

(** A filter expression: [{field: comparison}], [{"$or": [...]}] or
    [{"$and": [...]}]. *)
Inductive filter_expr : Type :=
  | Cond (field : string) (c : comparison)
  | Or_ (fs : list filter_expr)
  | And_ (fs : list filter_expr).

(** The arguments of one call of [create_filter_conditions]; an argument
    that the call site does not pass is [None]. *)
Record call_args : Type := mkCall {
  arg_program_types : option (list string);
  arg_exclude_ids_list : option (option (list doc_id));
  arg_exclude : option bool;
  arg_price_campus_info : option (option PriceCampusExtraction);
  arg_entry_level : option (option (list string))
}.

(** Binding of a parameter without default value. *)
Definition required {A} (name : string) (a : option A) : result A :=
  match a with
  | Some v => Ok v
  | None =>
      Raise (TypeError ("create_filter_conditions() missing 1 required positional argument: '"
                          +:+ name +:+ "'"))
  end.

(** [o.attr] on an object that may be [None]. *)
Definition getattr {A B} (o : option A) (name : string) (proj : A -> B) : result B :=
  match o with
  | Some a => Ok (proj a)
  | None => Raise (AttributeError ("'NoneType' object has no attribute '" +:+ name +:+ "'"))
  end.

(** One-of-N equality conditions: a single one bare, otherwise under [$or]. *)
Definition one_of (names : list string) : filter_expr :=
  let conds := map (fun n => Cond n EqTrue) names in
  match conds with
  | [c] => c
  | _ => Or_ conds
  end.

Definition price_conditions (p : option Z) (pc : option string) : list filter_expr :=
  if truthy_int p then
    match p, pc with
    | Some v, Some "gt" => [Cond "price" (Gte (v - 1000))]
    | Some v, Some "lt" => [Cond "price" (Lte (v + 2000))]
    | _, _ => []
    end
  else [].

(** The body of [create_filter_conditions], statement by statement. *)
Definition create_filter_conditions_body
    (program_types : list string) (exclude_ids_list : option (list doc_id))
    (exclude : bool) (price_campus_info : option PriceCampusExtraction)
    (entry_level : option (list string)) : result filter_expr :=
  p ← getattr price_campus_info "price" price;
  conditions1 ← (if truthy_int p
                  then pc ← getattr price_campus_info "price_condition" price_condition;
                      Ok (price_conditions p pc)
                 else Ok []);
  pa ← getattr price_campus_info "primos_arrivant" primos_arrivant;
  let conditions2 :=
    conditions1 ++ (if truthy_bool pa then [Cond "primos_arrivant" EqTrue] else []) in
  langs ← getattr price_campus_info "languages" languages;
  let conditions3 :=
    conditions2 ++ (if truthy_list langs then [one_of (default [] langs)] else []) in
  let conditions4 :=
    conditions3 ++ (if truthy_list entry_level then [one_of (default [] entry_level)] else []) in
  rank ← getattr price_campus_info "school_rank" school_rank;
  let conditions5 :=
    conditions4 ++ (if truthy_int rank
                    then [Cond "school_rank" (Lte (default 0 rank))] else []) in
  let conditions6 := conditions5 ++ [Cond "new_program_type" (In_ program_types)] in
  let conditions7 :=
    conditions6 ++ (if truthy_list exclude_ids_list && exclude
                    then [Cond "program_id" (Nin (default [] exclude_ids_list))] else []) in
  match conditions7 with
  | [c] => Ok c
  | _ => Ok (And_ conditions7)
  end.

(** [create_filter_conditions(program_types, exclude_ids_list, exclude,
    price_campus_info=None, entry_level=None)]: the arguments are bound,
    then the body runs. *)
Definition create_filter_conditions (a : call_args) : result filter_expr :=
  program_types ← required "program_types" (arg_program_types a);
  exclude_ids_list ← required "exclude_ids_list" (arg_exclude_ids_list a);
  exclude ← required "exclude" (arg_exclude a);
  create_filter_conditions_body program_types exclude_ids_list exclude
    (default None (arg_price_campus_info a)) (default None (arg_entry_level a)).

(** The catalog passed when no program type was extracted. *)
Definition default_program_types : list string :=
  [ "less selective master"; "Mastère Spécialisé®"; "MSc"; "BBA"; "Other";
    "Bachelor"; "MBA"; "Cycle Préparatoire"; "BTS" ].

(** [search_params["search_kwargs"]] *)
Record search_kwargs_t : Type := mkKwargs {
  kw_k : option Z;
  kw_filter : option filter_expr
}.

(** The [search_params] dictionary. *)
Record search_params_t : Type := mkParams {
  search_type : option string;
  search_kwargs : option search_kwargs_t
}.

(** [child_parent_retriever_search_params(program_types, k, exclude_ids,
    price_campus_info, entry_level, exclude=True)] *)
Definition child_parent_retriever_search_params
    (program_types : list string) (k : Z) (exclude_ids : option (list doc_id))
    (price_campus_info : option PriceCampusExtraction)
    (entry_level : option (list string)) (exclude : bool) : result search_params_t :=
  let k := k + 1 in
  if truthy_list (Some program_types) then
    conditions ← create_filter_conditions
      (mkCall (Some program_types) (Some exclude_ids) (Some exclude)
              (Some price_campus_info) (Some entry_level));
    Ok (mkParams None (Some (mkKwargs (Some k) (Some conditions))))
  else
    conditions ← create_filter_conditions
      (mkCall (Some default_program_types) (Some exclude_ids) None None None);
    Ok (mkParams None (Some (mkKwargs (Some k) (Some conditions)))).

(** The [filter] entry of search parameters. *)
Definition filter_of (sp : search_params_t) : option filter_expr :=
  search_kwargs sp ≫= kw_filter.

(** The top-level conditions of a filter: the filter itself when it is a
    bare condition, the members of the conjunction otherwise. *)
Definition top_conditions (f : filter_expr) : list filter_expr :=
  match f with
  | And_ fs => fs
  | _ => [f]
  end.

(** [{"program_id": {"$nin": ...}}] *)
Definition is_exclusion (f : filter_expr) : bool :=
  match f with
  | Cond "program_id" (Nin _) => true
  | _ => false
  end.

Definition has_exclusion (f : filter_expr) : bool :=
  existsb is_exclusion (top_conditions f).

(** The exclusion condition over exactly the list [ids]. *)
Definition excludes (ids : list doc_id) (f : filter_expr) : bool :=
  existsb (fun c => match c with
                    | Cond "program_id" (Nin ids') => bool_decide (ids' = ids)
                    | _ => false
                    end) (top_conditions f).

(** [{"new_program_type": {"$in": types}}] among the top-level conditions. *)
Definition program_type_of (c : filter_expr) : option (list string) :=
  match c with
  | Cond "new_program_type" (In_ ts) => Some ts
  | _ => None
  end.

Definition program_type_condition (f : filter_expr) : option (list string) :=
  head (omap program_type_of (top_conditions f)).

(** *** The body's list of conditions, part by part

    The following definitions name the parts of the list that the body
    builds; [body_some] below relates them to the body. *)

(** A condition that is neither a conjunction nor the exclusion. *)
Definition plain (c : filter_expr) : bool :=
  match c with
  | And_ _ => false
  | _ => negb (is_exclusion c) && negb (bool_decide (is_Some (program_type_of c)))
  end.

(** The value returned for a non-empty list of conditions. *)
Definition wrap (conditions : list filter_expr) : filter_expr :=
  match conditions with
  | [c] => c
  | _ => And_ conditions
  end.

(** The conditions the body assembles before the program-type one. *)
Definition leading_conditions (p : PriceCampusExtraction) (entry_level : option (list string))
  : list filter_expr :=
  ((((if truthy_int (price p) then price_conditions (price p) (price_condition p) else [])
       ++ (if truthy_bool (primos_arrivant p) then [Cond "primos_arrivant" EqTrue] else []))
      ++ (if truthy_list (languages p) then [one_of (default [] (languages p))] else []))
     ++ (if truthy_list entry_level then [one_of (default [] entry_level)] else []))
    ++ (if truthy_int (school_rank p) then [Cond "school_rank" (Lte (default 0 (school_rank p)))]
        else []).

Definition exclusion_conditions (ids : option (list doc_id)) (exclude : bool)
  : list filter_expr :=
  if truthy_list ids && exclude then [Cond "program_id" (Nin (default [] ids))] else [].

End SearchParams.

(** ** String operations of Python used by the code *)

Module Text.

(** The line feed character. *)
Definition newline : string := String "010"%char "".

(** [sep.join(items)] *)
Fixpoint str_join (sep : string) (items : list string) : string :=
  match items with
  | [] => ""
  | x :: rest =>
      match rest with
      | [] => x
      | _ :: _ => x +:+ sep +:+ str_join sep rest
      end
  end.

(** [s.find(sub)]: the index of the first occurrence, [None] for -1. *)
Fixpoint find (sub s : string) : option nat :=
  if String.prefix sub s then Some 0%nat
  else match s with
       | EmptyString => None
       | String _ s' => S <$> find sub s'
       end.

(** [sub in s] *)
Definition contains (sub s : string) : bool :=
  match find sub s with Some _ => true | None => false end.

(** [s[n:]] *)
Fixpoint drop_str (n : nat) (s : string) : string :=
  match n, s with
  | O, _ => s
  | S n', String _ s' => drop_str n' s'
  | S _, EmptyString => EmptyString
  end.

(** [s[:n]] *)
Fixpoint take_str (n : nat) (s : string) : string :=
  match n, s with
  | S n', String c s' => String c (take_str n' s')
  | _, _ => EmptyString
  end.

Definition lower_char (c : ascii) : ascii :=
  let n := nat_of_ascii c in
  if (65 <=? n)%nat && (n <=? 90)%nat then ascii_of_nat (n + 32) else c.

(** [s.lower()] *)
Fixpoint lower (s : string) : string :=
  match s with
  | EmptyString => EmptyString
  | String c s' => String (lower_char c) (lower s')
  end.

(** The class [\s]: tab to carriage return, the four separators, space. *)
Definition is_space (c : ascii) : bool :=
  let n := nat_of_ascii c in
  ((9 <=? n)%nat && (n <=? 13)%nat) || ((28 <=? n)%nat && (n <=? 32)%nat).

(** The class [\d]. *)
Definition is_digit (c : ascii) : bool :=
  let n := nat_of_ascii c in (48 <=? n)%nat && (n <=? 57)%nat.

(** The longest prefix of characters satisfying [p], and its length. *)
Fixpoint span_len (p : ascii -> bool) (s : string) : nat :=
  match s with
  | String c s' => if p c then S (span_len p s') else O
  | EmptyString => O
  end.

(** A literal of the pattern matched at the head of [s], ignoring case
    when [ci] is set ([pat] is written in lower case); the rest of [s]. *)
Fixpoint match_literal (ci : bool) (pat s : string) : option string :=
  match pat, s with
  | EmptyString, _ => Some s
  | String p pat', String c s' =>
      if Ascii.eqb p (if ci then lower_char c else c) then match_literal ci pat' s' else None
  | String _ _, EmptyString => None
  end.

(** The pattern [https?://[^\s\n]+] under [re.IGNORECASE] at the head of
    [s]: the length of the match. *)
Definition match_url (s : string) : option nat :=
  r ← match_literal true "http" s;
  let with_s := r' ← match_literal true "s" r; r'' ← match_literal true "://" r'; Some (5%nat, r'') in
  let without_s := r'' ← match_literal true "://" r; Some (4%nat, r'') in
  '(n, rest) ← (match with_s with Some x => Some x | None => without_s end);
  let run := span_len (fun c => negb (is_space c)) rest in
  if (run =? 0)%nat then None else Some (n + 3 + run)%nat.

(** The pattern [label\s*:\s*(https?://[^\s\n]+)] under [re.IGNORECASE]
    at the head of [s]: the text of group 1. *)
Definition match_label_url (label s : string) : option string :=
  r1 ← match_literal true label s;
  let r2 := drop_str (span_len is_space r1) r1 in
  r3 ← match_literal true ":" r2;
  let r4 := drop_str (span_len is_space r3) r3 in
  n ← match_url r4;
  Some (take_str n r4).

(** [re.search(pattern, s, re.IGNORECASE).group(1)] for the pattern of
    [match_label_url]: the leftmost match. *)
Fixpoint search_label_url (label s : string) : option string :=
  match match_label_url label s with
  | Some url => Some url
  | None =>
      match s with
      | EmptyString => None
      | String _ s' => search_label_url label s'
      end
  end.

(** [int(digits)] for a run of decimal digits. *)
Definition int_of_digits (s : string) : Z :=
  fold_left (fun acc c => 10 * acc + Z.of_nat (nat_of_ascii c - 48))
            (list_ascii_of_string s) 0.

(** The pattern [Program Id:\s*(\d+)] at the head of [s]: the length of
    the match and the digits of group 1. *)
Definition match_program_id (s : string) : option (nat * string) :=
  r1 ← match_literal false "Program Id:" s;
  let sp := span_len is_space r1 in
  let r2 := drop_str sp r1 in
  let n := span_len is_digit r2 in
  if (n =? 0)%nat then None else Some ((11 + sp + n)%nat, take_str n r2).

(** [re.findall(r"Program Id:\s*(\d+)", s)]: the matches from left to
    right, without overlap; [skip] counts the characters of the current
    match still to pass. *)
Fixpoint findall_program_ids (skip : nat) (s : string) : list string :=
  match skip with
  | S k =>
      match s with
      | EmptyString => []
      | String _ s' => findall_program_ids k s'
      end
  | O =>
      match match_program_id s with
      | Some (n, digits) =>
          digits :: match s with
                    | EmptyString => []
                    | String _ s' => findall_program_ids (n - 1) s'
                    end
      | None =>
          match s with
          | EmptyString => []
          | String _ s' => findall_program_ids O s'
          end
      end
  end.

End Text.

(** ** Two-stage retriever ([retrievers.py], [retriever_interface.py]) *)

Module Retrievers.
Import SearchParams.

(** A child document: its text and the [program_id] entry of its metadata,
    which may be missing. *)
Record Document : Type := mkDocument {
  page_content : string;
  metadata_program_id : option doc_id
}.

(** The retriever object that the vector store hands out. *)
Record Retriever : Type := mkRetriever {
  retriever_invoke : string -> result (list Document)
}.

(** The vector store: [as_retriever], called with the entries of
    [search_params] as keyword arguments. *)
Record Vectorstore : Type := mkVectorstore {
  as_retriever : search_params_t -> result Retriever
}.

(** [RetrieverConfig]: the field [search_params] is an [Optional[dict]]. *)
Record RetrieverConfig : Type := mkConfig {
  rewritten_query : string;
  search_params : option search_params_t
}.

(** [FilterRetriever]: [self.vectorstore] is [None] when the constructor
    failed to open the collection. *)
Record FilterRetriever : Type := mkFilterRetriever {
  vectorstore : option Vectorstore
}.

(** [self.vectorstore.as_retriever] on the unpacked [search_params] *)
Definition call_as_retriever (vs : option Vectorstore) (sp : option search_params_t)
  : result Retriever :=
  match vs with
  | None => Raise (AttributeError "'NoneType' object has no attribute 'as_retriever'")
  | Some v =>
      match sp with
      | None => Raise (TypeError "argument after ** must be a mapping, not NoneType")
      | Some p => as_retriever v p
      end
  end.

(** [config.search_params.get("search_kwargs", {}).get("k", "") or 10] *)
Definition fallback_k (sp : option search_params_t) : result Z :=
  match sp with
  | None => Raise (AttributeError "'NoneType' object has no attribute 'get'")
  | Some p =>
      match search_kwargs p with
      | None => Ok 10
      | Some kw => Ok (if truthy_int (kw_k kw) then default 10 (kw_k kw) else 10)
      end
  end.

(** The fallback of [FilterRetriever.invoke]: a retriever without filter. *)
Definition basic_retriever (vs : option Vectorstore) (sp : option search_params_t)
  : result Retriever :=
  match vs with
  | None => Raise (AttributeError "'NoneType' object has no attribute 'as_retriever'")
  | Some v =>
      k ← fallback_k sp;
      as_retriever v (mkParams None (Some (mkKwargs (Some k) None)))
  end.

(** [FilterRetriever.invoke]: the dictionary [{"content": results}]. *)
Definition filter_retriever_invoke (self : FilterRetriever) (config : RetrieverConfig)
  : result (gmap string (list Document)) :=
  let search_params := search_params config in
  let rewritten_query := rewritten_query config in
  retriever ←
    try_except (r ← call_as_retriever (vectorstore self) search_params; Ok (Some r))
      (fun _ =>
         try_except (r ← basic_retriever (vectorstore self) search_params; Ok (Some r))
           (fun _ => Ok None));
  match vectorstore self, retriever with
  | Some _, Some r =>
      try_except (results ← retriever_invoke r rewritten_query;
                  Ok {[ "content" := results ]})
        (fun _ => Ok {[ "content" := [] ]})
  | _, _ => Ok {[ "content" := [] ]}
  end.

(** [str(doc.metadata["program_id"])] *)
Definition str_of_id (i : doc_id) : string :=
  match i with
  | IdInt z => pretty z
  | IdStr s => s
  end.

Definition doc_program_id (d : Document) : result string :=
  match metadata_program_id d with
  | Some i => Ok (str_of_id i)
  | None => Raise (KeyError "program_id")
  end.

(** A list comprehension or loop whose body may raise. *)
Fixpoint mapM {A B} (f : A -> result B) (l : list A) : result (list B) :=
  match l with
  | [] => Ok []
  | a :: l' => b ← f a; bs ← mapM f l'; Ok (b :: bs)
  end.

Section ChildParent.
(** The parent records of the JSON file and their formatter
    [format_program_for_context], which fails on a record that is not a
    dictionary. *)
Context {Parent : Type}.
Variable format_program_for_context : Parent -> result string.

(** [ChildParentRetriever]: three partition retrievers, and the outcome
    of opening and parsing the parent JSON file. *)
Record ChildParentRetriever : Type := mkChildParent {
  grande_ecole_retriever : FilterRetriever;
  ecole_specialisee_retriever : FilterRetriever;
  specialization_retriever : FilterRetriever;
  load_parent_json : result (list (string * Parent))
}.

(** [x.get("content", []) if x else []] *)
Definition content_of (d : gmap string (list Document)) : list Document :=
  if decide (d = ∅) then [] else default [] (d !! "content").

(** The [try] block of [multiple_invoke]. *)
Definition multiple_invoke_try (self : ChildParentRetriever) (config : RetrieverConfig)
  : result (gmap string (list string)) :=
  let cfg := mkConfig (rewritten_query config) (search_params config) in
  grande_ecole_result ← filter_retriever_invoke (grande_ecole_retriever self) cfg;
  ecole_specialisee_result ← filter_retriever_invoke (ecole_specialisee_retriever self) cfg;
  specialization_result ← filter_retriever_invoke (specialization_retriever self) cfg;
  let children_docs :=
    content_of grande_ecole_result ++ content_of specialization_result
      ++ content_of ecole_specialisee_result in
  parent_docs ← load_parent_json self;
  ids ← mapM doc_program_id children_docs;
  results ← mapM (fun kv => format_program_for_context (snd kv))
                 (filter (fun kv => fst kv ∈ ids) parent_docs);
  Ok {[ "content" := results; "ids" := ids ]}.

(** [ChildParentRetriever.multiple_invoke] *)
Definition multiple_invoke (self : ChildParentRetriever) (config : RetrieverConfig)
  : result (gmap string (list string)) :=
  try_except (multiple_invoke_try self config) (fun _ => Ok {[ "content" := [] ]}).

End ChildParent.

End Retrievers.

(** ** Agents ([agents.py], [models.py]) *)

Module Agents.
Import Text SearchParams Retrievers.

(** The [messages] entry of the state: the joined history text, or the
    empty list when the conversation has no message yet. *)
Inductive history : Type :=
  | NoMessages
  | HistoryText (text : string).

(** [State]: a field is [None] when the key is absent.  [excluded_ids] and
    [price_campus_info] may be present and hold Python's [None]. *)
Record State : Type := mkState {
  query : option string;
  messages : option history;
  content : option (list string);
  response : option string;
  st_rewritten_query : option string;
  program_type : option (list string);
  excluded_ids : option (option (list doc_id));
  question_category : option string;
  retriever_intent : option string;
  price_campus_info : option (option PriceCampusExtraction);
  entry_level : option (list string)
}.

Definition empty_state : State :=
  mkState None None None None None None None None None None None.

(** [dict.update]: the keys of [u] override those of [st]. *)
Definition update (st u : State) : State :=
  mkState (query u ∪ query st) (messages u ∪ messages st) (content u ∪ content st)
          (response u ∪ response st) (st_rewritten_query u ∪ st_rewritten_query st)
          (program_type u ∪ program_type st) (excluded_ids u ∪ excluded_ids st)
          (question_category u ∪ question_category st)
          (retriever_intent u ∪ retriever_intent st)
          (price_campus_info u ∪ price_campus_info st)
          (entry_level u ∪ entry_level st).

(** The value a node returns: a partial state, or [None]. *)
Definition apply_node_output (st : State) (out : option State) : State :=
  match out with
  | Some u => update st u
  | None => st
  end.

(** A value substituted into a prompt template. *)
Inductive prompt_value : Type :=
  | PvNone
  | PvStr (s : string)
  | PvHistory (h : history)
  | PvContent (formatted : string).

(** A formatted prompt: the template's name and the values substituted. *)
Record Prompt : Type := mkPrompt {
  prompt_name : string;
  prompt_vars : list (string * prompt_value)
}.

(** The four extraction tasks handed to [asyncio.gather], in argument
    order. *)
Inductive task : Type :=
  | ProgramTask
  | PriceCampusTask
  | RetrieverTask
  | EntryLevelTask.

#[global] Instance task_eq_dec : EqDecision task.
Proof. solve_decision. Defined.

(** The collaborators of the agents: prompt store, models, configuration
    and the cached retriever.  A model call returns the value it yields or
    the exception it raises; a structured call may yield [None].
    [classifier_answer] is the value the classification model gives for
    [question_category], before it is checked against the schema. *)
Record Env (Parent : Type) : Type := mkEnv {
  prompt_loaded : string -> bool;
  llm_grok_ainvoke : Prompt -> result string;
  classifier_answer : Prompt -> result (option string);
  llm_4_1_mini_ainvoke : Prompt -> result string;
  deep_seek_chat_ainvoke : Prompt -> result string;
  program_extraction_ainvoke : Prompt -> result (option (list string));
  price_campus_extraction_ainvoke : Prompt -> result (option PriceCampusExtraction);
  retriever_selection_ainvoke : Prompt -> result (option string);
  entry_level_ainvoke : Prompt -> result (option (list string));
  stream_llm_response : Prompt -> result string;
  completion_order : list task;
  json_dir : option string;
  embeddings_name : option string;
  cached_retriever : result (@ChildParentRetriever Parent);
  format_program_for_context : Parent -> result string
}.
Arguments prompt_loaded {Parent} _ _.
Arguments llm_grok_ainvoke {Parent} _ _.
Arguments classifier_answer {Parent} _ _.
Arguments llm_4_1_mini_ainvoke {Parent} _ _.
Arguments deep_seek_chat_ainvoke {Parent} _ _.
Arguments program_extraction_ainvoke {Parent} _ _.
Arguments price_campus_extraction_ainvoke {Parent} _ _.
Arguments retriever_selection_ainvoke {Parent} _ _.
Arguments entry_level_ainvoke {Parent} _ _.
Arguments stream_llm_response {Parent} _ _.
Arguments completion_order {Parent} _.
Arguments json_dir {Parent} _.
Arguments embeddings_name {Parent} _.
Arguments cached_retriever {Parent} _.
Arguments format_program_for_context {Parent} _ _.

(** The values of the [Literal] of [FiveWayQueryClassifier.question_category]. *)
Definition question_categories : list string :=
  ["program_selection"; "rules"; "follow_up"; "general"].

(** An entry of the list [asyncio.gather] returns: the task's value, or,
    with [return_exceptions=True], the exception it raised. *)
Inductive gathered (A : Type) : Type :=
  | Value (a : A)
  | Exc (e : exn).
Arguments Value {A} a.
Arguments Exc {A} e.

Definition as_gathered {A} (r : result A) : gathered A :=
  match r with Ok a => Value a | Raise e => Exc e end.

Definition failure_of {A} (r : result A) : option exn :=
  match r with Ok _ => None | Raise e => Some e end.

(** [asyncio.gather(a, b, c, d, return_exceptions=...)].  Without
    [return_exceptions], the first exception raised, in the order in
    which the tasks complete, is propagated to the awaiting caller. *)
Definition gather {A B C D} (return_exceptions : bool) (order : list task)
    (a : result A) (b : result B) (c : result C) (d : result D)
  : result (gathered A * gathered B * gathered C * gathered D) :=
  if return_exceptions then Ok (as_gathered a, as_gathered b, as_gathered c, as_gathered d)
  else
    let failure (t : task) : option exn :=
      match t with
      | ProgramTask => failure_of a
      | PriceCampusTask => failure_of b
      | RetrieverTask => failure_of c
      | EntryLevelTask => failure_of d
      end in
    match omap failure (order ++ [ProgramTask; PriceCampusTask; RetrieverTask; EntryLevelTask]) with
    | e :: _ => Raise e
    | [] => Ok (as_gathered a, as_gathered b, as_gathered c, as_gathered d)
    end.

(** [result.attr] on an entry of the gathered list. *)
Definition gathered_attr {A} (g : gathered (option A)) (name : string) : result A :=
  match g with
  | Value o => getattr o name id
  | Exc _ => Raise (AttributeError ("exception object has no attribute '" +:+ name +:+ "'"))
  end.

(** The object itself, not an attribute of it. *)
Definition gathered_value {A} (g : gathered (option A)) : option (option A) :=
  match g with
  | Value o => Some o
  | Exc _ => None
  end.

Section WithEnv.
Context {Parent : Type}.
Variable env : Env Parent.

(** [pull_prompt_from_langsmith(name).format_messages] on the variables: the pull
    returns [None] when the prompt cannot be fetched. *)
Definition format_messages (name : string) (vars : list (string * prompt_value))
  : result Prompt :=
  if prompt_loaded env name then Ok (mkPrompt name vars)
  else Raise (AttributeError "'NoneType' object has no attribute 'format_messages'").

(** [deep_seek_chat.with_structured_output(FiveWayQueryClassifier).ainvoke]:
    the answer is parsed into the schema, and a value outside the literal
    of [question_category] is a validation error. *)
Definition classifier_ainvoke (combined_prompt : Prompt) : result (option string) :=
  answer ← classifier_answer env combined_prompt;
  match answer with
  | Some c =>
      if decide (c ∈ question_categories) then Ok (Some c)
      else Raise (ExternalError
                    "question_category: Input should be 'program_selection', 'rules', 'follow_up' or 'general'")
  | None => Ok None
  end.

(** [state.get("rewritten_query", "")] *)
Definition rewritten_query_or_empty (state : State) : string :=
  default "" (st_rewritten_query state).

(** [state.get("rewritten_query")] *)
Definition rewritten_query_or_none (state : State) : prompt_value :=
  match st_rewritten_query state with
  | Some s => PvStr s
  | None => PvNone
  end.

(** [state.get("messages", [])] *)
Definition messages_or_empty (state : State) : history :=
  default NoMessages (messages state).

(** [state.get("messages")] *)
Definition messages_or_none (state : State) : prompt_value :=
  match messages state with
  | Some h => PvHistory h
  | None => PvNone
  end.

Definition rewrite_query_agent (state : State) : result (option State) :=
  let user_input := default "" (query state) in
  let chat_history := messages_or_empty state in
  combined_prompt ← format_messages "rewritten-query-prompt"
    [("user_input", PvStr user_input); ("chat_history", PvHistory chat_history)];
  try_except
    (rewritten_query ← llm_grok_ainvoke env combined_prompt;
     Ok (Some {| query := None; messages := None; content := None; response := None;
                 st_rewritten_query := Some rewritten_query; program_type := None;
                 excluded_ids := None; question_category := None;
                 retriever_intent := None; price_campus_info := None;
                 entry_level := None |}))
    (fun _ => Ok None).

Definition category_update (c : string) : State :=
  {| query := None; messages := None; content := None; response := None;
     st_rewritten_query := None; program_type := None; excluded_ids := None;
     question_category := Some c; retriever_intent := None;
     price_campus_info := None; entry_level := None |}.

Definition query_classification_agent (state : State) : result (option State) :=
  let rewritten_query := rewritten_query_or_empty state in
  let chat_history := messages_or_empty state in
  combined_prompt ← format_messages "query-classifier-prompt-test"
    [("rewritten_query", PvStr rewritten_query); ("chat_history", PvHistory chat_history)];
  try_except
    (response ← classifier_ainvoke combined_prompt;
     c ← getattr response "question_category" id;
     Ok (Some (category_update c)))
    (fun _ => Ok (Some (category_update "general"))).

Definition response_update (r : string) : State :=
  {| query := None; messages := None; content := None; response := Some r;
     st_rewritten_query := None; program_type := None; excluded_ids := None;
     question_category := None; retriever_intent := None;
     price_campus_info := None; entry_level := None |}.

Definition general_question_agent (state : State) : result (option State) :=
  let user_input := rewritten_query_or_empty state in
  let chat_history := messages_or_empty state in
  combined_prompt ← format_messages "general-question-prompt"
    [("user_input", PvStr user_input); ("chat_history", PvHistory chat_history)];
  try_except
    (full_response ← llm_4_1_mini_ainvoke env combined_prompt;
     Ok (Some (response_update full_response)))
    (fun _ => Ok None).

Definition follow_up_agent (state : State) : result (option State) :=
  let user_input := rewritten_query_or_none state in
  let chat_history := messages_or_none state in
  combined_prompt ← format_messages "follow-up-questions-prompt-test"
    [("user_input", user_input); ("chat_history", chat_history)];
  try_except
    (full_response ← deep_seek_chat_ainvoke env combined_prompt;
     Ok (Some (response_update full_response)))
    (fun _ => Ok None).

Definition rules_agent (state : State) : result (option State) :=
  let user_input := rewritten_query_or_empty state in
  combined_prompt ← format_messages "rules-agent-prompt"
    [("user_input", PvStr user_input)];
  try_except
    (full_response ← deep_seek_chat_ainvoke env combined_prompt;
     Ok (Some (response_update full_response)))
    (fun _ => Ok None).

Definition filter_parameters_extraction_agent (state : State) : result State :=
  let user_input := rewritten_query_or_empty state in
  let chat_history := messages_or_empty state in
  price_campus_prompt ← format_messages "price_prompt_test"
    [("user_input", PvStr user_input)];
  let price_campus_extraction_task := price_campus_extraction_ainvoke env price_campus_prompt in
  program_prompt ← format_messages "program-extraction-promopt-test"
    [("user_input", PvStr user_input)];
  let program_extraction_task := program_extraction_ainvoke env program_prompt in
  retriever_prompt ← format_messages "retriever-selection-prompt"
    [("user_input", PvStr user_input); ("chat_history", PvHistory chat_history)];
  let retriever_selection_task := retriever_selection_ainvoke env retriever_prompt in
  entry_level_prompt ← format_messages "entry-level-prompt"
    [("user_input", PvStr user_input)];
  let entry_level_task := entry_level_ainvoke env entry_level_prompt in
  '(program_result, price_campus_result, retriever_result, entry_level_result) ←
    gather false (completion_order env) program_extraction_task
      price_campus_extraction_task retriever_selection_task entry_level_task;
  (* the dictionary literal of the loop, entry by entry *)
  program_types ← gathered_attr program_result "program_type";
  let pci := gathered_value price_campus_result in
  intent ← gathered_attr retriever_result "retriever_intent";
  levels ← gathered_attr entry_level_result "entry_level";
  (* every entry is a non-empty dictionary: each one is merged *)
  Ok {| query := None; messages := None; content := None; response := None;
        st_rewritten_query := None; program_type := Some program_types;
        excluded_ids := None; question_category := None;
        retriever_intent := Some intent; price_campus_info := pci;
        entry_level := Some levels |}.

Definition content_update (c : list string) : State :=
  {| query := None; messages := None; content := Some c; response := None;
     st_rewritten_query := None; program_type := None; excluded_ids := None;
     question_category := None; retriever_intent := None;
     price_campus_info := None; entry_level := None |}.

(** [exclude] as [child_parent_retriever_agent] computes it. *)
Definition exclude_flag (state : State) : bool :=
  bool_decide (default "NEW" (retriever_intent state) = "NEW").

(** The search parameters built by [child_parent_retriever_agent]. *)
Definition agent_search_params (state : State) : result search_params_t :=
  let program_type := default [] (program_type state) in
  let excluded_ids := default (Some []) (excluded_ids state) in
  let price_campus_info := default None (price_campus_info state) in
  let entry_level := Some (default [] (entry_level state)) in
  let k := 14 in
  child_parent_retriever_search_params program_type k excluded_ids price_campus_info
    entry_level (exclude_flag state).

Definition child_parent_retriever_agent (state : State) : result (option State) :=
  try_except
    (if negb (truthy_str (json_dir env)) then Ok (Some (content_update []))
     else if negb (truthy_str (embeddings_name env)) then Ok (Some (content_update []))
     else
       let rewritten_query := rewritten_query_or_empty state in
       retriever ← cached_retriever env;
       search_params ← agent_search_params state;
       results ← multiple_invoke (format_program_for_context env) retriever
                   (mkConfig rewritten_query (Some search_params));
       Ok (Some (content_update (default [] (results !! "content")))))
    (fun _ => Ok (Some (content_update []))).

(** [format_content]: the blocks joined by a separator line. *)
Definition format_content (content : option (list string)) : result string :=
  match content with
  | None => Raise (TypeError "'NoneType' object is not iterable")
  | Some items => Ok (str_join (newline +:+ newline +:+ "----" +:+ newline +:+ newline) items)
  end.

Definition sg_bot_agent (program_ids_of : string -> list Z) (state : State)
  : result (option State) :=
  let user_input := rewritten_query_or_none state in
  let chat_history := messages_or_none state in
  formatted_content ← format_content (content state);
  combined_prompt ← format_messages "system-prompt-test"
    [("user_input", user_input); ("chat_history", chat_history);
     ("content", PvContent formatted_content)];
  try_except
    (full_response ← stream_llm_response env combined_prompt;
     let program_ids := map IdInt (program_ids_of full_response) in
     Ok (Some {| query := None; messages := None; content := None;
                 response := Some full_response; st_rewritten_query := None;
                 program_type := None; excluded_ids := Some (Some program_ids);
                 question_category := None; retriever_intent := None;
                 price_campus_info := None; entry_level := None |}))
    (fun _ =>
       Ok (Some {| query := None; messages := None; content := None;
                   response := Some "I apologize, but I'm experiencing technical difficulties. Please try rephrasing your question or contact support if the issue persists.";
                   st_rewritten_query := None;
                   program_type := None; excluded_ids := Some (Some []);
                   question_category := None; retriever_intent := None;
                   price_campus_info := None; entry_level := None |})).

End WithEnv.

(** The state with its [query] entry replaced. *)
Definition with_query (q : option string) (st : State) : State :=
  mkState q (messages st) (content st) (response st) (st_rewritten_query st)
          (program_type st) (excluded_ids st) (question_category st)
          (retriever_intent st) (price_campus_info st) (entry_level st).

(** The prompts of the four extraction tasks for a state. *)
Definition price_campus_prompt (st : State) : Prompt :=
  mkPrompt "price_prompt_test" [("user_input", PvStr (rewritten_query_or_empty st))].

Definition program_prompt (st : State) : Prompt :=
  mkPrompt "program-extraction-promopt-test"
           [("user_input", PvStr (rewritten_query_or_empty st))].

Definition retriever_prompt (st : State) : Prompt :=
  mkPrompt "retriever-selection-prompt"
           [("user_input", PvStr (rewritten_query_or_empty st));
            ("chat_history", PvHistory (messages_or_empty st))].

Definition entry_level_prompt (st : State) : Prompt :=
  mkPrompt "entry-level-prompt" [("user_input", PvStr (rewritten_query_or_empty st))].

End Agents.

(** ** Workflow graph ([workflow.py], [_build_graph]) *)

Module Graph.
Import Text SearchParams Retrievers Agents.

Definition START : string := "__start__".
Definition END_ : string := "__end__".

(** The destination mapping of the conditional edge. *)
Definition path_map : gmap string string :=
  {[ "program_selection" := "filter_parameters_extraction";
     "rules" := "rules";
     "follow_up" := "follow_up";
     "general" := "general_question" ]}.

(** The unconditional edges, in the order of the [add_edge] calls. *)
Definition edges : gmap string string :=
  {[ START := "rewrite_query_agent";
     "rewrite_query_agent" := "query_classification_agent";
     "rules" := END_;
     "follow_up" := END_;
     "general_question" := END_;
     "filter_parameters_extraction" := "child_parent_retriever";
     "child_parent_retriever" := "sg_bot";
     "sg_bot" := END_ ]}.

(** [lambda state: state.get("question_category", "general")] *)
Definition route (state : State) : string :=
  default "general" (question_category state).

(** The node chosen after the classification node: the entry of the
    mapping for the routed key; a key without entry has no destination. *)
Definition route_after_classification (state : State) : option string :=
  path_map !! route state.

(** The node that follows [node] in state [state]. *)
Definition next_node (node : string) (state : State) : result string :=
  if decide (node = "query_classification_agent") then
    match route_after_classification state with
    | Some n => Ok n
    | None => Raise (KeyError (route state))
    end
  else
    match edges !! node with
    | Some n => Ok n
    | None => Raise (KeyError node)
    end.

(** The last node before [END_] on the unconditional edges from [node]. *)
Fixpoint terminal_node (fuel : nat) (node : string) : option string :=
  match fuel with
  | O => None
  | S fuel' =>
      match edges !! node with
      | Some n => if decide (n = END_) then Some node else terminal_node fuel' n
      | None => None
      end
  end.

Section Run.
Context {Parent : Type}.
Variable env : Env Parent.

(** [re.findall(r"Program Id:\s*(\d+)", ...)] followed by [int]. *)
Definition program_ids_of (response : string) : list Z :=
  map int_of_digits (findall_program_ids 0 response).

(** The function registered for each node by [add_node]. *)
Definition node_action (node : string) : option (State -> result (option State)) :=
  if decide (node = "rewrite_query_agent") then Some (rewrite_query_agent env)
  else if decide (node = "query_classification_agent") then Some (query_classification_agent env)
  else if decide (node = "general_question") then Some (general_question_agent env)
  else if decide (node = "rules") then Some (rules_agent env)
  else if decide (node = "follow_up") then Some (follow_up_agent env)
  else if decide (node = "child_parent_retriever") then Some (child_parent_retriever_agent env)
  else if decide (node = "filter_parameters_extraction")
       then Some (fun st => u ← filter_parameters_extraction_agent env st; Ok (Some u))
  else if decide (node = "sg_bot") then Some (sg_bot_agent env program_ids_of)
  else None.

(** One run of the compiled graph from [node]: the nodes executed and
    the final state.  [fuel] is the recursion limit of the graph. *)
Fixpoint run_from (fuel : nat) (node : string) (state : State) (visited : list string)
  : result (list string * State) :=
  match fuel with
  | O => Raise (ExternalError "recursion limit reached")
  | S fuel' =>
      if decide (node = END_) then Ok (visited, state)
      else
        match node_action node with
        | None => Raise (KeyError node)
        | Some action =>
            out ← action state;
            let state' := apply_node_output state out in
            next ← next_node node state';
            run_from fuel' next state' (visited ++ [node])
        end
  end.

Definition recursion_limit : nat := 25.

Definition run_graph (initial_state : State) : result (list string * State) :=
  match edges !! START with
  | Some first => run_from recursion_limit first initial_state []
  | None => Raise (KeyError START)
  end.

End Run.

End Graph.

(** ** Streaming loop ([workflow.py], [stream_workflow]) *)

Module Stream.
Import Text SearchParams Agents.

(** A JSON value held by the dictionaries that the stream yields. *)
Inductive jvalue : Type :=
  | JNull
  | JBool (b : bool)
  | JStr (s : string).

#[global] Instance jvalue_eq_dec : EqDecision jvalue.
Proof. solve_decision. Defined.

(** What [stream_workflow] yields: a string or a dictionary. *)
Inductive chunk : Type :=
  | TextChunk (s : string)
  | DictChunk (d : gmap string jvalue).

(** An event of [astream_events]: its kind, the [langgraph_node] entry of
    its metadata, and its data. *)
Inductive event : Type :=
  | OnChatModelStream (langgraph_node : option string) (chunk_content : option string)
  | OnChainEnd (langgraph_node : option string) (output : option State)
  | OtherEvent.

Definition STREAMING_NODES : list string :=
  ["general_question"; "rules"; "follow_up"; "sg_bot"].

Definition marker : string := "----program start----".

(** The local variables and instance attributes of the loop. *)
Record loop_state : Type := mkLoop {
  new_excluded_ids : list doc_id;
  rewritten_query : option string;
  response_type : option string;
  content_yielded : bool;
  line_buffer : string;
  in_school_logo_line : bool;
  inside_program_section : bool;
  preamble_buffer : string
}.

Definition jopt (o : option string) : jvalue :=
  match o with Some s => JStr s | None => JNull end.

Definition early_metadata (rt : string) : gmap string jvalue :=
  {[ "type" := JStr "metadata"; "response_type" := JStr rt ]}.

Definition logo_metadata (url : string) : gmap string jvalue :=
  {[ "type" := JStr "school_logo"; "school_logo" := JStr url ]}.

Definition program_metadata (url : string) : gmap string jvalue :=
  {[ "type" := JStr "program_link"; "program_link" := JStr url ]}.

Definition final_metadata (run_id rewritten : option string) : gmap string jvalue :=
  {[ "type" := JStr "metadata"; "run_id" := jopt run_id;
     "rewritten_query" := jopt rewritten ]}.

Definition stream_complete : gmap string jvalue :=
  {[ "__stream_complete__" := JBool true ]}.

Section Loop.
(** [json.dumps] on the dictionaries above. *)
Variable json_dumps : gmap string jvalue -> string.

(** The typed event of an annotation line and its JSON line. *)
Definition annotation (label : string) (meta : string -> gmap string jvalue)
    (buffer : string) : list chunk :=
  match search_label_url label buffer with
  | Some url => [DictChunk (meta url); TextChunk (json_dumps (meta url) +:+ newline)]
  | None => []
  end.

(** The block under [if not inside_program_section:]. *)
Definition preamble_step (st : loop_state) (content : string) : loop_state * list chunk :=
  let preamble := preamble_buffer st +:+ content in
  match find marker preamble with
  | None =>
      (mkLoop (new_excluded_ids st) (rewritten_query st) (response_type st)
              (content_yielded st) (line_buffer st) (in_school_logo_line st)
              (inside_program_section st) preamble,
       [TextChunk content])
  | Some idx =>
      let after_marker := drop_str (idx + String.length marker) preamble in
      (mkLoop (new_excluded_ids st) (rewritten_query st) (response_type st)
              (content_yielded st) (line_buffer st +:+ after_marker)
              (in_school_logo_line st) true "",
       [TextChunk (marker +:+ newline)])
  end.

(** The block under [if inside_program_section:]. *)
Definition section_step (st : loop_state) (content : string) : loop_state * list chunk :=
  let buffer := line_buffer st +:+ content in
  let in_logo :=
    if contains "school logo" (lower buffer) && negb (in_school_logo_line st)
    then true else in_school_logo_line st in
  let with_buffer (b : string) (logo : bool) :=
    mkLoop (new_excluded_ids st) (rewritten_query st) (response_type st)
           (content_yielded st) b logo (inside_program_section st)
           (preamble_buffer st) in
  if in_logo && contains newline buffer then
    (with_buffer "" false, annotation "school logo" logo_metadata buffer)
  else if contains "program link" (lower buffer) && contains newline buffer then
    (with_buffer "" in_logo, annotation "program link" program_metadata buffer)
  else if negb in_logo && negb (contains "program link" (lower buffer))
          && contains newline buffer then
    (with_buffer "" in_logo, [TextChunk buffer])
  else (with_buffer buffer in_logo, []).

(** The treatment of a non-empty chunk of a streaming node. *)
Definition content_step (st : loop_state) (content : string) : loop_state * list chunk :=
  let st1 :=
    mkLoop (new_excluded_ids st) (rewritten_query st) (response_type st) true
           (line_buffer st) (in_school_logo_line st) (inside_program_section st)
           (preamble_buffer st) in
  if decide (response_type st1 = Some "programs") then
    let '(st2, out2) :=
      if inside_program_section st1 then (st1, [])
      else preamble_step st1 content in
    let '(st3, out3) :=
      if inside_program_section st2 then section_step st2 content
      else (st2, []) in
    (st3, out2 ++ out3)
  else (st1, [TextChunk content]).

(** [node_name in STREAMING_NODES] *)
Definition is_streaming_node (node : option string) : bool :=
  match node with
  | Some n => bool_decide (n ∈ STREAMING_NODES)
  | None => false
  end.

(** One iteration of the [async for] loop. *)
Definition step (st : loop_state) (ev : event) : result (loop_state * list chunk) :=
  match ev with
  | OnChatModelStream node_name content =>
      if is_streaming_node node_name then
        let '(st1, out1) :=
          match response_type st with
          | None =>
              let rt := if decide (node_name = Some "sg_bot") then "programs" else "text" in
              (mkLoop (new_excluded_ids st) (rewritten_query st) (Some rt)
                      (content_yielded st) (line_buffer st) (in_school_logo_line st)
                      (inside_program_section st) (preamble_buffer st),
               [DictChunk (early_metadata rt)])
          | Some _ => (st, [])
          end in
        if truthy_str content then
          let '(st2, out2) := content_step st1 (default "" content) in
          Ok (st2, out1 ++ out2)
        else Ok (st1, out1)
      else Ok (st, [])
  | OnChainEnd node_name output =>
      if truthy_str node_name then
        match output with
        | Some node_data =>
            ids ← match excluded_ids node_data with
                  | None => Ok (new_excluded_ids st)
                  | Some (Some l) => Ok (new_excluded_ids st ++ l)
                  | Some None => Raise (TypeError "'NoneType' object is not iterable")
                  end;
            let rq := match st_rewritten_query node_data with
                      | Some q => Some q
                      | None => rewritten_query st
                      end in
            Ok (mkLoop ids rq (response_type st) (content_yielded st) (line_buffer st)
                       (in_school_logo_line st) (inside_program_section st)
                       (preamble_buffer st), [])
        | None => Ok (st, [])
        end
      else Ok (st, [])
  | OtherEvent => Ok (st, [])
  end.

(** The loop over the events: the final state, the chunks yielded and
    the exception that ended the loop, if any. *)
Fixpoint consume (st : loop_state) (events : list event)
  : loop_state * list chunk * option exn :=
  match events with
  | [] => (st, [], None)
  | ev :: rest =>
      match step st ev with
      | Raise e => (st, [], Some e)
      | Ok (st', out) =>
          let '(st'', out', err) := consume st' rest in
          (st'', out ++ out', err)
      end
  end.

(** The statements after the loop. *)
Definition finish (run_id : option string) (st : loop_state) : list chunk :=
  (if truthy_str (Some (line_buffer st)) && negb (in_school_logo_line st)
   then [TextChunk (line_buffer st)] else [])
  ++ (if content_yielded st
      then [DictChunk (final_metadata run_id (rewritten_query st));
            DictChunk stream_complete]
      else []).

Definition initial_loop (excluded : option (list doc_id)) : loop_state :=
  mkLoop (default [] excluded) None None false "" false false "".

(** What one call of [stream_workflow] produces: the chunks it yields,
    and the exception it re-raises, if any.  [conversion] is the outcome
    of converting the stored messages, [events] the events of the graph
    and [failure] the exception with which the graph's event stream
    ends, if it does. *)
Definition stream_workflow (run_id : option string) (excluded : option (list doc_id))
    (conversion : result history) (events : list event) (failure : option exn)
  : list chunk * option exn :=
  match conversion with
  | Raise e => ([], Some e)
  | Ok _ =>
      let '(st, out, err) := consume (initial_loop excluded) events in
      match err with
      | Some e => (out, Some e)
      | None =>
          match failure with
          | Some e => (out, Some e)
          | None => (out ++ finish run_id st, None)
          end
      end
  end.

(** *** Reading of the loop in the program section

    The text received since the last flush forms a unit; the following
    definitions state what a unit yields once a newline has arrived.
    They are compared with [step] in the properties. *)

(** What a complete unit yields. *)
Definition unit_output (text : string) : list chunk :=
  if contains "school logo" (lower text) then annotation "school logo" logo_metadata text
  else if contains "program link" (lower text)
       then annotation "program link" program_metadata text
  else [TextChunk text].

(** A chunk of text streamed by the grounded-generation node. *)
Definition sg_bot_event (c : string) : event :=
  OnChatModelStream (Some "sg_bot") (Some c).


(** What a sequence of units yields, the first one being appended to the
    pending text [pending]. *)
Fixpoint units_output (pending : string) (units : list (list string * string))
  : list chunk :=
  match units with
  | [] => []
  | (pieces, last) :: rest =>
      unit_output (pending +:+ foldr String.append "" pieces +:+ last)
        ++ units_output "" rest
  end.

End Loop.

(** The loop is inside the program section with [pending] buffered and no
    newline seen since the last flush. *)
Definition section_state (st : loop_state) (pending : string) : Prop :=
  response_type st = Some "programs"
  ∧ inside_program_section st = true
  ∧ line_buffer st = pending
  ∧ in_school_logo_line st = contains "school logo" (lower pending)
  ∧ contains newline pending = false.


(** A chunk that carries the [response_type] key. *)
Definition is_response_type (c : chunk) : bool :=
  match c with
  | DictChunk d => bool_decide (is_Some (d !! "response_type"))
  | TextChunk _ => false
  end.

Definition is_text (c : chunk) : bool :=
  match c with TextChunk _ => true | DictChunk _ => false end.

(** The value of [response_type] when the first streamed chunk comes from
    the node [n]. *)
Definition response_type_of (n : string) : string :=
  if decide (n = "sg_bot") then "programs" else "text".

(** Nothing has been streamed yet. *)
Definition idle (st : loop_state) : Prop :=
  response_type st = None ∧ line_buffer st = "" ∧ content_yielded st = false
  ∧ in_school_logo_line st = false.

End Stream.

(** ** Chat service ([chat_service.py], [stream_chat]) *)

Module ChatService.
Import Text SearchParams Agents Stream.

(** A server-sent frame: [data: <json>] for a string or a dictionary, and
    the terminal [data: [DONE]]. *)
Inductive frame : Type :=
  | DataText (s : string)
  | DataDict (d : gmap string jvalue)
  | DataDone.

Definition error_data (e : exn) : gmap string jvalue :=
  {[ "error" := JStr "Stream interrupted"; "message" := JStr (exn_str e) ]}.

(** The body of the [async for] loop. *)
Definition frame_of_chunk (c : chunk) : option frame :=
  match c with
  | TextChunk s => Some (DataText s)
  | DictChunk d =>
      if decide (is_Some (d !! "__stream_complete__")) then None else Some (DataDict d)
  end.

(** [stream_chat]: [conversation] is the outcome of loading the messages
    and the excluded ids, [bot_stream] the workflow's stream for them.
    Saving the turn after the loop happens inside handlers that swallow
    every exception and yields nothing. *)
Definition stream_chat {M E : Type} (conversation : result (M * E))
    (bot_stream : E -> M -> list chunk * option exn) : list frame :=
  match conversation with
  | Raise e => [DataDict (error_data e); DataDone]
  | Ok (conversation_messages, excluded_ids) =>
      let '(chunks, err) := bot_stream excluded_ids conversation_messages in
      omap frame_of_chunk chunks
        ++ match err with
           | Some e => [DataDict (error_data e); DataDone]
           | None => [DataDone]
           end
  end.

(** The run identifier a frame carries, if it has the key. *)
Definition frame_run_id (f : frame) : option jvalue :=
  match f with
  | DataDict d => d !! "run_id"
  | _ => None
  end.

(** *** The endpoint ([message_controller.py], [stream_message]) *)

(** The body of the loop of [response_generator_with_run_id]: a frame
    that is a dictionary with the key [run_id] updates the run identifier
    kept by the generator. *)
Definition track_run_id (run_id : jvalue) (f : frame) : jvalue :=
  match f with
  | DataDict d =>
      match d !! "run_id" with
      | Some v => v
      | None => run_id
      end
  | _ => run_id
  end.

(** The error dictionary of the endpoint's handler. *)
Definition endpoint_error_data (e : exn) (run_id : jvalue) : gmap string jvalue :=
  {[ "error" := JStr "Stream interrupted"; "message" := JStr (exn_str e);
     "run_id" := run_id ]}.

(** [response_generator_with_run_id]: [frames] are the frames that
    [stream_chat] yields and [raised] the exception with which its
    generator ends, if it does. *)
Definition response_generator_with_run_id (frames : list frame) (raised : option exn)
  : list frame :=
  frames
    ++ match raised with
       | Some e => [DataDict (endpoint_error_data e (foldl track_run_id JNull frames));
                    DataDone]
       | None => []
       end.

(** The response of the endpoint: [stream_chat] handles every exception
    itself, so that its generator ends without one. *)
Definition stream_message {M E : Type} (conversation : result (M * E))
    (bot_stream : E -> M -> list chunk * option exn) : list frame :=
  response_generator_with_run_id (stream_chat conversation bot_stream) None.

End ChatService.

(** ** Concrete collaborators and states used in the examples below *)

Module Examples.
Import Text SearchParams Retrievers Agents Graph Stream ChatService.

(** The value read for the variable [name] of a prompt. *)
Definition prompt_var (name : string) (p : Prompt) : prompt_value :=
  default PvNone (snd <$> (snd <$> list_find (fun kv => fst kv = name) (prompt_vars p))).

(** A rendering of dictionaries for the examples. *)
Definition render (d : gmap string jvalue) : string :=
  match d !! "school_logo", d !! "program_link" with
  | Some (JStr u), _ => "{school_logo: " +:+ u +:+ "}"
  | _, Some (JStr u) => "{program_link: " +:+ u +:+ "}"
  | _, _ => "{}"
  end.

(** A model that answers with the [user_input] it was given. *)
Definition echo (p : Prompt) : result string :=
  match prompt_var "user_input" p with
  | PvStr s => Ok s
  | _ => Ok "None"
  end.

Definition no_price_campus : PriceCampusExtraction := mkPriceCampus None None None None None.

(** A retriever whose three partitions are unavailable and whose parent
    file cannot be opened. *)
Definition broken_retriever : @ChildParentRetriever unit :=
  mkChildParent (mkFilterRetriever None) (mkFilterRetriever None) (mkFilterRetriever None)
                (Raise (ExternalError "No such file or directory")).

(** All model calls succeed. *)
Definition healthy_env : Env unit :=
  {| prompt_loaded := fun _ => true;
     llm_grok_ainvoke := echo;
     classifier_answer := fun _ => Ok (Some "program_selection");
     llm_4_1_mini_ainvoke := echo;
     deep_seek_chat_ainvoke := echo;
     program_extraction_ainvoke := fun _ => Ok (Some ["MBA"]);
     price_campus_extraction_ainvoke := fun _ => Ok (Some no_price_campus);
     retriever_selection_ainvoke := fun _ => Ok (Some "NEW");
     entry_level_ainvoke := fun _ => Ok (Some []);
     stream_llm_response := echo;
     completion_order := [ProgramTask; PriceCampusTask; RetrieverTask; EntryLevelTask];
     json_dir := Some "parents.json";
     embeddings_name := Some "embeddings";
     cached_retriever := Ok broken_retriever;
     format_program_for_context := fun _ => Ok "" |}.

(** As [healthy_env], but the price/campus extraction call raises. *)
Definition price_failure_env : Env unit :=
  {| prompt_loaded := fun _ => true;
     llm_grok_ainvoke := echo;
     classifier_answer := fun _ => Ok (Some "program_selection");
     llm_4_1_mini_ainvoke := echo;
     deep_seek_chat_ainvoke := echo;
     program_extraction_ainvoke := fun _ => Ok (Some ["MBA"]);
     price_campus_extraction_ainvoke := fun _ => Raise (ExternalError "rate limit");
     retriever_selection_ainvoke := fun _ => Ok (Some "NEW");
     entry_level_ainvoke := fun _ => Ok (Some []);
     stream_llm_response := echo;
     completion_order := [ProgramTask; RetrieverTask; EntryLevelTask; PriceCampusTask];
     json_dir := Some "parents.json";
     embeddings_name := Some "embeddings";
     cached_retriever := Ok broken_retriever;
     format_program_for_context := fun _ => Ok "" |}.

(** As [healthy_env], but the rewrite model raises. *)
Definition rewrite_failure_env : Env unit :=
  {| prompt_loaded := fun _ => true;
     llm_grok_ainvoke := fun _ => Raise (ExternalError "timeout");
     classifier_answer := fun _ => Ok (Some "general");
     llm_4_1_mini_ainvoke := echo;
     deep_seek_chat_ainvoke := echo;
     program_extraction_ainvoke := fun _ => Ok (Some ["MBA"]);
     price_campus_extraction_ainvoke := fun _ => Ok (Some no_price_campus);
     retriever_selection_ainvoke := fun _ => Ok (Some "NEW");
     entry_level_ainvoke := fun _ => Ok (Some []);
     stream_llm_response := echo;
     completion_order := [ProgramTask; PriceCampusTask; RetrieverTask; EntryLevelTask];
     json_dir := Some "parents.json";
     embeddings_name := Some "embeddings";
     cached_retriever := Ok broken_retriever;
     format_program_for_context := fun _ => Ok "" |}.

(** The state at the start of a turn. *)
Definition initial_state (q : string) : State :=
  mkState (Some q) (Some NoMessages) None None None None (Some None) None None None None.

(** A turn whose retriever intent is [REPEAT], with two ids excluded
    earlier. *)
Definition repeat_state : State :=
  mkState (Some "show them again") (Some NoMessages) None None (Some "mba programs")
          (Some ["MBA"]) (Some (Some [IdInt 7; IdInt 9])) (Some "program_selection")
          (Some "REPEAT") (Some (Some no_price_campus)) (Some []).

(** A state that went through extraction without a price/campus struct. *)
Definition no_struct_state : State :=
  mkState (Some "mba in paris") (Some NoMessages) None None (Some "mba in paris")
          (Some ["MBA"]) (Some None) (Some "program_selection") (Some "NEW")
          (Some None) (Some []).

(** As [healthy_env], but the classification model answers with a value
    that is none of the four. *)
Definition chitchat_env : Env unit :=
  {| prompt_loaded := fun _ => true;
     llm_grok_ainvoke := echo;
     classifier_answer := fun _ => Ok (Some "chitchat");
     llm_4_1_mini_ainvoke := echo;
     deep_seek_chat_ainvoke := echo;
     program_extraction_ainvoke := fun _ => Ok (Some ["MBA"]);
     price_campus_extraction_ainvoke := fun _ => Ok (Some no_price_campus);
     retriever_selection_ainvoke := fun _ => Ok (Some "NEW");
     entry_level_ainvoke := fun _ => Ok (Some []);
     stream_llm_response := echo;
     completion_order := [ProgramTask; PriceCampusTask; RetrieverTask; EntryLevelTask];
     json_dir := Some "parents.json";
     embeddings_name := Some "embeddings";
     cached_retriever := Ok broken_retriever;
     format_program_for_context := fun _ => Ok "" |}.

(** The state of a turn after the rewrite step failed on [hello]. *)
Definition after_failed_rewrite : State :=
  apply_node_output (initial_state "hello") None.

(** A state whose only entry is the category [c], if any. *)
Definition with_category (c : option string) : State :=
  mkState None None None None None None None c None None None.


(** A turn of the rules branch whose graph fails after one streamed chunk,
    with the run identifier [r1] known. *)
Definition interrupted_stream (excluded : option (list doc_id)) (msgs : history)
  : list chunk * option exn :=
  stream_workflow (fun _ => "") (Some "r1") excluded (Ok msgs)
    [OnChatModelStream (Some "rules") (Some "Hello")] (Some (ExternalError "boom")).

(** The chunks of a grounded-generation turn of two streamed chunks. *)
Definition two_chunk_turn : list chunk :=
  fst (stream_workflow render (Some "r1") None (Ok NoMessages)
         [OtherEvent; sg_bot_event "Here are "; sg_bot_event "two programs"] None).

Definition test_config : RetrieverConfig :=
  mkConfig "mba" (Some (mkParams None (Some (mkKwargs (Some 15)
    (Some (Cond "new_program_type" (In_ ["MBA"]))))))).

End Examples.

(** ** Readings of the loop and of the frames used in the properties *)

Module Observations.
Import Text SearchParams Retrievers Agents Stream ChatService.

(** The ids that one event adds to [new_excluded_ids]. *)
Definition event_ids (ev : event) : list doc_id :=
  match ev with
  | OnChainEnd node (Some node_data) =>
      if truthy_str node then
        match excluded_ids node_data with
        | Some (Some l) => l
        | _ => []
        end
      else []
  | _ => []
  end.

(** The event is a non-empty chunk of a streaming node. *)
Definition streams_content (ev : event) : bool :=
  match ev with
  | OnChatModelStream node content => is_streaming_node node && truthy_str content
  | _ => false
  end.

(** The event is a chunk, empty or not, of a streaming node. *)
Definition streamed (ev : event) : bool :=
  match ev with
  | OnChatModelStream node _ => is_streaming_node node
  | _ => false
  end.

(** The non-empty text that the event streams, if it streams one. *)
Definition event_text (ev : event) : option string :=
  match ev with
  | OnChatModelStream node (Some c) =>
      if is_streaming_node node && bool_decide (c ≠ "") then Some c else None
  | _ => None
  end.

(** The event is not a chunk of the grounded-generation node. *)
Definition outside_sg_bot (ev : event) : bool :=
  match ev with
  | OnChatModelStream node _ => bool_decide (node ≠ Some "sg_bot")
  | _ => true
  end.

(** The text of a chunk, of a frame. *)
Definition chunk_text (c : chunk) : option string :=
  match c with TextChunk s => Some s | DictChunk _ => None end.

Definition frame_text (f : frame) : option string :=
  match f with DataText s => Some s | _ => None end.

(** The frame is a dictionary with the internal completion key. *)
Definition is_control_frame (f : frame) : bool :=
  match f with
  | DataDict d => bool_decide (is_Some (d !! "__stream_complete__"))
  | _ => false
  end.

(** The chunk is a dictionary with the key [k]. *)
Definition has_key (k : string) (c : chunk) : bool :=
  match c with
  | DictChunk d => bool_decide (is_Some (d !! k))
  | TextChunk _ => false
  end.

(** The keys of the dictionaries yielded inside the loop. *)
Definition loop_key (k : string) : Prop :=
  k = "type" ∨ k = "response_type" ∨ k = "school_logo" ∨ k = "program_link".

(** The [rewritten_query] that one event stores, if any. *)
Definition event_rewritten (ev : event) : option string :=
  match ev with
  | OnChainEnd node (Some node_data) =>
      if truthy_str node then st_rewritten_query node_data else None
  | _ => None
  end.

(** The [rewritten_query] attribute after the events, starting from [rq]:
    the last one stored. *)
Definition last_rewritten (rq : option string) (events : list event) : option string :=
  foldl (fun acc ev => event_rewritten ev ∪ acc) rq events.

(** The two chunks that close a completed turn. *)
Definition closing (run_id rq : option string) : list chunk :=
  [DictChunk (final_metadata run_id rq); DictChunk stream_complete].

(** The chunk of text that the node [n] streams. *)
Definition stream_event (n : string) (c : string) : event :=
  OnChatModelStream (Some n) (Some c).

(** What the end of the loop yields for the text left in the buffer. *)
Definition trailing_flush (text : string) : list chunk :=
  if truthy_str (Some text) && negb (contains "school logo" (lower text))
  then [TextChunk text] else [].

(** The conditions of the list are not conjunctions. *)
Definition flat (fs : list filter_expr) : Prop :=
  Forall (fun c => match c with And_ _ => False | _ => True end) fs.

(** The children of the three partitions in the order in which
    [multiple_invoke] lists them. *)
Definition children_of (g s e : gmap string (list Document)) : list Document :=
  content_of g ++ content_of s ++ content_of e.

End Observations.

(** ** The prompts and updates of the agents, by name *)

Module AgentObservations.
Import Text SearchParams Retrievers Agents.

(** The prompt each agent hands to its model for a state. *)
Definition rewrite_prompt (st : State) : Prompt :=
  mkPrompt "rewritten-query-prompt"
           [("user_input", PvStr (default "" (query st)));
            ("chat_history", PvHistory (messages_or_empty st))].

Definition classification_prompt (st : State) : Prompt :=
  mkPrompt "query-classifier-prompt-test"
           [("rewritten_query", PvStr (rewritten_query_or_empty st));
            ("chat_history", PvHistory (messages_or_empty st))].

Definition general_prompt (st : State) : Prompt :=
  mkPrompt "general-question-prompt"
           [("user_input", PvStr (rewritten_query_or_empty st));
            ("chat_history", PvHistory (messages_or_empty st))].

Definition follow_up_prompt (st : State) : Prompt :=
  mkPrompt "follow-up-questions-prompt-test"
           [("user_input", rewritten_query_or_none st);
            ("chat_history", messages_or_none st)].

Definition rules_prompt (st : State) : Prompt :=
  mkPrompt "rules-agent-prompt" [("user_input", PvStr (rewritten_query_or_empty st))].

(** The fallback answer of the grounded generation. *)
Definition apology : string :=
  "I apologize, but I'm experiencing technical difficulties. Please try rephrasing your question or contact support if the issue persists.".

(** The update returned by the grounded generation. *)
Definition generation_update (r : string) (ids : list doc_id) : State :=
  mkState None None None (Some r) None None (Some (Some ids)) None None None None.

(** The exception raised by [format_messages] on a prompt that could not
    be pulled. *)
Definition missing_prompt : exn :=
  AttributeError "'NoneType' object has no attribute 'format_messages'".

(** The four paths of the graph. *)
Definition grounded_path : list string :=
  ["rewrite_query_agent"; "query_classification_agent"; "filter_parameters_extraction";
   "child_parent_retriever"; "sg_bot"].

Definition direct_path (node : string) : list string :=
  ["rewrite_query_agent"; "query_classification_agent"; node].

End AgentObservations.

(** ** The plain filter parameters ([search_params.py],
    [filter_retriever_search_params]) *)

Module FilterParams.
Import SearchParams.

(** [filter_retriever_search_params(program_types, k)] *)
Definition filter_retriever_search_params (program_types : list string) (k : Z)
  : search_params_t :=
  if decide (length program_types = 0%nat) then
    mkParams None
      (Some (mkKwargs (Some k) (Some (Cond "program_type" (In_ default_program_types)))))
  else
    mkParams (Some "mmr")
      (Some (mkKwargs (Some k) (Some (Cond "program_type" (In_ program_types))))).

End FilterParams.

(** ** Prompt cache ([prompts.py]) *)

Module Prompts.

(** The names that [preload_all_prompts] fetches; the last two literals of
    the source are adjacent and form one name. *)
Definition prompt_names : list string :=
  [ "rewritten-query-prompt"; "query-classifier-prompt"; "general-question-prompt";
    "follow-up-questions-prompt"; "rules-agent-prompt"; "program-extraction-prompt";
    "retriever-selection-prompt"; "title-update-prompt"; "ai-summarize-prompt";
    "price_prompt_test"; "excluded_ids_test_prompt"; "entry-level-prompt";
    "program-extraction-promopt-test"; "system-prompt-test";
    "query-classifier-prompt-test"; "follow-up-questions-prompt-test" +:+ "" ].

Section WithClient.
(** The prompt objects, and the client: [get_langsmith_client()] may
    raise, [client.pull_prompt(name)] may raise or yield [None]. *)
Context {Template : Type}.
Variable client : result (string -> result (option Template)).

(** [get_prompt(prompt_name)] on the cache [_prompt_cache]: the value
    returned and the cache afterwards. *)
Definition get_prompt (prompt_name : string) (cache : gmap string (option Template))
  : option Template * gmap string (option Template) :=
  match cache !! prompt_name with
  | Some prompt => (prompt, cache)
  | None =>
      match (c ← client; c prompt_name) with
      | Ok prompt => (prompt, <[prompt_name := prompt]> cache)
      | Raise _ => (None, cache)
      end
  end.

(** [pull_prompt_from_langsmith] *)
Definition pull_prompt_from_langsmith (prompt_name : string)
    (cache : gmap string (option Template))
  : option Template * gmap string (option Template) :=
  get_prompt prompt_name cache.

(** The loop of [preload_all_prompts] over the names, with its counter,
    its list of failures and the cache. *)
Fixpoint preload_loop (c : string -> result (option Template)) (names : list string)
    (loaded_count : nat) (failed_prompts : list string)
    (cache : gmap string (option Template))
  : nat * list string * gmap string (option Template) :=
  match names with
  | [] => (loaded_count, failed_prompts, cache)
  | prompt_name :: rest =>
      match c prompt_name with
      | Ok (Some prompt) =>
          preload_loop c rest (S loaded_count) failed_prompts
            (<[prompt_name := Some prompt]> cache)
      | _ => preload_loop c rest loaded_count (failed_prompts ++ [prompt_name]) cache
      end
  end.

(** [preload_all_prompts()]: the client is obtained before the loop. *)
Definition preload_all_prompts (cache : gmap string (option Template))
  : result (nat * list string * gmap string (option Template)) :=
  c ← client;
  Ok (preload_loop c prompt_names 0 [] cache).

End WithClient.

(** [clear_prompt_cache()] *)
Definition clear_prompt_cache {Template : Type} (cache : gmap string (option Template))
  : gmap string (option Template) := ∅.

(** [get_cache_stats()]: the number of cached prompts and their names. *)
Definition get_cache_stats {Template : Type} (cache : gmap string (option Template))
  : nat * list string :=
  (size cache, elements (dom cache)).

(** The names passed to [pull_prompt_from_langsmith] by the agents, the
    summary and the title update. *)
Definition pulled_prompt_names : list string :=
  [ "rewritten-query-prompt"; "query-classifier-prompt-test"; "general-question-prompt";
    "follow-up-questions-prompt-test"; "rules-agent-prompt"; "price_prompt_test";
    "program-extraction-promopt-test"; "retriever-selection-prompt"; "entry-level-prompt";
    "system-prompt-test"; "ai-summarize-prompt"; "title-update-prompt" ].

(** The prompt that a client delivers for a name, if it delivers one. *)
Definition delivered {Template : Type} (c : string -> result (option Template))
    (name : string) : option Template :=
  match c name with
  | Ok (Some prompt) => Some prompt
  | _ => None
  end.

End Prompts.

(** ** Cached retriever ([agents.py], [get_cached_child_parent_retriever]) *)

Module RetrieverCache.

(** What a call yields: the retriever, the [ValueError] of a missing
    configuration, or the exception of the constructor. *)
Inductive outcome (R : Type) : Type :=
  | Returned (r : R)
  | ConfigurationError
  | ConstructorError (e : exn).
Arguments Returned {R} r.
Arguments ConfigurationError {R}.
Arguments ConstructorError {R} e.

(** What a call reads when the cache is empty: [config.embeddings_name],
    [config.json_dir] and the three collection names of the environment. *)
Record configuration : Type := mkConfiguration {
  cfg_embeddings_name : option string;
  cfg_json_dir : option string;
  env_grande_ecole : option string;
  env_ecole_specialisee : option string;
  env_specialization : option string
}.

Section WithConstructor.
Context {R : Type}.
(** The constructor [ChildParentRetriever(...)]. *)
Variable construct : configuration -> result R.

(** One call on the cache [_child_parent_retriever_cache]: the outcome and
    the cache afterwards. *)
Definition get_cached_child_parent_retriever (cfg : configuration) (cache : option R)
  : outcome R * option R :=
  match cache with
  | None =>
      if negb (truthy_str (cfg_json_dir cfg)) || negb (truthy_str (cfg_embeddings_name cfg))
      then (ConfigurationError, None)
      else match construct cfg with
           | Ok r => (Returned r, Some r)
           | Raise e => (ConstructorError e, None)
           end
  | Some r => (Returned r, Some r)
  end.

(** A sequence of calls, one per configuration read. *)
Fixpoint calls (cfgs : list configuration) (cache : option R)
  : list (outcome R) * option R :=
  match cfgs with
  | [] => ([], cache)
  | cfg :: rest =>
      let '(o, cache') := get_cached_child_parent_retriever cfg cache in
      let '(os, cache'') := calls rest cache' in
      (o :: os, cache'')
  end.

End WithConstructor.

(** Whether a call returned a retriever. *)
Definition returned {R : Type} (o : outcome R) : bool :=
  match o with Returned _ => true | _ => false end.

End RetrieverCache.

(** ** History conversion and summaries ([formatting_utils.py]) *)

Module Formatting.
Import Text Retrievers Agents Stream.

(** [f"{v}"] for a stored value. *)
Definition py_str (v : jvalue) : string :=
  match v with
  | JStr s => s
  | JNull => "None"
  | JBool true => "True"
  | JBool false => "False"
  end.

(** An element appended to [history]: a string, or the message itself. *)
Inductive piece : Type :=
  | Line (s : string)
  | Message (m : gmap string jvalue).

(** [message[key]] *)
Definition item (m : gmap string jvalue) (key : string) : result jvalue :=
  match m !! key with
  | Some v => Ok v
  | None => Raise (KeyError ("'" +:+ key +:+ "'"))
  end.

(** The body of the loop of [convert_db_messages_to_langchain]. *)
Definition convert_message (m : gmap string jvalue) : result piece :=
  role ← item m "role";
  if decide (role = JStr "user") then
    content ← item m "content";
    Ok (Line (newline +:+ "user: " +:+ py_str content +:+ newline))
  else
    role' ← item m "role";
    if decide (role' = JStr "assistant") then
      summary ← item m "summary";
      Ok (Line (newline +:+ "assistant summary: " +:+ py_str summary +:+ newline))
    else Ok (Message m).

(** ["".join(history)], from the element of index [i] on. *)
Fixpoint join_pieces (i : nat) (history : list piece) : result string :=
  match history with
  | [] => Ok ""
  | Line s :: rest => r ← join_pieces (S i) rest; Ok (s +:+ r)
  | Message _ :: _ =>
      Raise (TypeError ("sequence item " +:+ pretty i
                        +:+ ": expected str instance, dict found"))
  end.

(** [convert_db_messages_to_langchain(messages)] *)
Definition convert_db_messages_to_langchain (msgs : list (gmap string jvalue))
  : result string :=
  history ← mapM convert_message msgs;
  join_pieces 0 history.

(** The conversion at the start of [stream_workflow]: an absent or empty
    list of stored messages gives the empty list. *)
Definition converted_messages (conversation_messages : option (list (gmap string jvalue)))
  : result history :=
  match conversation_messages with
  | None | Some [] => Ok NoMessages
  | Some msgs => text ← convert_db_messages_to_langchain msgs; Ok (HistoryText text)
  end.

(** A message that the conversion turns into a line of history. *)
Definition convertible (m : gmap string jvalue) : bool :=
  match m !! "role" with
  | Some role =>
      if decide (role = JStr "user") then bool_decide (is_Some (m !! "content"))
      else if decide (role = JStr "assistant") then bool_decide (is_Some (m !! "summary"))
      else false
  | None => false
  end.

(** [s[:200] + "..." if len(s) > 200 else s] *)
Definition truncated (s : string) : string :=
  if (200 <? String.length s)%nat then take_str 200 s +:+ "..." else s.

(** [summarize_response(response_content)]: the prompt is formatted before
    the [try] block; [llm] is the outcome of the model call. *)
Definition summarize_response (prompt_available : bool) (llm : result string)
    (response_content : string) : result string :=
  if prompt_available then try_except llm (fun _ => Ok (truncated response_content))
  else Raise (AttributeError "'NoneType' object has no attribute 'format_messages'").

(** The summary computed by [stream_chat] for the saved answer. *)
Definition chat_summary (prompt_available : bool) (llm : result string)
    (full_response : string) : string :=
  match summarize_response prompt_available llm full_response with
  | Ok summary => summary
  | Raise _ => truncated full_response
  end.

End Formatting.

(** ** The chat service with what it saves ([chat_service.py],
    [message_services.py]) *)

Module Persistence.
Import Text SearchParams Agents Stream ChatService Formatting.

(** A call to the conversation or message service. *)
Inductive db_op : Type :=
  | UpdateExcludedIds (ids : list doc_id)
  | SaveMessage (role content : string) (summary rewritten_query : option string).

(** One turn of the workflow as [stream_chat] sees it: the chunks yielded
    and then either the exception raised, or the values that
    [get_stream_metadata] reads once the stream has ended. *)
Inductive turn : Type :=
  | Failed (chunks : list chunk) (e : exn)
  | Finished (chunks : list chunk) (completed : bool)
             (rewritten : option string) (excluded : list doc_id).

(** [full_response]: the string chunks concatenated. *)
Fixpoint full_response (chunks : list chunk) : string :=
  match chunks with
  | [] => ""
  | TextChunk s :: rest => s +:+ full_response rest
  | DictChunk _ :: rest => full_response rest
  end.

(** [s.strip()] is not empty. *)
Fixpoint not_blank (s : string) : bool :=
  match s with
  | EmptyString => false
  | String c s' => negb (is_space c) || not_blank s'
  end.

(** What [stream_chat] saves after the loop; [summary] gives the summary
    computed for the answer. *)
Definition saved (user_input : string) (summary : string -> string)
    (chunks : list chunk) (completed : bool) (rewritten : option string)
    (excluded : list doc_id) : list db_op :=
  if completed then
    [UpdateExcludedIds excluded; SaveMessage "user" user_input None rewritten]
    ++ (if not_blank (full_response chunks)
        then [SaveMessage "assistant" (full_response chunks)
                (Some (summary (full_response chunks))) None]
        else [])
  else [].

(** [stream_chat] with the calls it makes to the services: the frames and
    the calls, in order. *)
Definition stream_chat_saving {M E : Type} (user_input : string)
    (summary : string -> string) (conversation : result (M * E))
    (bot_turn : E -> M -> turn) : list frame * list db_op :=
  match conversation with
  | Raise e => ([DataDict (error_data e); DataDone], [])
  | Ok (conversation_messages, excluded_ids) =>
      match bot_turn excluded_ids conversation_messages with
      | Failed chunks e =>
          (omap frame_of_chunk chunks ++ [DataDict (error_data e); DataDone], [])
      | Finished chunks completed rewritten excluded =>
          (omap frame_of_chunk chunks ++ [DataDone],
           saved user_input summary chunks completed rewritten excluded)
      end
  end.

(** The chunks and the exception of a turn. *)
Definition turn_stream (t : turn) : list chunk * option exn :=
  match t with
  | Failed chunks e => (chunks, Some e)
  | Finished chunks _ _ _ => (chunks, None)
  end.

(** The turn that [stream_workflow] and [get_stream_metadata] produce on
    the stored messages. *)
Definition workflow_turn (json_dumps : gmap string jvalue -> string)
    (run_id : option string) (events : list event) (failure : option exn)
    (excluded : option (list doc_id))
    (conversation_messages : option (list (gmap string jvalue))) : turn :=
  let final := fst (fst (consume json_dumps (initial_loop excluded) events)) in
  match stream_workflow json_dumps run_id excluded
          (converted_messages conversation_messages) events failure with
  | (chunks, Some e) => Failed chunks e
  | (chunks, None) =>
      Finished chunks (content_yielded final) (rewritten_query final)
               (new_excluded_ids final)
  end.

(** The record [message_data] that [save_message] builds. *)
Definition message_data (conversation_id role content : string)
    (summary rewritten_query : option string) : gmap string jvalue :=
  {[ "conversation_id" := JStr conversation_id; "role" := JStr role;
     "content" := JStr content; "summary" := jopt summary;
     "rewritten_query" := jopt rewritten_query ]}.

(** The records built for the messages among the calls. *)
Definition records (conversation_id : string) (ops : list db_op)
  : list (gmap string jvalue) :=
  omap (fun op => match op with
                  | SaveMessage role content summary rewritten_query =>
                      Some (message_data conversation_id role content summary
                                         rewritten_query)
                  | UpdateExcludedIds _ => None
                  end) ops.

End Persistence.

(** ** Further concrete collaborators for the examples *)

Module MoreExamples.
Import Text SearchParams Retrievers Agents Stream ChatService Examples.

Definition doc_a : Document := mkDocument "MBA in Paris" (Some (IdInt 7)).
Definition doc_b : Document := mkDocument "BBA in Lyon" (Some (IdStr "12")).
Definition doc_without_id : Document := mkDocument "BTS in Lille" None.

(** A vector store that rejects every filter and otherwise returns
    [doc_a]. *)
Definition strict_store : Vectorstore :=
  mkVectorstore (fun p =>
    match search_kwargs p ≫= kw_filter with
    | Some _ => Raise (ExternalError "unsupported filter")
    | None => Ok (mkRetriever (fun _ => Ok [doc_a]))
    end).

(** A vector store that always returns the given documents. *)
Definition store_of (docs : list Document) : Vectorstore :=
  mkVectorstore (fun _ => Ok (mkRetriever (fun _ => Ok docs))).

(** A retriever over two parent records, as formatted texts. *)
Definition small_retriever (grande ecole spec : list Document)
  : @ChildParentRetriever string :=
  mkChildParent (mkFilterRetriever (Some (store_of grande)))
                (mkFilterRetriever (Some (store_of ecole)))
                (mkFilterRetriever (Some (store_of spec)))
                (Ok [("12", "parent 12"); ("7", "parent 7"); ("30", "parent 30")]).

(** Collaborators with the given prompt store, classifier and generation
    model; the rewrite model echoes its input and the extractors succeed. *)
Definition make_env (prompts : string -> bool)
    (classifier : Prompt -> result (option string))
    (chat : Prompt -> result string) : Env unit :=
  {| prompt_loaded := prompts;
     llm_grok_ainvoke := echo;
     classifier_answer := classifier;
     llm_4_1_mini_ainvoke := chat;
     deep_seek_chat_ainvoke := chat;
     program_extraction_ainvoke := fun _ => Ok (Some ["MBA"]);
     price_campus_extraction_ainvoke := fun _ => Ok (Some no_price_campus);
     retriever_selection_ainvoke := fun _ => Ok (Some "NEW");
     entry_level_ainvoke := fun _ => Ok (Some []);
     stream_llm_response := chat;
     completion_order := [ProgramTask; PriceCampusTask; RetrieverTask; EntryLevelTask];
     json_dir := Some "parents.json";
     embeddings_name := Some "embeddings";
     cached_retriever := Ok broken_retriever;
     format_program_for_context := fun _ => Ok "" |}.

Definition failing {A} (_ : Prompt) : result A := Raise (ExternalError "model unavailable").

(** No prompt can be pulled. *)
Definition no_prompt_env : Env unit :=
  make_env (fun _ => false) (fun _ => Ok (Some "general")) echo.

(** The classifier raises. *)
Definition classifier_failure_env : Env unit := make_env (fun _ => true) failing echo.

(** Every generation model raises. *)
Definition generation_failure_env : Env unit :=
  make_env (fun _ => true) (fun _ => Ok (Some "rules")) failing.

(** The events of a grounded turn: the rewrite output, two streamed
    chunks and the output of the generation node with two ids. *)
Definition grounded_events : list event :=
  [OnChainEnd (Some "rewrite_query_agent")
     (Some (mkState None None None None (Some "mba programs") None None None None None None));
   sg_bot_event "Two "; sg_bot_event "programs";
   OnChainEnd (Some "sg_bot")
     (Some (AgentObservations.generation_update "Two programs" [IdInt 5; IdInt 7]))].

(** The loop after [grounded_events], started with the id 5 excluded. *)
Definition grounded_loop : loop_state * list chunk * option exn :=
  consume render (initial_loop (Some [IdInt 5])) grounded_events.

(** The outcome of the run of the graph on [mba] with every model
    available. *)
Definition healthy_final : list string * State :=
  match Graph.run_graph healthy_env (initial_state "mba") with
  | Ok r => r
  | Raise _ => ([], empty_state)
  end.

(** Clients of the prompt service: one that delivers every prompt, one
    that cannot be created, one that fails on the title prompt. *)
Definition echo_pull (name : string) : result (option string) := Ok (Some name).

Definition echo_client : result (string -> result (option string)) := Ok echo_pull.

Definition offline_client : result (string -> result (option string)) :=
  Raise (ExternalError "offline").

Definition partial_pull (name : string) : result (option string) :=
  if decide (name = "title-update-prompt") then Raise (ExternalError "not found")
  else Ok (Some name).

Definition partial_client : result (string -> result (option string)) := Ok partial_pull.

Definition preloaded_cache : gmap string (option string) :=
  snd (Prompts.preload_loop echo_pull Prompts.prompt_names 0 [] ∅).

(** Configurations of the cached retriever and a constructor. *)
Definition complete_configuration : RetrieverCache.configuration :=
  RetrieverCache.mkConfiguration (Some "text-embedding-3-small") (Some "data/json")
    (Some "grande") (Some "ecole") (Some "spec").

Definition missing_configuration : RetrieverCache.configuration :=
  RetrieverCache.mkConfiguration (Some "text-embedding-3-small") None None None None.

Definition construct_name (cfg : RetrieverCache.configuration) : result string :=
  Ok (default "" (RetrieverCache.cfg_json_dir cfg)).

(** Stored messages: one of the user, and the same with another role. *)
Definition stored_user : gmap string jvalue :=
  Persistence.message_data "c1" "user" "hello" None (Some "hello").

Definition stored_system : gmap string jvalue := <["role" := JStr "system"]> stored_user.

(** A turn that streamed two chunks of text and completed. *)
Definition finished_turn (excluded : option (list doc_id))
    (msgs : option (list (gmap string jvalue))) : Persistence.turn :=
  Persistence.Finished [TextChunk "Two "; TextChunk "programs"; DictChunk stream_complete]
    true (Some "mba programs") [IdInt 5].

(** The summary when the summary prompt is missing. *)
Definition fallback_summary (s : string) : string :=
  Formatting.chat_summary false (Ok "") s.

(** The events of a turn answered by the rules branch: the outputs of the
    rewrite and classification nodes, three chunks of the rules node, one
    of them empty, and the output of the rules node. *)
Definition rules_events : list event :=
  [OnChainEnd (Some "rewrite_query_agent")
     (Some (mkState None None None None (Some "what are the rules") None None None None
                    None None));
   OnChainEnd (Some "query_classification_agent") (Some (category_update "rules"));
   Observations.stream_event "rules" "Hi"; Observations.stream_event "rules" "";
   Observations.stream_event "rules" " there";
   OnChainEnd (Some "rules") (Some (response_update "Hi there"))].

End MoreExamples.

(** * Properties *)

(** Evaluation of the binds and handlers of [result]. *)
Ltac rsimpl :=
  repeat (progress (cbn [mbind result_bind rbind try_except is_ok] in *)).

(** ** Filter builder *)

Section SearchParamsFacts.
Import SearchParams.

Lemma one_of_plain names : plain (one_of names) = true.
Proof.
  unfold one_of. destruct names as [|n [|m names]]; simpl; try reflexivity.
  unfold plain, is_exclusion, program_type_of. by repeat case_match.
Qed.

Lemma top_conditions_wrap conditions :
  conditions ≠ [] →
  Forall (fun c => match c with And_ _ => False | _ => True end) conditions →
  top_conditions (wrap conditions) = conditions.
Proof.
  intros Hne Hall. destruct conditions as [|c [|c' rest]]; try done.
  simpl. inversion Hall as [|? ? Hc _]; subst. by destruct c.
Qed.

Lemma body_some pt ids e p el :
  create_filter_conditions_body pt ids e (Some p) el
  = Ok (wrap ((leading_conditions p el ++ [Cond "new_program_type" (In_ pt)])
                ++ exclusion_conditions ids e)).
Proof.
  unfold create_filter_conditions_body, leading_conditions, exclusion_conditions, wrap.
  cbn [getattr mbind result_bind rbind].
  destruct (truthy_int (price p)); cbn [getattr mbind result_bind rbind];
    match goal with |- context [match ?l with [] => _ | _ => _ end] =>
      destruct l as [|? [|? ?]]; reflexivity end.
Qed.

Lemma body_none pt ids e el :
  create_filter_conditions_body pt ids e None el
  = Raise (AttributeError "'NoneType' object has no attribute 'price'").
Proof. reflexivity. Qed.

Lemma one_of_not_conjunction names :
  match one_of names with And_ _ => False | _ => True end.
Proof. by destruct names as [|n [|m l]]. Qed.

Lemma not_conjunction_leading p el :
  Forall (fun c => match c with And_ _ => False | _ => True end) (leading_conditions p el).
Proof.
  unfold leading_conditions, price_conditions.
  repeat apply Forall_app_2;
    repeat case_match; repeat constructor; try done; apply one_of_not_conjunction.
Qed.

Lemma plain_leading p el : Forall (fun c => plain c = true) (leading_conditions p el).
Proof.
  unfold leading_conditions, price_conditions.
  repeat apply Forall_app_2;
    repeat case_match; repeat constructor; try done; apply one_of_plain.
Qed.

Lemma existsb_plain (P : filter_expr → bool) l :
  (∀ c, plain c = true → P c = false) →
  Forall (fun c => plain c = true) l → existsb P l = false.
Proof.
  intros HP. induction 1 as [|c l Hc _ IH]; simpl; [done|].
  by rewrite (HP c Hc), IH.
Qed.

Lemma top_conditions_body pt ids e p el :
  top_conditions (wrap ((leading_conditions p el ++ [Cond "new_program_type" (In_ pt)])
                          ++ exclusion_conditions ids e))
  = (leading_conditions p el ++ [Cond "new_program_type" (In_ pt)])
      ++ exclusion_conditions ids e.
Proof.
  apply top_conditions_wrap.
  - intros H. apply app_eq_nil in H as [H _]. by apply app_eq_nil in H as [_ H].
  - apply Forall_app_2; [apply Forall_app_2|].
    + apply not_conjunction_leading.
    + by repeat constructor.
    + unfold exclusion_conditions. case_match; by repeat constructor.
Qed.

Lemma has_exclusion_body pt ids e p el :
  has_exclusion (wrap ((leading_conditions p el ++ [Cond "new_program_type" (In_ pt)])
                         ++ exclusion_conditions ids e))
  = truthy_list ids && e.
Proof.
  unfold has_exclusion. rewrite top_conditions_body, !existsb_app.
  rewrite (existsb_plain is_exclusion (leading_conditions p el)).
  - unfold exclusion_conditions. by destruct (truthy_list ids && e).
  - intros c. unfold plain. destruct c; try done;
      by intros [H%negb_true_iff _]%andb_prop.
  - apply plain_leading.
Qed.

Lemma excludes_body pt ids e p el :
  truthy_list ids && e = true →
  excludes (default [] ids)
    (wrap ((leading_conditions p el ++ [Cond "new_program_type" (In_ pt)])
             ++ exclusion_conditions ids e)) = true.
Proof.
  intros H. unfold excludes. rewrite top_conditions_body, !existsb_app.
  unfold exclusion_conditions. rewrite H. simpl.
  rewrite bool_decide_eq_true_2 by done. by rewrite orb_true_r.
Qed.

Lemma omap_program_type_plain l :
  Forall (fun c => plain c = true) l → omap program_type_of l = [].
Proof.
  induction 1 as [|c l Hc _ IH]; [done|].
  cbn [omap list_omap]. fold (omap program_type_of l). rewrite IH.
  unfold plain in Hc. destruct (program_type_of c) eqn:E; [|done].
  destruct c; try done. apply andb_prop in Hc as [_ Hc].
  by rewrite bool_decide_eq_true_2 in Hc.
Qed.

Lemma program_type_condition_body pt ids e p el :
  program_type_condition
    (wrap ((leading_conditions p el ++ [Cond "new_program_type" (In_ pt)])
             ++ exclusion_conditions ids e)) = Some pt.
Proof.
  unfold program_type_condition. rewrite top_conditions_body, !omap_app.
  by rewrite (omap_program_type_plain _ (plain_leading p el)).
Qed.

Lemma create_filter_conditions_all pt ids e pci el :
  create_filter_conditions (mkCall (Some pt) (Some ids) (Some e) (Some pci) (Some el))
  = create_filter_conditions_body pt ids e pci el.
Proof. reflexivity. Qed.

(** C10: [create_filter_conditions] returns a filter exactly when a
    price/campus struct is supplied: with [price_campus_info] left at its
    default [None], or passed as [None], the first statement of the body
    dereferences it and raises; with a struct, the builder returns.  In
    particular the search parameters of the retrieval agent cannot be built
    from a state whose [price_campus_info] is absent or [None]. *)
Theorem create_filter_conditions_partial :
  (∀ pt ids e el,
      create_filter_conditions (mkCall (Some pt) (Some ids) (Some e) None el)
      = Raise (AttributeError "'NoneType' object has no attribute 'price'")
      ∧ create_filter_conditions (mkCall (Some pt) (Some ids) (Some e) (Some None) el)
        = Raise (AttributeError "'NoneType' object has no attribute 'price'"))
  ∧ (∀ pt ids e p el,
      ∃ f, create_filter_conditions (mkCall (Some pt) (Some ids) (Some e) (Some (Some p)) el)
           = Ok f)
  ∧ (∀ pt ids e pci el,
      is_ok (create_filter_conditions (mkCall (Some pt) (Some ids) (Some e) pci el)) = true
      ↔ ∃ p, pci = Some (Some p))
  ∧ (∀ st : Agents.State,
      default None (Agents.price_campus_info st) = None →
      is_ok (Agents.agent_search_params st) = false).
Proof.
  split_and!.
  - intros. split; reflexivity.
  - intros. eexists. unfold create_filter_conditions. simpl.
    destruct el as [el|]; apply body_some.
  - intros pt ids e pci el. unfold create_filter_conditions. simpl. split.
    + destruct pci as [[p|]|]; [by eauto|done|done].
    + intros [p ->]. simpl. by rewrite body_some.
  - intros st H. unfold Agents.agent_search_params, child_parent_retriever_search_params.
    rewrite H. case_match; reflexivity.
Qed.

Lemma create_filter_conditions_partial_witness :
  is_ok (Agents.agent_search_params Examples.no_struct_state) = false.
Proof.
  apply (proj2 (proj2 (proj2 create_filter_conditions_partial))). reflexivity.
Defined.

(** C4 (evaluation of the code): with an empty list of program types,
    [child_parent_retriever_search_params] calls [create_filter_conditions]
    with two positional arguments only, so the call raises a [TypeError]
    for the missing [exclude] and no filter is returned, whatever the other
    arguments are. *)
Theorem search_params_empty_program_types_raises :
  ∀ k exclude_ids price_campus_info entry_level exclude,
    child_parent_retriever_search_params [] k exclude_ids price_campus_info entry_level exclude
    = Raise (TypeError
        "create_filter_conditions() missing 1 required positional argument: 'exclude'").
Proof. reflexivity. Qed.

(** C5: a filter returned by [create_filter_conditions] contains the
    exclusion condition [program_id not in exclude_ids_list] if and only if
    the list of excluded ids is non-empty and the exclude flag is true; when
    the retriever intent of the turn is [REPEAT], the retrieval agent sets
    the flag to false and the filter it builds has no exclusion condition. *)
Theorem exclusion_gating :
  (∀ pt ids e pci el f,
      create_filter_conditions (mkCall (Some pt) (Some ids) (Some e) pci el) = Ok f →
      (has_exclusion f = true ↔ default [] ids ≠ [] ∧ e = true)
      ∧ (has_exclusion f = true → excludes (default [] ids) f = true))
  ∧ (∀ (st : Agents.State) sp f,
      Agents.retriever_intent st = Some "REPEAT" →
      Agents.agent_search_params st = Ok sp →
      filter_of sp = Some f →
      Agents.exclude_flag st = false ∧ has_exclusion f = false).
Proof.
  split.
  - intros pt ids e pci el f. unfold create_filter_conditions. simpl.
    destruct pci as [[p|]|]; try done. simpl.
    rewrite body_some. intros [= <-].
    rewrite has_exclusion_body. split.
    + rewrite andb_true_iff. destruct ids as [[|i l]|]; simpl; (split; intros [? ?]; by split).
    + apply excludes_body.
  - intros st sp f Hintent Hsp Hf.
    assert (Agents.exclude_flag st = false) as Hflag.
    { unfold Agents.exclude_flag. by rewrite Hintent. }
    split; [done|].
    unfold Agents.agent_search_params, child_parent_retriever_search_params in Hsp.
    rewrite Hflag in Hsp. case_match; [|done].
    rewrite create_filter_conditions_all in Hsp.
    destruct (default None (Agents.price_campus_info st)) as [p|]; [|done].
    rewrite body_some in Hsp. simpl in Hsp. injection Hsp as <-.
    unfold filter_of in Hf. simpl in Hf. injection Hf as <-.
    rewrite has_exclusion_body. apply andb_false_r.
Qed.

Lemma exclusion_gating_witness :
  (has_exclusion (And_ [Cond "new_program_type" (In_ ["MBA"]);
                        Cond "program_id" (Nin [IdStr "p1"])]) = true
   ↔ default [] (Some [IdStr "p1"]) ≠ [] ∧ true = true)
  ∧ Agents.exclude_flag Examples.repeat_state = false
  ∧ has_exclusion (Cond "new_program_type" (In_ ["MBA"])) = false.
Proof.
  split; [|split].
  - apply (proj1 exclusion_gating ["MBA"] (Some [IdStr "p1"]) true
             (Some (Some (mkPriceCampus None None None None None))) None).
    reflexivity.
  - apply (proj2 exclusion_gating Examples.repeat_state
             (mkParams None (Some (mkKwargs (Some 15)
                (Some (Cond "new_program_type" (In_ ["MBA"]))))))
             (Cond "new_program_type" (In_ ["MBA"]))); reflexivity.
  - apply (proj2 exclusion_gating Examples.repeat_state
             (mkParams None (Some (mkKwargs (Some 15)
                (Some (Cond "new_program_type" (In_ ["MBA"]))))))
             (Cond "new_program_type" (In_ ["MBA"]))); reflexivity.
Defined.

End SearchParamsFacts.

(** ** Retriever *)

Section RetrieverFacts.
Import SearchParams Retrievers.

(** A partition retriever never raises. *)
Lemma filter_retriever_invoke_ok self config :
  ∃ d, filter_retriever_invoke self config = Ok d.
Proof.
  unfold filter_retriever_invoke.
  destruct self as [[v|]]; [|by eauto].
  cbn [vectorstore].
  destruct (call_as_retriever (Some v) (search_params config)) as [r|e] eqn:E1; rsimpl.
  - destruct (retriever_invoke r (rewritten_query config)); rsimpl; eauto.
  - destruct (basic_retriever (Some v) (search_params config)) as [r|e'] eqn:E2; rsimpl.
    + destruct (retriever_invoke r (rewritten_query config)); rsimpl; eauto.
    + eauto.
Qed.

(** A partition without vector store yields no document. *)
Lemma filter_retriever_invoke_unavailable config :
  filter_retriever_invoke (mkFilterRetriever None) config = Ok {[ "content" := [] ]}.
Proof. reflexivity. Qed.

Lemma multiple_invoke_cases {Parent} (fmt : Parent → result string) self config :
  (∃ results ids,
      multiple_invoke_try fmt self config = Ok {[ "content" := results; "ids" := ids ]}
      ∧ multiple_invoke fmt self config = Ok {[ "content" := results; "ids" := ids ]})
  ∨ (∃ e, multiple_invoke_try fmt self config = Raise e
          ∧ multiple_invoke fmt self config = Ok {[ "content" := [] ]}).
Proof.
  unfold multiple_invoke.
  destruct (multiple_invoke_try fmt self config) as [d|e] eqn:E; rsimpl; [left|right; eauto].
  unfold multiple_invoke_try in E.
  repeat match type of E with
         | (mbind _ ?m) = Ok _ => destruct m eqn:?; rsimpl; [|discriminate]
         end.
  injection E as <-. eauto.
Qed.

(** C2 (as amended): [multiple_invoke] never raises, whatever the
    configuration; when its [try] block fails, it returns the dictionary
    [{"content": []}], which has an empty content and no [ids] key. *)
Theorem multiple_invoke_never_raises {Parent} (fmt : Parent → result string) self config :
  (∃ d, multiple_invoke fmt self config = Ok d ∧ is_Some (d !! "content"))
  ∧ (∀ e, multiple_invoke_try fmt self config = Raise e →
          multiple_invoke fmt self config = Ok {[ "content" := [] ]}
          ∧ ({[ "content" := [] ]} : gmap string (list string)) !! "ids" = None).
Proof.
  split.
  - destruct (multiple_invoke_cases fmt self config)
      as [(results & ids & _ & ->)|(e & _ & ->)]; (eexists; split; [reflexivity|]).
    + by rewrite lookup_insert_eq.
    + by rewrite lookup_singleton_eq.
  - intros e He. unfold multiple_invoke. rewrite He. done.
Qed.

Lemma multiple_invoke_never_raises_witness :
  multiple_invoke (fun _ : unit => Ok "") Examples.broken_retriever Examples.test_config
  = Ok {[ "content" := [] ]}
  ∧ ({[ "content" := [] ]} : gmap string (list string)) !! "ids" = None.
Proof.
  apply (proj2 (multiple_invoke_never_raises (fun _ : unit => Ok "")
                  Examples.broken_retriever Examples.test_config)
               (ExternalError "No such file or directory")).
  reflexivity.
Defined.

(** C2 (as stated) fails: when the parent file cannot be opened, the value
    returned is not [{"content": [], "ids": []}]. *)
Lemma multiple_invoke_failure_has_no_ids :
  multiple_invoke_try (fun _ : unit => Ok "") Examples.broken_retriever Examples.test_config
  = Raise (ExternalError "No such file or directory")
  ∧ multiple_invoke (fun _ : unit => Ok "") Examples.broken_retriever Examples.test_config
    ≠ Ok {[ "content" := []; "ids" := [] ]}.
Proof.
  split; [reflexivity|].
  intros H.
  apply (f_equal (fun r : result (gmap string (list string)) =>
                    match r with Ok d => d !! "ids" | Raise _ => None end)) in H.
  by vm_compute in H.
Qed.

End RetrieverFacts.

(** ** Agents *)

Section AgentFacts.
Import SearchParams Retrievers Agents AgentObservations.
Context {Parent : Type}.
Implicit Types (env : Env Parent) (st : State).

(** Without [return_exceptions], [gather] raises as soon as one task
    raised, in every completion order. *)
Lemma gather_fail_fast {A B C D} order (a : result A) (b : result B) (c : result C)
    (d : result D) :
  is_ok a && is_ok b && is_ok c && is_ok d = false →
  ∃ e, gather false order a b c d = Raise e.
Proof.
  intros H. unfold gather. rewrite omap_app.
  match goal with |- context [omap ?f order] => destruct (omap f order) as [|e l] end;
    [|by eauto].
  destruct a, b, c, d; try discriminate H; simpl; eauto.
Qed.

(** With every task successful, [gather] returns the four values. *)
Lemma gather_all_ok {A B C D} order (a : A) (b : B) (c : C) (d : D) :
  gather false order (Ok a) (Ok b) (Ok c) (Ok d) = Ok (Value a, Value b, Value c, Value d).
Proof.
  unfold gather. rewrite omap_app.
  assert (omap (fun t : task =>
                  match t with
                  | ProgramTask => failure_of (Ok a)
                  | PriceCampusTask => failure_of (Ok b)
                  | RetrieverTask => failure_of (Ok c)
                  | EntryLevelTask => failure_of (Ok d)
                  end) order = []) as ->; [|reflexivity].
  induction order as [|t order IH]; [reflexivity|].
  cbn [omap list_omap]. fold (@omap list _). by destruct t.
Qed.

(** C1 (evaluation of the code): the extraction stage calls [gather]
    with [return_exceptions=False]; as soon as one of the four extraction
    calls raises, in any completion order, the stage raises and returns no
    partial update: the results of the other extractors are lost. *)
Theorem extraction_stage_fails_fast env st :
  is_ok (program_extraction_ainvoke env (program_prompt st))
    && is_ok (price_campus_extraction_ainvoke env (price_campus_prompt st))
    && is_ok (retriever_selection_ainvoke env (retriever_prompt st))
    && is_ok (entry_level_ainvoke env (entry_level_prompt st)) = false →
  is_ok (filter_parameters_extraction_agent env st) = false.
Proof.
  intros H. unfold filter_parameters_extraction_agent, format_messages.
  repeat match goal with
         | |- context [prompt_loaded env ?n] =>
             destruct (prompt_loaded env n); rsimpl; [|reflexivity]
         end.
  destruct (gather_fail_fast (completion_order env) _ _ _ _ H) as [e He].
  unfold program_prompt, price_campus_prompt, retriever_prompt, entry_level_prompt in He.
  rewrite He. reflexivity.
Qed.

(** When the four extractors succeed, the stage returns the four fields. *)
Lemma extraction_stage_all_ok env st pt pci intent levels :
  (∀ n, prompt_loaded env n = true) →
  program_extraction_ainvoke env (program_prompt st) = Ok (Some pt) →
  price_campus_extraction_ainvoke env (price_campus_prompt st) = Ok pci →
  retriever_selection_ainvoke env (retriever_prompt st) = Ok (Some intent) →
  entry_level_ainvoke env (entry_level_prompt st) = Ok (Some levels) →
  filter_parameters_extraction_agent env st
  = Ok (mkState None None None None None (Some pt) None None (Some intent) (Some pci)
                (Some levels)).
Proof.
  intros Hp H1 H2 H3 H4. unfold filter_parameters_extraction_agent, format_messages.
  rewrite !Hp. rsimpl.
  unfold program_prompt, price_campus_prompt, retriever_prompt, entry_level_prompt in *.
  rewrite H1, H2, H3, H4, gather_all_ok. reflexivity.
Qed.

(** The downstream agents do not read the raw query. *)
Lemma downstream_ignores_query env st q ids_of :
  query_classification_agent env (with_query q st) = query_classification_agent env st
  ∧ filter_parameters_extraction_agent env (with_query q st)
    = filter_parameters_extraction_agent env st
  ∧ child_parent_retriever_agent env (with_query q st) = child_parent_retriever_agent env st
  ∧ general_question_agent env (with_query q st) = general_question_agent env st
  ∧ rules_agent env (with_query q st) = rules_agent env st
  ∧ follow_up_agent env (with_query q st) = follow_up_agent env st
  ∧ sg_bot_agent env ids_of (with_query q st) = sg_bot_agent env ids_of st.
Proof. by destruct st. Qed.

(** C9 (as amended): when the model call of the rewrite step raises, the
    step returns no update and [rewritten_query] stays as it was, absent at
    the start of a turn.  Every stage downstream takes its input from
    [rewritten_query] and from nothing else: classification, the four
    extraction prompts, retrieval and the general and rules branches hand
    on the rewritten query, or the empty string when it is absent; the
    follow-up and grounded-generation branches hand on the rewritten query,
    or [None] when it is absent; and none of them depends on the [query]
    entry of the state. *)
Theorem rewrite_failure_no_fallback env st :
  (∀ prompt e,
      format_messages env "rewritten-query-prompt"
        [("user_input", PvStr (default "" (query st)));
         ("chat_history", PvHistory (messages_or_empty st))] = Ok prompt →
      llm_grok_ainvoke env prompt = Raise e →
      rewrite_query_agent env st = Ok None
      ∧ st_rewritten_query (apply_node_output st None) = st_rewritten_query st)
  ∧ (∀ (input : string) (input_or_none : prompt_value) ids_of,
      input = match st_rewritten_query st with Some s => s | None => "" end →
      input_or_none = match st_rewritten_query st with Some s => PvStr s | None => PvNone end →
      query_classification_agent env st
      = (combined_prompt ← format_messages env "query-classifier-prompt-test"
           [("rewritten_query", PvStr input);
            ("chat_history", PvHistory (messages_or_empty st))];
         try_except (response ← classifier_ainvoke env combined_prompt;
                     c ← getattr response "question_category" id;
                     Ok (Some (category_update c)))
                    (fun _ => Ok (Some (category_update "general"))))
      ∧ filter_parameters_extraction_agent env st
        = (price_prompt ← format_messages env "price_prompt_test"
             [("user_input", PvStr input)];
           program_prompt ← format_messages env "program-extraction-promopt-test"
             [("user_input", PvStr input)];
           retriever_prompt ← format_messages env "retriever-selection-prompt"
             [("user_input", PvStr input);
              ("chat_history", PvHistory (messages_or_empty st))];
           entry_prompt ← format_messages env "entry-level-prompt"
             [("user_input", PvStr input)];
           '(program_result, price_campus_result, retriever_result, entry_level_result) ←
             gather false (completion_order env)
               (program_extraction_ainvoke env program_prompt)
               (price_campus_extraction_ainvoke env price_prompt)
               (retriever_selection_ainvoke env retriever_prompt)
               (entry_level_ainvoke env entry_prompt);
           program_types ← gathered_attr program_result "program_type";
           intent ← gathered_attr retriever_result "retriever_intent";
           levels ← gathered_attr entry_level_result "entry_level";
           Ok (mkState None None None None None (Some program_types) None None
                       (Some intent) (gathered_value price_campus_result) (Some levels)))
      ∧ child_parent_retriever_agent env st
        = try_except
            (if negb (truthy_str (json_dir env)) then Ok (Some (content_update []))
             else if negb (truthy_str (embeddings_name env))
                  then Ok (Some (content_update []))
             else
               retriever ← cached_retriever env;
               search_params ← agent_search_params st;
               results ← multiple_invoke (format_program_for_context env) retriever
                           (mkConfig input (Some search_params));
               Ok (Some (content_update (default [] (results !! "content")))))
            (fun _ => Ok (Some (content_update [])))
      ∧ general_question_agent env st
        = (combined_prompt ← format_messages env "general-question-prompt"
             [("user_input", PvStr input);
              ("chat_history", PvHistory (messages_or_empty st))];
           try_except (full_response ← llm_4_1_mini_ainvoke env combined_prompt;
                       Ok (Some (response_update full_response)))
                      (fun _ => Ok None))
      ∧ rules_agent env st
        = (combined_prompt ← format_messages env "rules-agent-prompt"
             [("user_input", PvStr input)];
           try_except (full_response ← deep_seek_chat_ainvoke env combined_prompt;
                       Ok (Some (response_update full_response)))
                      (fun _ => Ok None))
      ∧ follow_up_agent env st
        = (combined_prompt ← format_messages env "follow-up-questions-prompt-test"
             [("user_input", input_or_none); ("chat_history", messages_or_none st)];
           try_except (full_response ← deep_seek_chat_ainvoke env combined_prompt;
                       Ok (Some (response_update full_response)))
                      (fun _ => Ok None))
      ∧ sg_bot_agent env ids_of st
        = (formatted_content ← format_content (content st);
           combined_prompt ← format_messages env "system-prompt-test"
             [("user_input", input_or_none); ("chat_history", messages_or_none st);
              ("content", PvContent formatted_content)];
           try_except
             (full_response ← stream_llm_response env combined_prompt;
              Ok (Some (generation_update full_response
                          (map IdInt (ids_of full_response)))))
             (fun _ => Ok (Some (generation_update apology [])))))
  ∧ (∀ q ids_of,
      query_classification_agent env (with_query q st) = query_classification_agent env st
      ∧ filter_parameters_extraction_agent env (with_query q st)
        = filter_parameters_extraction_agent env st
      ∧ child_parent_retriever_agent env (with_query q st)
        = child_parent_retriever_agent env st
      ∧ general_question_agent env (with_query q st) = general_question_agent env st
      ∧ rules_agent env (with_query q st) = rules_agent env st
      ∧ follow_up_agent env (with_query q st) = follow_up_agent env st
      ∧ sg_bot_agent env ids_of (with_query q st) = sg_bot_agent env ids_of st).
Proof.
  split_and!.
  - intros prompt e Hp He. split; [|reflexivity].
    unfold rewrite_query_agent. rewrite Hp. rsimpl. by rewrite He.
  - intros input input_or_none ids_of -> ->. split_and!; reflexivity.
  - intros q ids_of. apply downstream_ignores_query.
Qed.

End AgentFacts.

Lemma extraction_stage_fails_fast_witness :
  is_ok (Agents.filter_parameters_extraction_agent Examples.price_failure_env
           (Examples.initial_state "mba under 10000 euros")) = false.
Proof.
  apply (extraction_stage_fails_fast Examples.price_failure_env
           (Examples.initial_state "mba under 10000 euros")).
  reflexivity.
Defined.

Lemma rewrite_failure_no_fallback_witness :
  Agents.rewrite_query_agent Examples.rewrite_failure_env (Examples.initial_state "hello")
  = Ok None
  ∧ Agents.rules_agent Examples.rewrite_failure_env Examples.after_failed_rewrite
    = (combined_prompt ← Agents.format_messages Examples.rewrite_failure_env
         "rules-agent-prompt" [("user_input", Agents.PvStr "")];
       try_except
         (full_response ← Agents.deep_seek_chat_ainvoke Examples.rewrite_failure_env
                            combined_prompt;
          Ok (Some (Agents.response_update full_response)))
         (fun _ => Ok None))
  ∧ Agents.follow_up_agent Examples.rewrite_failure_env Examples.after_failed_rewrite
    = (combined_prompt ← Agents.format_messages Examples.rewrite_failure_env
         "follow-up-questions-prompt-test"
         [("user_input", Agents.PvNone);
          ("chat_history", Agents.messages_or_none Examples.after_failed_rewrite)];
       try_except
         (full_response ← Agents.deep_seek_chat_ainvoke Examples.rewrite_failure_env
                            combined_prompt;
          Ok (Some (Agents.response_update full_response)))
         (fun _ => Ok None)).
Proof.
  pose proof (rewrite_failure_no_fallback Examples.rewrite_failure_env
                (Examples.initial_state "hello")) as (H1 & _ & _).
  pose proof (rewrite_failure_no_fallback Examples.rewrite_failure_env
                Examples.after_failed_rewrite) as (_ & H2 & _).
  split_and!.
  - apply (H1 (Agents.mkPrompt "rewritten-query-prompt"
                 [("user_input", Agents.PvStr "hello");
                  ("chat_history", Agents.PvHistory Agents.NoMessages)])
              (ExternalError "timeout")); reflexivity.
  - apply (H2 "" Agents.PvNone (fun _ => []) eq_refl eq_refl).
  - apply (H2 "" Agents.PvNone (fun _ => []) eq_refl eq_refl).
Defined.

(** C9 (as stated) fails: after a failed rewrite of the query [hello], the
    general branch hands the empty string to its model, not [hello]. *)
Lemma no_fallback_to_raw_query :
  Agents.rewrite_query_agent Examples.rewrite_failure_env (Examples.initial_state "hello")
  = Ok None
  ∧ Agents.query Examples.after_failed_rewrite = Some "hello"
  ∧ Agents.rewritten_query_or_empty Examples.after_failed_rewrite ≠ "hello"
  ∧ Agents.general_question_agent Examples.rewrite_failure_env Examples.after_failed_rewrite
    = Ok (Some (Agents.response_update ""))
  ∧ Agents.general_question_agent Examples.rewrite_failure_env Examples.after_failed_rewrite
    ≠ Ok (Some (Agents.response_update "hello")).
Proof. by split_and!. Qed.

(** ** Workflow graph *)

Section GraphFacts.
Import Agents Graph AgentObservations.

Lemma path_map_unknown (c : string) :
  c ∉ ["program_selection"; "rules"; "follow_up"; "general"] → path_map !! c = None.
Proof.
  intros H. unfold path_map.
  rewrite !lookup_insert_ne, lookup_singleton_ne; [done|..];
    intros Heq; apply H; rewrite <- Heq; set_solver.
Qed.

(** C3: for each of the four categories the conditional edge selects the
    one branch of that category, whose path ends in the matching
    generation node, and a state without [question_category] is routed to
    the general branch.  A value outside the four never reaches the edge:
    whenever the classification step returns it has stored one of the four
    values, so that the edge selects the branch of that value; and when the
    model answers with a value outside the four, the schema rejects the
    answer, the step stores [general] and the edge selects the general
    branch. *)
Theorem routing_by_category {Parent : Type} (env : Env Parent) :
  (∀ st, question_category st = Some "program_selection" →
      route_after_classification st = Some "filter_parameters_extraction"
      ∧ terminal_node 8 "filter_parameters_extraction" = Some "sg_bot")
  ∧ (∀ st, question_category st = Some "rules" →
      route_after_classification st = Some "rules"
      ∧ terminal_node 8 "rules" = Some "rules")
  ∧ (∀ st, question_category st = Some "follow_up" →
      route_after_classification st = Some "follow_up"
      ∧ terminal_node 8 "follow_up" = Some "follow_up")
  ∧ (∀ st, question_category st = Some "general" ∨ question_category st = None →
      route_after_classification st = Some "general_question"
      ∧ terminal_node 8 "general_question" = Some "general_question")
  ∧ (∀ st out, query_classification_agent env st = Ok out →
      ∃ c n, c ∈ question_categories
             ∧ question_category (apply_node_output st out) = Some c
             ∧ path_map !! c = Some n
             ∧ next_node "query_classification_agent" (apply_node_output st out) = Ok n)
  ∧ (∀ st c, prompt_loaded env "query-classifier-prompt-test" = true →
      classifier_answer env (classification_prompt st) = Ok (Some c) →
      c ∉ question_categories →
      query_classification_agent env st = Ok (Some (category_update "general"))
      ∧ next_node "query_classification_agent"
          (apply_node_output st (Some (category_update "general")))
        = Ok "general_question").
Proof.
  unfold route_after_classification, route.
  split_and!.
  - intros st ->. by vm_compute.
  - intros st ->. by vm_compute.
  - intros st ->. by vm_compute.
  - intros st [-> | ->]; by vm_compute.
  - intros st out H.
    assert (∃ c, c ∈ question_categories ∧ out = Some (category_update c)) as (c & Hc & ->).
    { unfold query_classification_agent, format_messages in H.
      destruct (prompt_loaded env _); [|discriminate H]. rsimpl.
      unfold classifier_ainvoke in H.
      destruct (classifier_answer env _) as [[c|]|e]; rsimpl.
      - destruct (decide (c ∈ question_categories)) as [Hc|Hc]; rsimpl.
        + injection H as <-. by exists c.
        + injection H as <-. exists "general". split; [set_solver|done].
      - injection H as <-. exists "general". split; [set_solver|done].
      - injection H as <-. exists "general". split; [set_solver|done]. }
    assert (question_category (apply_node_output st (Some (category_update c))) = Some c)
      as Hcat by (by destruct st as [? ? ? ? ? ? ? [?|] ? ? ?]).
    assert (∃ n, path_map !! c = Some n) as [n Hn].
    { unfold question_categories in Hc.
      repeat (apply elem_of_cons in Hc as [->|Hc]; [by eexists|]).
      by apply elem_of_nil in Hc. }
    exists c, n. split_and!; [done..|].
    unfold next_node, route_after_classification, route. rewrite Hcat.
    change (default "general" (Some c)) with c. rewrite Hn. by rewrite decide_True.
  - intros st c Hp Hc Hnot. split.
    + unfold query_classification_agent, format_messages. rewrite Hp. rsimpl.
      unfold classifier_ainvoke.
      change (mkPrompt "query-classifier-prompt-test" _) with (classification_prompt st).
      rewrite Hc. rsimpl. by rewrite decide_False.
    + by destruct st as [? ? ? ? ? ? ? [?|] ? ? ?].
Qed.

Lemma routing_by_category_witness :
  (route_after_classification (Examples.with_category (Some "program_selection"))
   = Some "filter_parameters_extraction"
   ∧ terminal_node 8 "filter_parameters_extraction" = Some "sg_bot")
  ∧ (route_after_classification (Examples.with_category (Some "rules")) = Some "rules"
     ∧ terminal_node 8 "rules" = Some "rules")
  ∧ (route_after_classification (Examples.with_category (Some "follow_up")) = Some "follow_up"
     ∧ terminal_node 8 "follow_up" = Some "follow_up")
  ∧ (route_after_classification (Examples.with_category None) = Some "general_question"
     ∧ terminal_node 8 "general_question" = Some "general_question")
  ∧ (query_classification_agent Examples.chitchat_env (Examples.initial_state "hi")
     = Ok (Some (category_update "general"))
     ∧ next_node "query_classification_agent"
         (apply_node_output (Examples.initial_state "hi") (Some (category_update "general")))
       = Ok "general_question").
Proof.
  pose proof (routing_by_category Examples.chitchat_env) as (H1 & H2 & H3 & H4 & _ & H6).
  split_and!.
  - apply H1. reflexivity.
  - apply H1 with (st := Examples.with_category (Some "program_selection")). reflexivity.
  - apply H2. reflexivity.
  - apply H2 with (st := Examples.with_category (Some "rules")). reflexivity.
  - apply H3. reflexivity.
  - apply H3 with (st := Examples.with_category (Some "follow_up")). reflexivity.
  - apply H4. right. reflexivity.
  - apply H4 with (st := Examples.with_category None). right. reflexivity.
  - apply (H6 (Examples.initial_state "hi") "chitchat"); [reflexivity..|].
    apply not_elem_of_cons; split; [done|].
    apply not_elem_of_cons; split; [done|].
    apply not_elem_of_cons; split; [done|].
    apply not_elem_of_cons; split; [done|]. apply not_elem_of_nil.
  - apply (H6 (Examples.initial_state "hi") "chitchat"); [reflexivity..|].
    apply not_elem_of_cons; split; [done|].
    apply not_elem_of_cons; split; [done|].
    apply not_elem_of_cons; split; [done|].
    apply not_elem_of_cons; split; [done|]. apply not_elem_of_nil.
Defined.

End GraphFacts.

(** ** String operations *)

Section TextFacts.
Import Text.






Lemma app_cons (x : ascii) (a b : string) : String x a +:+ b = String x (a +:+ b).
Proof. reflexivity. Qed.



Lemma app_empty_r (a : string) : a +:+ "" = a.
Proof. induction a as [|x a IH]; [done|]. by rewrite app_cons, IH. Qed.


End TextFacts.

(** ** Streaming loop *)

Section StreamFacts.
Import Text SearchParams Agents Stream.
Variable json_dumps : gmap string jvalue → string.








(** The chunk that completes the marker leaves the loop in a section
    state: the units start there. *)
Lemma marker_chunk_enters_section st c idx :
  response_type st = Some "programs" →
  inside_program_section st = false →
  line_buffer st = "" →
  in_school_logo_line st = false →
  find marker (preamble_buffer st +:+ c) = Some idx →
  ∃ pending, section_state (fst (content_step json_dumps st c)) pending.
Proof.
  intros Hrt Hin Hbuf Hlogo Hfind.
  destruct st as [ids rq rt cy lb logo inside pb]. simpl in *. subst.
  unfold content_step. cbn [response_type inside_program_section].
  rewrite decide_True by done. unfold preamble_step.
  cbn [preamble_buffer new_excluded_ids rewritten_query response_type content_yielded
       line_buffer in_school_logo_line inside_program_section].
  rewrite Hfind. cbn [inside_program_section]. unfold section_step.
  cbn [preamble_buffer new_excluded_ids rewritten_query response_type content_yielded
       line_buffer in_school_logo_line inside_program_section].
  set (buffer := ("" +:+ drop_str (idx + String.length marker) (pb +:+ c)) +:+ c).
  rewrite andb_true_r.
  assert ((if contains "school logo" (lower buffer) then true else false)
          = contains "school logo" (lower buffer)) as -> by (by case_match).
  destruct (contains newline buffer) eqn:Hnl.
  - exists "". rewrite !andb_true_r.
    destruct (contains "school logo" (lower buffer)); cbn [negb andb fst];
      [by repeat split|].
    destruct (contains "program link" (lower buffer)); cbn [negb andb fst];
      by repeat split.
  - exists buffer. rewrite !andb_false_r. cbn [fst]. by repeat split.
Qed.


(** *** The [response_type] event *)

Lemma early_is_response_type rt :
  is_response_type (DictChunk (early_metadata rt)) = true.
Proof.
  unfold is_response_type, early_metadata.
  rewrite lookup_insert_ne, lookup_singleton_eq by done.
  by apply bool_decide_eq_true_2.
Qed.

Lemma annotation_no_response_type label meta buffer :
  (∀ url, meta url !! "response_type" = None) →
  Forall (fun c => is_response_type c = false) (annotation json_dumps label meta buffer).
Proof.
  intros H. unfold annotation. case_match; repeat constructor.
  unfold is_response_type. rewrite H. by apply bool_decide_eq_false_2, is_Some_None.
Qed.

Lemma logo_no_response_type url : logo_metadata url !! "response_type" = None.
Proof. unfold logo_metadata. by rewrite lookup_insert_ne, lookup_singleton_ne. Qed.

Lemma program_no_response_type url : program_metadata url !! "response_type" = None.
Proof. unfold program_metadata. by rewrite lookup_insert_ne, lookup_singleton_ne. Qed.

Lemma preamble_step_props st c :
  response_type (fst (preamble_step st c)) = response_type st
  ∧ Forall (fun c => is_response_type c = false) (snd (preamble_step st c)).
Proof. unfold preamble_step. case_match; simpl; split; by repeat constructor. Qed.

Lemma section_step_props st c :
  response_type (fst (section_step json_dumps st c)) = response_type st
  ∧ Forall (fun c => is_response_type c = false) (snd (section_step json_dumps st c)).
Proof.
  unfold section_step. repeat case_match; cbn [fst snd response_type]; (split; [done|]);
    first [ apply annotation_no_response_type;
            first [apply logo_no_response_type | apply program_no_response_type]
          | by repeat constructor ].
Qed.

Lemma content_step_props st c :
  response_type (fst (content_step json_dumps st c)) = response_type st
  ∧ Forall (fun c => is_response_type c = false) (snd (content_step json_dumps st c)).
Proof.
  unfold content_step. cbn [response_type inside_program_section].
  case_match; [|simpl; split; by repeat constructor].
  set (st1 := mkLoop _ _ _ _ _ _ _ _).
  assert (response_type st1 = response_type st) as H1 by reflexivity.
  destruct (inside_program_section st) eqn:Hin.
  - pose proof (section_step_props st1 c) as [Ha Hb].
    destruct (section_step json_dumps st1 c) as [st3 out3]. simpl in *.
    split; [congruence|done].
  - pose proof (preamble_step_props st1 c) as [Ha Hb].
    destruct (preamble_step st1 c) as [st2 out2]. cbn [fst snd] in *.
    destruct (inside_program_section st2).
    + pose proof (section_step_props st2 c) as [Hc Hd].
      destruct (section_step json_dumps st2 c) as [st3 out3]. cbn [fst snd] in *.
      split; [congruence|by apply Forall_app_2].
    + cbn [fst snd]. split; [congruence|]. apply Forall_app_2; [done|constructor].
Qed.

(** One iteration: once [response_type] is set it stays, and no further
    [response_type] event is yielded; while it is unset, either nothing is
    yielded, or the event is yielded first. *)
Lemma step_props st ev st' out :
  step json_dumps st ev = Ok (st', out) →
  match response_type st with
  | Some rt => response_type st' = Some rt ∧ Forall (fun c => is_response_type c = false) out
  | None =>
      idle st →
      (idle st' ∧ out = [])
      ∨ (∃ n c rest, ev = OnChatModelStream (Some n) c ∧ n ∈ STREAMING_NODES
           ∧ response_type st' = Some (response_type_of n)
           ∧ out = DictChunk (early_metadata (response_type_of n)) :: rest
           ∧ Forall (fun c => is_response_type c = false) rest)
  end.
Proof.
  intros Hstep. destruct ev as [node content|node output|]; cbn [step] in Hstep.
  - destruct (is_streaming_node node) eqn:Hnode.
    + destruct node as [n|]; [|done]. cbn [is_streaming_node] in Hnode.
      apply bool_decide_eq_true_1 in Hnode.
      destruct (response_type st) as [rt|] eqn:Hrt.
      * destruct (truthy_str content).
        -- pose proof (content_step_props st (default "" content)) as [Ha Hb].
           destruct (content_step json_dumps st (default "" content)) as [st2 out2].
           injection Hstep as <- <-. cbn [fst snd app] in *. split; [congruence|done].
        -- injection Hstep as <- <-. split; [done|constructor].
      * intros _. right. exists n, content.
        assert ((if decide (Some n = Some "sg_bot") then "programs" else "text")
                = response_type_of n) as Hrt_of.
        { unfold response_type_of. repeat case_decide; congruence. }
        rewrite Hrt_of in Hstep. clear Hrt_of.
        set (st1 := mkLoop _ _ _ _ _ _ _ _) in Hstep.
        destruct (truthy_str content).
        -- pose proof (content_step_props st1 (default "" content)) as [Ha Hb].
           destruct (content_step json_dumps st1 (default "" content)) as [st2 out2].
           injection Hstep as <- <-. cbn [fst snd app] in *.
           eexists. by split_and!.
        -- injection Hstep as <- <-. eexists. split_and!; first [done | constructor].
    + injection Hstep as <- <-. destruct (response_type st) eqn:Hrt.
      * split; [done|constructor].
      * intros Hidle. by left.
  - destruct (truthy_str node).
    + destruct output as [node_data|].
      * destruct (excluded_ids node_data) as [[l|]|]; rsimpl; try discriminate Hstep;
          injection Hstep as <- <-; cbn [response_type];
          (destruct (response_type st) eqn:Hrt;
           [split; [done|constructor]
           |intros (H1 & H2 & H3 & H4); left; by repeat split]).
      * injection Hstep as <- <-. destruct (response_type st) eqn:Hrt.
        -- split; [done|constructor].
        -- intros Hidle. by left.
    + injection Hstep as <- <-. destruct (response_type st) eqn:Hrt.
      * split; [done|constructor].
      * intros Hidle. by left.
  - injection Hstep as <- <-. destruct (response_type st) eqn:Hrt.
    + split; [done|constructor].
    + intros Hidle. by left.
Qed.

(** The same over the whole loop, when the chunks of streaming nodes all
    come from the node [n0]. *)
Lemma consume_props n0 events :
  ∀ st st' out err,
    consume json_dumps st events = (st', out, err) →
    (∀ n c, OnChatModelStream (Some n) c ∈ events → n ∈ STREAMING_NODES → n = n0) →
    match response_type st with
    | Some rt => response_type st' = Some rt ∧ Forall (fun c => is_response_type c = false) out
    | None =>
        idle st →
        (idle st' ∧ out = [])
        ∨ (∃ rest, response_type st' = Some (response_type_of n0)
             ∧ out = DictChunk (early_metadata (response_type_of n0)) :: rest
             ∧ Forall (fun c => is_response_type c = false) rest)
    end.
Proof.
  induction events as [|ev events IH]; intros st st' out err Hcons Hnodes.
  - cbn in Hcons. injection Hcons as <- <- <-.
    destruct (response_type st) eqn:Hrt; [split; [done|constructor]|].
    intros Hidle. by left.
  - cbn [consume] in Hcons.
    destruct (step json_dumps st ev) as [[st1 out1]|e] eqn:Hstep.
    + destruct (consume json_dumps st1 events) as [[st2 out2] err2] eqn:Hrest.
      injection Hcons as <- <- <-.
      pose proof (step_props st ev st1 out1 Hstep) as Hs.
      assert (∀ n c, OnChatModelStream (Some n) c ∈ events → n ∈ STREAMING_NODES → n = n0)
        as Hnodes'.
      { intros n c Hin. apply (Hnodes n c). by apply list_elem_of_further. }
      pose proof (IH st1 st2 out2 err2 Hrest Hnodes') as Hr.
      destruct (response_type st) as [rt|] eqn:Hrt.
      * destruct Hs as [Hs1 Hs2]. rewrite Hs1 in Hr. destruct Hr as [Hr1 Hr2].
        split; [done|by apply Forall_app_2].
      * intros Hidle. destruct (Hs Hidle) as [[Hidle1 ->]|(n & c & rest & -> & Hn & Hrt1 & -> & Hrest1)].
        -- destruct Hidle1 as [Hnone Hidle1]. rewrite Hnone in Hr.
           apply Hr. by split.
        -- assert (n = n0) as -> by (apply (Hnodes n c); [apply list_elem_of_here|done]).
           rewrite Hrt1 in Hr. destruct Hr as [Hr1 Hr2].
           right. exists (rest ++ out2). split_and!; [done|done|by apply Forall_app_2].
    + injection Hcons as <- <- <-.
      destruct (response_type st) eqn:Hrt; [split; [done|constructor]|].
      intros Hidle. by left.
Qed.

Lemma finish_props run_id st :
  Forall (fun c => is_response_type c = false) (finish run_id st)
  ∧ (idle st → finish run_id st = []).
Proof.
  split.
  - unfold finish. apply Forall_app_2.
    + case_match; by repeat constructor.
    + case_match; [|constructor].
      apply Forall_cons; split; [|apply Forall_cons; split; [|constructor]].
      * unfold is_response_type, final_metadata.
        rewrite !lookup_insert_ne, lookup_singleton_ne by done.
        by apply bool_decide_eq_false_2, is_Some_None.
      * unfold is_response_type, stream_complete.
        rewrite lookup_singleton_ne by done.
        by apply bool_decide_eq_false_2, is_Some_None.
  - intros (_ & Hbuf & Hcy & _). unfold finish. by rewrite Hbuf, Hcy.
Qed.

(** The chunks of one turn: none, or the [response_type] event followed by
    chunks without that key. *)
Lemma stream_workflow_shape n0 run_id excluded conversion events failure :
  (∀ n c, OnChatModelStream (Some n) c ∈ events → n ∈ STREAMING_NODES → n = n0) →
  let out := fst (stream_workflow json_dumps run_id excluded conversion events failure) in
  out = []
  ∨ ∃ rest, out = DictChunk (early_metadata (response_type_of n0)) :: rest
            ∧ Forall (fun c => is_response_type c = false) rest.
Proof.
  intros Hnodes. unfold stream_workflow.
  destruct conversion as [h|e]; [|by left].
  destruct (consume json_dumps (initial_loop excluded) events) as [[st out] err] eqn:Hcons.
  pose proof (consume_props n0 events _ _ _ _ Hcons Hnodes) as H.
  cbn [initial_loop response_type] in H.
  destruct H as [[Hidle ->]|(rest & Hrt & -> & Hrest)]; [by repeat split|..].
  - destruct err; [by left|]. destruct failure; [by left|].
    cbn [fst app]. left. by apply finish_props.
  - right. destruct err; [by eauto|]. destruct failure; [by eauto|].
    cbn [fst]. exists (rest ++ finish run_id st). split; [done|].
    apply Forall_app_2; [done|apply finish_props].
Qed.

(** C8: in every turn at most one [response_type] event is yielded; it
    precedes every text chunk; and when the streaming chunks of the turn
    come from the generation node [n0], its value is [programs] if [n0] is
    the grounded-generation node [sg_bot] and [text] otherwise. *)
Theorem response_type_once_before_text n0 run_id excluded conversion events failure :
  (∀ n c, OnChatModelStream (Some n) c ∈ events → n ∈ STREAMING_NODES → n = n0) →
  let out := fst (stream_workflow json_dumps run_id excluded conversion events failure) in
  (length (filter (fun c => is_response_type c = true) out) ≤ 1)%nat
  ∧ (∀ i c, out !! i = Some c → is_text c = true →
       ∃ j m, (j < i)%nat ∧ out !! j = Some m ∧ is_response_type m = true)
  ∧ (∀ c, c ∈ out → is_response_type c = true →
       c = DictChunk (early_metadata (if decide (n0 = "sg_bot") then "programs" else "text"))).
Proof.
  intros Hnodes out.
  destruct (stream_workflow_shape n0 run_id excluded conversion events failure Hnodes)
    as [Hout|(rest & Hout & Hrest)]; fold out in Hout; rewrite Hout.
  - split_and!; [simpl; lia|intros i c H; by rewrite lookup_nil in H|].
    intros c H. by apply elem_of_nil in H.
  - assert (filter (fun c => is_response_type c = true) rest = []) as Hfilter.
    { clear Hout. induction Hrest as [|c rest Hc _ IH]; [done|].
      rewrite filter_cons_False; [done|]. by rewrite Hc. }
    split_and!.
    + rewrite filter_cons_True by apply early_is_response_type.
      rewrite Hfilter. simpl. lia.
    + intros [|i] c Hc Htext.
      * injection Hc as <-. discriminate Htext.
      * exists 0%nat, (DictChunk (early_metadata (response_type_of n0))).
        split_and!; [lia|done|apply early_is_response_type].
    + intros c [->|Hin]%elem_of_cons Hc; [done|].
      rewrite Forall_forall in Hrest. rewrite (Hrest c Hin) in Hc. discriminate Hc.
Qed.

End StreamFacts.

Section StreamExamples.
Import Text SearchParams Agents Stream Examples.

Lemma response_type_once_before_text_witness :
  (length (filter (fun c => is_response_type c = true) two_chunk_turn) ≤ 1)%nat
  ∧ (∀ i c, two_chunk_turn !! i = Some c → is_text c = true →
       ∃ j m, (j < i)%nat ∧ two_chunk_turn !! j = Some m ∧ is_response_type m = true)
  ∧ (∀ c, c ∈ two_chunk_turn → is_response_type c = true →
       c = DictChunk (early_metadata (if decide ("sg_bot" = "sg_bot") then "programs"
                                      else "text"))).
Proof.
  apply (response_type_once_before_text render "sg_bot" (Some "r1") None (Ok NoMessages)
           [OtherEvent; sg_bot_event "Here are "; sg_bot_event "two programs"] None).
  intros n c Hin _.
  apply elem_of_cons in Hin as [Hin|Hin]; [discriminate Hin|].
  apply elem_of_cons in Hin as [Hin|Hin]; [by injection Hin|].
  apply elem_of_cons in Hin as [Hin|Hin]; [by injection Hin|].
  by apply elem_of_nil in Hin.
Defined.


(** The units of the witness: the logo line becomes an event and its JSON
    line, the other line is flushed as text. *)
Example units_output_example :
  units_output render ""
    [(["School"; " Logo: http://x"], newline); (["Name: A"], newline)]
  = [DictChunk (logo_metadata "http://x");
     TextChunk ("{school_logo: http://x}" +:+ newline);
     TextChunk ("Name: A" +:+ newline)].
Proof. reflexivity. Qed.


(** The example of the specification, received as a single chunk: the
    preamble and the text after the logo line are not yielded. *)
Example single_chunk_example :
  fst (stream_workflow render (Some "r1") None (Ok NoMessages)
         [sg_bot_event ("preamble ----program start---- school logo: http://x"
                          +:+ newline +:+ "body")] None)
  = [DictChunk (early_metadata "programs");
     TextChunk (marker +:+ newline);
     DictChunk (logo_metadata "http://x");
     TextChunk ("{school_logo: http://x}" +:+ newline);
     DictChunk (final_metadata (Some "r1") None);
     DictChunk stream_complete].
Proof. reflexivity. Qed.

End StreamExamples.

(** ** Chat service *)

Section ChatFacts.
Import Text SearchParams Agents Stream ChatService.

Lemma error_data_no_run_id e : frame_run_id (DataDict (error_data e)) = None.
Proof. unfold frame_run_id, error_data. by rewrite lookup_insert_ne, lookup_singleton_ne. Qed.

Lemma frame_of_chunk_not_done c f : frame_of_chunk c = Some f → f ≠ DataDone.
Proof. destruct c; simpl; [by intros [= <-]|]. case_decide; [done|by intros [= <-]]. Qed.

Lemma omap_frames_not_done (chunks : list chunk) : DataDone ∉ omap frame_of_chunk chunks.
Proof.
  intros (c & _ & Hc)%list_elem_of_omap. by apply frame_of_chunk_not_done in Hc.
Qed.

(** C6 (evaluation of the code): the frames of [stream_chat] always end
    with the terminal [DONE] frame, also when loading the conversation or
    producing the stream raises, and after an exception the frame just
    before [DONE] is the error frame.  That frame holds the keys [error]
    and [message] only: it carries no run identifier, known or not.  The
    handler of the endpoint, which does put the run identifier it has seen
    into its error frame, is never reached: the response of the endpoint
    is the sequence of frames of [stream_chat], unchanged. *)
Theorem stream_chat_terminates {M E : Type} (conversation : result (M * E))
    (bot_stream : E → M → list chunk * option exn) :
  (∃ front, stream_chat conversation bot_stream = front ++ [DataDone] ∧ DataDone ∉ front)
  ∧ (∀ e, conversation = Raise e →
       stream_chat conversation bot_stream = [DataDict (error_data e); DataDone])
  ∧ (∀ msgs ex chunks e,
       conversation = Ok (msgs, ex) → bot_stream ex msgs = (chunks, Some e) →
       stream_chat conversation bot_stream
       = omap frame_of_chunk chunks ++ [DataDict (error_data e); DataDone])
  ∧ (∀ e, error_data e !! "error" = Some (JStr "Stream interrupted")
          ∧ error_data e !! "message" = Some (JStr (exn_str e))
          ∧ frame_run_id (DataDict (error_data e)) = None)
  ∧ stream_message conversation bot_stream = stream_chat conversation bot_stream
  ∧ (∀ frames e,
       ∃ run_id,
         response_generator_with_run_id frames (Some e)
         = frames ++ [DataDict (endpoint_error_data e run_id); DataDone]
         ∧ frame_run_id (DataDict (endpoint_error_data e run_id)) = Some run_id
         ∧ (∀ front d v, frames = front ++ [DataDict d] → d !! "run_id" = Some v →
              run_id = v)).
Proof.
  split_and!.
  - unfold stream_chat. destruct conversation as [[msgs ex]|e].
    + destruct (bot_stream ex msgs) as [chunks [e|]].
      * exists (omap frame_of_chunk chunks ++ [DataDict (error_data e)]).
        split; [by rewrite <- app_assoc|].
        intros [H|H]%elem_of_app; [by apply omap_frames_not_done in H|].
        by apply list_elem_of_singleton in H.
      * exists (omap frame_of_chunk chunks). split; [done|apply omap_frames_not_done].
    + exists [DataDict (error_data e)]. split; [done|].
      intros H. by apply list_elem_of_singleton in H.
  - by intros e ->.
  - intros msgs ex chunks e -> H. unfold stream_chat. by rewrite H.
  - intros e. split_and!; [done| |apply error_data_no_run_id].
    unfold error_data. by rewrite lookup_insert_ne, lookup_singleton_eq.
  - unfold stream_message, response_generator_with_run_id. by rewrite app_nil_r.
  - intros frames e. exists (foldl track_run_id JNull frames). split_and!.
    + reflexivity.
    + unfold frame_run_id, endpoint_error_data.
      by rewrite !lookup_insert_ne, lookup_singleton_eq.
    + intros front d v -> Hv. rewrite foldl_app. cbn [foldl track_run_id]. by rewrite Hv.
Qed.

End ChatFacts.

Section ChatExamples.
Import Text SearchParams Agents Stream ChatService Examples.

Lemma stream_chat_terminates_witness :
  stream_chat (Raise (ExternalError "database unreachable") : result (history * option (list doc_id)))
    interrupted_stream
  = [DataDict (error_data (ExternalError "database unreachable")); DataDone]
  ∧ stream_chat (Ok (NoMessages, None)) interrupted_stream
    = omap frame_of_chunk [DictChunk (early_metadata "text"); TextChunk "Hello"]
        ++ [DataDict (error_data (ExternalError "boom")); DataDone].
Proof.
  split.
  - apply (proj1 (proj2 (stream_chat_terminates
                           (Raise (ExternalError "database unreachable")) interrupted_stream))).
    reflexivity.
  - apply (proj1 (proj2 (proj2 (stream_chat_terminates (Ok (NoMessages, None))
                                  interrupted_stream)))
             NoMessages None [DictChunk (early_metadata "text"); TextChunk "Hello"]
             (ExternalError "boom")); reflexivity.
Defined.

(** The failing turn of C6: the stream raises after one chunk while the
    run identifier [r1] is known to the workflow, and no frame of the
    response carries a run identifier. *)
Example error_frame_without_run_id :
  stream_message (Ok (NoMessages, None)) interrupted_stream
  = [DataDict (early_metadata "text"); DataText "Hello";
     DataDict (error_data (ExternalError "boom")); DataDone]
  ∧ Forall (fun f => frame_run_id f = None)
      (stream_message (Ok (NoMessages, None)) interrupted_stream).
Proof. split; [reflexivity|]. by repeat constructor. Qed.

End ChatExamples.

(** * Further properties of the code *)

(** ** Filter builder *)

Section MoreSearchParamsFacts.
Import SearchParams Observations.

Lemma create_filter_conditions_ok_inv a f :
  create_filter_conditions a = Ok f →
  ∃ pt ids e p,
    arg_program_types a = Some pt ∧ arg_exclude_ids_list a = Some ids
    ∧ arg_exclude a = Some e ∧ arg_price_campus_info a = Some (Some p)
    ∧ f = wrap ((leading_conditions p (default None (arg_entry_level a))
                   ++ [Cond "new_program_type" (In_ pt)])
                  ++ exclusion_conditions ids e).
Proof.
  destruct a as [[pt|] [ids|] [e|] pci el]; unfold create_filter_conditions; simpl;
    try discriminate.
  destruct pci as [[p|]|]; simpl; try discriminate.
  rewrite body_some. intros [= <-]. by exists pt, ids, e, p.
Qed.

(** X1: every filter that [create_filter_conditions] returns carries the
    program-type condition, over exactly the list of program types passed. *)
Theorem program_type_condition_always_present a f :
  create_filter_conditions a = Ok f →
  ∃ pt, arg_program_types a = Some pt ∧ program_type_condition f = Some pt.
Proof.
  intros (pt & ids & e & p & Hpt & _ & _ & _ & ->)%create_filter_conditions_ok_inv.
  exists pt. split; [done|]. apply program_type_condition_body.
Qed.

Lemma program_type_condition_always_present_witness :
  ∃ pt, Some ["MBA"; "BBA"] = Some pt
        ∧ program_type_condition
            (And_ [Cond "price" (Lte 9000); Cond "new_program_type" (In_ ["MBA"; "BBA"])])
          = Some pt.
Proof.
  apply (program_type_condition_always_present
           (mkCall (Some ["MBA"; "BBA"]) (Some None) (Some true)
                   (Some (Some (mkPriceCampus (Some 7000) (Some "lt") None None None)))
                   None)).
  reflexivity.
Defined.

(** X2: a returned filter is either the bare program-type condition, when
    no other constraint applies, or a conjunction of at least two
    conditions, none of which is itself a conjunction. *)
Theorem filter_shape a f :
  create_filter_conditions a = Ok f →
  (∃ pt, f = Cond "new_program_type" (In_ pt))
  ∨ (∃ fs, f = And_ fs ∧ (2 ≤ length fs)%nat ∧ flat fs).
Proof.
  intros (pt & ids & e & p & _ & _ & _ & _ & ->)%create_filter_conditions_ok_inv.
  set (el := default None (arg_entry_level a)).
  pose proof (not_conjunction_leading p el) as Hflat.
  assert (flat (exclusion_conditions ids e)) as Hexcl.
  { unfold flat, exclusion_conditions. case_match; by repeat constructor. }
  destruct (leading_conditions p el) as [|c1 l] eqn:Hl.
  - destruct (exclusion_conditions ids e) as [|x l'] eqn:He; [left; by eauto|].
    right. eexists. split; [reflexivity|]. split; [simpl; lia|].
    apply Forall_cons; split; [done|exact Hexcl].
  - right. exists (((c1 :: l) ++ [Cond "new_program_type" (In_ pt)]) ++ exclusion_conditions ids e).
    split_and!.
    + by destruct l.
    + rewrite !length_app. simpl. lia.
    + apply Forall_app_2; [apply Forall_app_2; [done|by repeat constructor]|done].
Qed.

Lemma filter_shape_witness :
  (∃ pt, Cond "new_program_type" (In_ ["MBA"]) = Cond "new_program_type" (In_ pt))
  ∨ (∃ fs, Cond "new_program_type" (In_ ["MBA"]) = And_ fs ∧ (2 ≤ length fs)%nat ∧ flat fs).
Proof.
  apply (filter_shape
           (mkCall (Some ["MBA"]) (Some (Some [IdInt 3])) (Some false)
                   (Some (Some (mkPriceCampus None None None None None))) None)).
  reflexivity.
Defined.

Lemma elem_of_one_of_cond field c names :
  Cond field c = one_of names → c = EqTrue.
Proof.
  unfold one_of. destruct names as [|n [|m names]]; simpl; [done| |done].
  by intros [= _ ->].
Qed.

Lemma price_in_leading p el c :
  c ≠ EqTrue →
  Cond "price" c ∈ leading_conditions p el ↔
  truthy_int (price p) = true
  ∧ ((price_condition p = Some "gt" ∧ ∃ v, price p = Some v ∧ c = Gte (v - 1000))
     ∨ (price_condition p = Some "lt" ∧ ∃ v, price p = Some v ∧ c = Lte (v + 2000))).
Proof.
  intros Hc. unfold leading_conditions. rewrite !elem_of_app.
  assert (∀ (b : bool) names, ¬ Cond "price" c ∈ (if b then [one_of names] else [])) as Hone.
  { intros [] names H; [|by apply elem_of_nil in H].
    apply list_elem_of_singleton in H. by apply elem_of_one_of_cond in H. }
  split.
  - intros [[[[H|H]|H]|H]|H].
    + destruct (truthy_int (price p)) eqn:Ht; [|by apply elem_of_nil in H].
      split; [done|]. unfold price_conditions in H. rewrite Ht in H.
      destruct (price p) as [v|]; [|done].
      destruct (price_condition p) as [pc|]; [|by apply elem_of_nil in H].
      destruct (decide (pc = "gt")) as [->|Hgt].
      { apply list_elem_of_singleton in H. injection H as ->. left. eauto. }
      destruct (decide (pc = "lt")) as [->|Hlt].
      { apply list_elem_of_singleton in H. injection H as ->. right. eauto. }
      exfalso. revert H. repeat (case_match; try done); subst; try done;
        by intros ?%elem_of_nil.
    + destruct (truthy_bool (primos_arrivant p)); [|by apply elem_of_nil in H].
      by apply list_elem_of_singleton in H.
    + by apply Hone in H.
    + by apply Hone in H.
    + destruct (truthy_int (school_rank p)); [|by apply elem_of_nil in H].
      by apply list_elem_of_singleton in H.
  - intros [Ht [[Hpc (v & Hv & ->)]|[Hpc (v & Hv & ->)]]];
      do 4 left; rewrite Ht; unfold price_conditions; rewrite Ht, Hv, Hpc;
      apply list_elem_of_here.
Qed.

(** X3: the price bound of a returned filter.  A lower bound [$gte v] on
    [price] is present exactly when the extracted price is non-zero, its
    condition is [gt] and [v] is the price minus 1000; an upper bound
    [$lte v] exactly when the condition is [lt] and [v] is the price plus
    2000.  A price of zero or any other condition gives no price bound. *)
Theorem price_band pt ids e p el f v :
  create_filter_conditions (mkCall (Some pt) (Some ids) (Some e) (Some (Some p)) (Some el))
  = Ok f →
  (Cond "price" (Gte v) ∈ top_conditions f ↔
     price p = Some (v + 1000) ∧ v + 1000 ≠ 0 ∧ price_condition p = Some "gt")
  ∧ (Cond "price" (Lte v) ∈ top_conditions f ↔
     price p = Some (v - 2000) ∧ v - 2000 ≠ 0 ∧ price_condition p = Some "lt").
Proof.
  rewrite create_filter_conditions_all, body_some. intros [= <-].
  rewrite top_conditions_body.
  assert (∀ c, c ≠ EqTrue →
            (Cond "price" c ∈ (leading_conditions p el ++ [Cond "new_program_type" (In_ pt)])
                                ++ exclusion_conditions ids e
             ↔ Cond "price" c ∈ leading_conditions p el)) as Hmem.
  { intros c Hc. rewrite !elem_of_app. split; [|by auto].
    intros [[H|H]|H]; [done| |].
    - by apply list_elem_of_singleton in H.
    - unfold exclusion_conditions in H. case_match; [|by apply elem_of_nil in H].
      by apply list_elem_of_singleton in H. }
  rewrite !Hmem, !price_in_leading by done. unfold truthy_int. split; split.
  - intros [Ht [[Hpc (w & Hw & [= ->])]|[_ (w & _ & [=])]]].
    rewrite Hw in *. replace (w - 1000 + 1000) with w by lia.
    split_and!; [done| |done]. intros ->. done.
  - intros (Hp & Hne & Hpc). rewrite Hp. split.
    + apply negb_true_iff, Z.eqb_neq. done.
    + left. split; [done|]. exists (v + 1000). split; [done|]. f_equal. lia.
  - intros [Ht [[_ (w & _ & [=])]|[Hpc (w & Hw & [= ->])]]].
    rewrite Hw in *. replace (w + 2000 - 2000) with w by lia.
    split_and!; [done| |done]. intros ->. done.
  - intros (Hp & Hne & Hpc). rewrite Hp. split.
    + apply negb_true_iff, Z.eqb_neq. done.
    + right. split; [done|]. exists (v - 2000). split; [done|]. f_equal. lia.
Qed.

Lemma price_band_witness :
  (Cond "price" (Lte 9000)
     ∈ top_conditions (And_ [Cond "price" (Lte 9000); Cond "new_program_type" (In_ ["MBA"])])
   ↔ Some 7000 = Some (9000 - 2000) ∧ 9000 - 2000 ≠ 0 ∧ Some "lt" = Some "lt").
Proof.
  apply (price_band ["MBA"] None true (mkPriceCampus (Some 7000) (Some "lt") None None None)
           None _ 9000).
  reflexivity.
Defined.

(** X4: [child_parent_retriever_search_params] returns exactly when the
    list of program types is non-empty and a price/campus struct is given;
    the parameters it returns hold no [search_type], the requested [k]
    plus one, and the filter of [create_filter_conditions] for the same
    arguments. *)
Theorem search_params_result pt k ids pci el e :
  (is_ok (child_parent_retriever_search_params pt k ids pci el e) = true
   ↔ pt ≠ [] ∧ pci ≠ None)
  ∧ (∀ sp, child_parent_retriever_search_params pt k ids pci el e = Ok sp →
       ∃ f, create_filter_conditions_body pt ids e pci el = Ok f
            ∧ sp = mkParams None (Some (mkKwargs (Some (k + 1)) (Some f)))).
Proof.
  unfold child_parent_retriever_search_params. destruct pt as [|t pt]; simpl.
  - split; [split; [done|by intros [? _]]|done].
  - rewrite create_filter_conditions_all. destruct pci as [p|].
    + rewrite body_some. simpl. split; [by split|].
      intros sp [= <-]. eauto.
    + simpl. split; [split; [done|by intros [_ ?]]|done].
Qed.

Lemma search_params_result_witness :
  ∃ f, create_filter_conditions_body ["MBA"] (Some [IdInt 3]) true
         (Some (mkPriceCampus None None None None None)) (Some []) = Ok f
       ∧ mkParams None (Some (mkKwargs (Some 15)
           (Some (And_ [Cond "new_program_type" (In_ ["MBA"]);
                        Cond "program_id" (Nin [IdInt 3])]))))
         = mkParams None (Some (mkKwargs (Some (14 + 1)) (Some f))).
Proof.
  apply (proj2 (search_params_result ["MBA"] 14 (Some [IdInt 3])
                  (Some (mkPriceCampus None None None None None)) (Some []) true)).
  reflexivity.
Defined.

End MoreSearchParamsFacts.

(** ** Retriever *)

Section MoreRetrieverFacts.
Import SearchParams Retrievers Observations.

(** X5: a partition retriever never raises and always returns a
    dictionary with the single key [content]; the content is empty when the
    vector store is missing or when the search itself raises. *)
Theorem filter_retriever_invoke_total self config :
  (∃ docs, filter_retriever_invoke self config = Ok {[ "content" := docs ]})
  ∧ (vectorstore self = None →
     filter_retriever_invoke self config = Ok {[ "content" := [] ]})
  ∧ (∀ v p r e,
       vectorstore self = Some v → search_params config = Some p →
       as_retriever v p = Ok r → retriever_invoke r (rewritten_query config) = Raise e →
       filter_retriever_invoke self config = Ok {[ "content" := [] ]}).
Proof.
  split_and!.
  - unfold filter_retriever_invoke.
    destruct self as [[v|]]; [|by eauto]. cbn [vectorstore].
    destruct (call_as_retriever (Some v) (search_params config)) as [r|e] eqn:E1; rsimpl.
    + destruct (retriever_invoke r (rewritten_query config)); rsimpl; eauto.
    + destruct (basic_retriever (Some v) (search_params config)) as [r|e'] eqn:E2; rsimpl.
      * destruct (retriever_invoke r (rewritten_query config)); rsimpl; eauto.
      * eauto.
  - intros H. unfold filter_retriever_invoke. by rewrite H.
  - intros v p r e Hv Hp Hr He. unfold filter_retriever_invoke, call_as_retriever.
    rewrite Hv, Hp, Hr. rsimpl. by rewrite He.
Qed.

Lemma filter_retriever_invoke_total_witness :
  filter_retriever_invoke (mkFilterRetriever None) Examples.test_config
  = Ok {[ "content" := [] ]}.
Proof.
  apply (proj1 (proj2 (filter_retriever_invoke_total (mkFilterRetriever None)
                         Examples.test_config))).
  reflexivity.
Defined.

(** X6: when the vector store rejects the search parameters but accepts
    a plain retriever, the search runs without the filter: the documents
    returned are those of the unfiltered retriever, asked for the [k] of
    the parameters, or for 10 when that [k] is missing or zero. *)
Theorem filter_dropped_on_fallback self config v p e r docs :
  vectorstore self = Some v →
  search_params config = Some p →
  as_retriever v p = Raise e →
  as_retriever v
    (mkParams None
       (Some (mkKwargs
                (Some (match search_kwargs p with
                       | Some kw => if truthy_int (kw_k kw) then default 10 (kw_k kw) else 10
                       | None => 10
                       end)) None))) = Ok r →
  retriever_invoke r (rewritten_query config) = Ok docs →
  filter_retriever_invoke self config = Ok {[ "content" := docs ]}.
Proof.
  intros Hv Hp He Hr Hdocs.
  unfold filter_retriever_invoke, call_as_retriever, basic_retriever, fallback_k.
  rewrite Hv, Hp, He. rsimpl.
  destruct (search_kwargs p) as [kw|]; rsimpl; rewrite Hr; rsimpl; by rewrite Hdocs.
Qed.

Lemma filter_dropped_on_fallback_witness :
  filter_retriever_invoke (mkFilterRetriever (Some MoreExamples.strict_store))
    Examples.test_config
  = Ok {[ "content" := [MoreExamples.doc_a] ]}.
Proof.
  apply (filter_dropped_on_fallback _ _ MoreExamples.strict_store
           (mkParams None (Some (mkKwargs (Some 15)
              (Some (Cond "new_program_type" (In_ ["MBA"]))))))
           (ExternalError "unsupported filter")
           (mkRetriever (fun _ => Ok [MoreExamples.doc_a])));
    reflexivity.
Defined.

Lemma mapM_ok {A B} (f : A → result B) (g : A → B) l :
  (∀ x, x ∈ l → f x = Ok (g x)) → mapM f l = Ok (map g l).
Proof.
  induction l as [|a l IH]; intros H; [done|].
  cbn [mapM]. rewrite (H a) by apply list_elem_of_here. rsimpl.
  rewrite IH; [done|]. intros x Hx. apply H. by apply list_elem_of_further.
Qed.

Lemma mapM_raise {A B} (f : A → result B) l x :
  x ∈ l → is_ok (f x) = false → is_ok (mapM f l) = false.
Proof.
  induction l as [|a l IH]; intros Hx Hf; [by apply elem_of_nil in Hx|].
  cbn [mapM]. apply elem_of_cons in Hx as [<-|Hx].
  - by destruct (f x).
  - destruct (f a); [|done]. rsimpl. specialize (IH Hx Hf).
    by destruct (mapM f l).
Qed.

(** X7: one child document without [program_id] in its metadata makes
    the whole retrieval return [{"content": []}]: the documents found by
    the three partitions are all lost. *)
Theorem missing_program_id_loses_all {Parent} (fmt : Parent → result string)
    self config g e s d :
  filter_retriever_invoke (grande_ecole_retriever self) config = Ok g →
  filter_retriever_invoke (ecole_specialisee_retriever self) config = Ok e →
  filter_retriever_invoke (specialization_retriever self) config = Ok s →
  d ∈ children_of g s e →
  metadata_program_id d = None →
  multiple_invoke fmt self config = Ok {[ "content" := [] ]}.
Proof.
  intros Hg He Hs Hd Hnone. unfold multiple_invoke, multiple_invoke_try.
  destruct config as [q sp]. cbn [rewritten_query search_params] in *.
  rewrite Hg, He, Hs. rsimpl.
  destruct (load_parent_json self) as [parents|err]; rsimpl; [|done].
  pose proof (mapM_raise doc_program_id _ d Hd) as Hraise.
  unfold children_of in Hraise.
  destruct (mapM doc_program_id _) as [ids|err]; rsimpl; [|done].
  discriminate Hraise. unfold doc_program_id. by rewrite Hnone.
Qed.

(** X8: when the parent file loads, every child has a [program_id] and
    the formatter does not fail, [multiple_invoke] returns under [ids] the
    ids of the children as strings, listed partition by partition (general
    track, specialisation, specialised track) with repetitions kept, and
    under [content] one formatted text per parent record whose key is among
    those ids, in the order of the parent file: each parent appears at most
    once, however many children point to it. *)
Theorem multiple_invoke_listing {Parent} (f : Parent → string) self config g e s parents ids :
  filter_retriever_invoke (grande_ecole_retriever self) config = Ok g →
  filter_retriever_invoke (ecole_specialisee_retriever self) config = Ok e →
  filter_retriever_invoke (specialization_retriever self) config = Ok s →
  load_parent_json self = Ok parents →
  map metadata_program_id (children_of g s e) = map Some ids →
  multiple_invoke (fun p => Ok (f p)) self config
  = Ok {[ "content" := map (fun kv => f (snd kv))
                          (filter (fun kv => fst kv ∈ map str_of_id ids) parents);
          "ids" := map str_of_id ids ]}
  ∧ (length (map (fun kv => f (snd kv))
               (filter (fun kv => fst kv ∈ map str_of_id ids) parents))
     ≤ length parents)%nat.
Proof.
  intros Hg He Hs Hparents Hids. split.
  - unfold multiple_invoke, multiple_invoke_try.
    destruct config as [q sp]. cbn [rewritten_query search_params] in *.
    rewrite Hg, He, Hs, Hparents. rsimpl.
    assert (mapM doc_program_id (content_of g ++ content_of s ++ content_of e)
            = Ok (map str_of_id ids)) as ->.
    { fold (children_of g s e). revert ids Hids.
      induction (children_of g s e) as [|d l IH]; intros [|i ids] Hids; try done.
      injection Hids as Hd Hl.
      assert (doc_program_id d = Ok (str_of_id i)) as Hdoc.
      { unfold doc_program_id. by rewrite Hd. }
      cbn [mapM map]. rewrite Hdoc. rsimpl. by rewrite (IH ids Hl). }
    rsimpl. rewrite (mapM_ok _ (fun kv => f (snd kv))) by done. done.
  - rewrite length_map. apply length_filter.
Qed.

End MoreRetrieverFacts.

Section MoreRetrieverExamples.
Import SearchParams Retrievers Observations MoreExamples.

Lemma missing_program_id_loses_all_witness :
  multiple_invoke (fun p : string => Ok p)
    (small_retriever [doc_a] [] [doc_without_id]) Examples.test_config
  = Ok {[ "content" := [] ]}.
Proof.
  apply (missing_program_id_loses_all (fun p : string => Ok p)
           (small_retriever [doc_a] [] [doc_without_id]) Examples.test_config
           {[ "content" := [doc_a] ]} {[ "content" := [] ]}
           {[ "content" := [doc_without_id] ]} doc_without_id);
    try reflexivity.
  unfold children_of. vm_compute. apply list_elem_of_further, list_elem_of_here.
Defined.

Lemma multiple_invoke_listing_witness :
  multiple_invoke (fun p : string => Ok p)
    (small_retriever [doc_a] [doc_b] [doc_a]) Examples.test_config
  = Ok {[ "content" := ["parent 12"; "parent 7"]; "ids" := ["7"; "7"; "12"] ]}.
Proof.
  apply (proj1 (multiple_invoke_listing (fun p : string => p)
                  (small_retriever [doc_a] [doc_b] [doc_a]) Examples.test_config
                  {[ "content" := [doc_a] ]} {[ "content" := [doc_b] ]}
                  {[ "content" := [doc_a] ]}
                  [("12", "parent 12"); ("7", "parent 7"); ("30", "parent 30")]
                  [IdInt 7; IdInt 7; IdStr "12"]
                  eq_refl eq_refl eq_refl eq_refl eq_refl)).
Defined.

End MoreRetrieverExamples.

(** ** Agents *)

Section MoreAgentFacts.
Import SearchParams Retrievers Agents AgentObservations.
Context {Parent : Type}.
Implicit Types (env : Env Parent) (st : State).

(** X9: with its prompt available, the classification step never raises
    and never returns an empty update: it stores the category answered by
    the model, and [general] when the call raises or yields nothing. *)
Theorem classification_fail_open env st :
  prompt_loaded env "query-classifier-prompt-test" = true →
  query_classification_agent env st
  = Ok (Some (category_update
                (match classifier_ainvoke env (classification_prompt st) with
                 | Ok (Some c) => c
                 | _ => "general"
                 end))).
Proof.
  intros Hp. unfold query_classification_agent, format_messages. rewrite Hp. rsimpl.
  unfold classification_prompt.
  destruct (classifier_ainvoke env _) as [[c|]|e]; reflexivity.
Qed.

(** X10: a prompt that cannot be pulled makes the step raise: the [try]
    blocks of the agents start after the prompt is formatted, so the
    failure is not turned into a default. *)
Theorem missing_prompt_raises env st ids_of :
  (prompt_loaded env "rewritten-query-prompt" = false →
     rewrite_query_agent env st = Raise missing_prompt)
  ∧ (prompt_loaded env "query-classifier-prompt-test" = false →
     query_classification_agent env st = Raise missing_prompt)
  ∧ (prompt_loaded env "general-question-prompt" = false →
     general_question_agent env st = Raise missing_prompt)
  ∧ (prompt_loaded env "follow-up-questions-prompt-test" = false →
     follow_up_agent env st = Raise missing_prompt)
  ∧ (prompt_loaded env "rules-agent-prompt" = false →
     rules_agent env st = Raise missing_prompt)
  ∧ (prompt_loaded env "price_prompt_test" = false →
     filter_parameters_extraction_agent env st = Raise missing_prompt)
  ∧ (prompt_loaded env "system-prompt-test" = false → is_Some (content st) →
     sg_bot_agent env ids_of st = Raise missing_prompt).
Proof.
  unfold rewrite_query_agent, query_classification_agent, general_question_agent,
    follow_up_agent, rules_agent, filter_parameters_extraction_agent, sg_bot_agent,
    format_messages.
  split_and!; intros H; try (by rewrite H).
  intros [c Hc]. rewrite Hc. rsimpl. by rewrite H.
Qed.

(** X11: the retrieval step never raises and always returns a [content]
    update; the content is empty whenever the list of program types is
    empty or absent, the price/campus struct is absent, a configuration
    value is missing, or the cached retriever cannot be obtained. *)
Theorem retrieval_agent_total env st :
  (∃ c, child_parent_retriever_agent env st = Ok (Some (content_update c)))
  ∧ (default [] (program_type st) = [] ∨ default None (price_campus_info st) = None
     ∨ truthy_str (json_dir env) = false ∨ truthy_str (embeddings_name env) = false
     ∨ is_ok (cached_retriever env) = false →
     child_parent_retriever_agent env st = Ok (Some (content_update []))).
Proof.
  unfold child_parent_retriever_agent. split.
  - destruct (truthy_str (json_dir env)); [|by eauto].
    destruct (truthy_str (embeddings_name env)); [|by eauto]. cbn [negb].
    destruct (cached_retriever env) as [r|e]; rsimpl; [|by eauto].
    destruct (agent_search_params st) as [sp|e]; rsimpl; [|by eauto].
    destruct (multiple_invoke _ r _) as [d|e]; rsimpl; eauto.
  - intros H.
    destruct (truthy_str (json_dir env)) eqn:Hj; [|done].
    destruct (truthy_str (embeddings_name env)) eqn:He; [|done]. cbn [negb].
    destruct (cached_retriever env) as [r|e] eqn:Hr; rsimpl; [|done].
    destruct (agent_search_params st) as [sp|e] eqn:Hsp; rsimpl; [|done].
    exfalso. unfold agent_search_params in Hsp.
    pose proof (proj1 (proj1 (search_params_result _ _ _ _ _ _)) (f_equal is_ok Hsp))
      as [Hpt Hpci].
    destruct H as [H|[H|[H|[H|H]]]]; done.
Qed.

Lemma retrieval_content env st out :
  child_parent_retriever_agent env st = Ok out →
  is_Some (content (apply_node_output st out)).
Proof.
  destruct (proj1 (retrieval_agent_total env st)) as [c ->]. intros [= <-].
  cbn [apply_node_output update content content_update]. by destruct (content st).
Qed.

(** X12: the grounded generation composes with the retrieval: in the
    state that the retrieval step leaves, and with its prompt available, it
    never raises and always returns a response together with a list of
    ids to exclude; when the model call raises, these are the fixed apology
    and the empty list. *)
Theorem generation_after_retrieval env ids_of st out :
  child_parent_retriever_agent env st = Ok out →
  prompt_loaded env "system-prompt-test" = true →
  (∃ r ids, sg_bot_agent env ids_of (apply_node_output st out)
            = Ok (Some (generation_update r ids)))
  ∧ ((∀ p, is_ok (stream_llm_response env p) = false) →
     sg_bot_agent env ids_of (apply_node_output st out)
     = Ok (Some (generation_update apology []))).
Proof.
  intros Hout Hp. destruct (retrieval_content env st out Hout) as [c Hc].
  unfold sg_bot_agent, format_content, format_messages. rewrite Hc, Hp. rsimpl.
  split.
  - destruct (stream_llm_response env _) as [r|e]; rsimpl; eauto.
  - intros Hfail.
    match goal with |- context [stream_llm_response env ?p] => specialize (Hfail p) end.
    destruct (stream_llm_response env _) as [r|e]; [done|]. reflexivity.
Qed.

(** X13: the general, rules and follow-up steps have no fallback answer:
    when their model call raises they return no update, so the state keeps
    whatever [response] it had. *)
Theorem plain_generation_no_fallback env st :
  (prompt_loaded env "general-question-prompt" = true →
   is_ok (llm_4_1_mini_ainvoke env (general_prompt st)) = false →
   general_question_agent env st = Ok None)
  ∧ (prompt_loaded env "rules-agent-prompt" = true →
     is_ok (deep_seek_chat_ainvoke env (rules_prompt st)) = false →
     rules_agent env st = Ok None)
  ∧ (prompt_loaded env "follow-up-questions-prompt-test" = true →
     is_ok (deep_seek_chat_ainvoke env (follow_up_prompt st)) = false →
     follow_up_agent env st = Ok None)
  ∧ response (apply_node_output st None) = response st.
Proof.
  unfold general_question_agent, rules_agent, follow_up_agent, format_messages,
    general_prompt, rules_prompt, follow_up_prompt.
  split_and!; [| | |done]; intros -> H; rsimpl;
    match type of H with is_ok ?m = false => by destruct m end.
Qed.

End MoreAgentFacts.

Section MoreAgentExamples.
Import SearchParams Retrievers Agents AgentObservations Examples MoreExamples.

Lemma classification_fail_open_witness :
  query_classification_agent classifier_failure_env (initial_state "hello")
  = Ok (Some (category_update "general")).
Proof.
  apply (classification_fail_open classifier_failure_env (initial_state "hello")).
  reflexivity.
Defined.

Lemma missing_prompt_raises_witness :
  rewrite_query_agent no_prompt_env (initial_state "hello") = Raise missing_prompt
  ∧ sg_bot_agent no_prompt_env (fun _ => [])
      (apply_node_output (initial_state "hello") (Some (content_update [])))
    = Raise missing_prompt.
Proof.
  pose proof (missing_prompt_raises no_prompt_env (initial_state "hello") (fun _ => []))
    as (H1 & _).
  pose proof (missing_prompt_raises no_prompt_env
                (apply_node_output (initial_state "hello") (Some (content_update [])))
                (fun _ => []))
    as (_ & _ & _ & _ & _ & _ & H7).
  split; [apply H1; reflexivity|apply H7; [reflexivity|by eexists]].
Defined.

Lemma retrieval_agent_total_witness :
  child_parent_retriever_agent healthy_env (initial_state "hello")
  = Ok (Some (content_update [])).
Proof.
  apply (proj2 (retrieval_agent_total healthy_env (initial_state "hello"))).
  left. reflexivity.
Defined.

Lemma generation_after_retrieval_witness :
  sg_bot_agent generation_failure_env (fun _ => [])
    (apply_node_output no_struct_state (Some (content_update [])))
  = Ok (Some (generation_update apology [])).
Proof.
  apply (proj2 (generation_after_retrieval generation_failure_env (fun _ => [])
                  no_struct_state (Some (content_update [])) eq_refl eq_refl)).
  reflexivity.
Defined.

Lemma plain_generation_no_fallback_witness :
  general_question_agent generation_failure_env (initial_state "hello") = Ok None
  ∧ rules_agent generation_failure_env (initial_state "hello") = Ok None
  ∧ follow_up_agent generation_failure_env (initial_state "hello") = Ok None.
Proof.
  pose proof (plain_generation_no_fallback generation_failure_env (initial_state "hello"))
    as (H1 & H2 & H3 & _).
  split_and!; [apply H1|apply H2|apply H3]; reflexivity.
Defined.

End MoreAgentExamples.

(** ** Runs of the graph *)

Section MoreGraphFacts.
Import SearchParams Retrievers Agents AgentObservations Graph.
Context {Parent : Type}.
Implicit Types (env : Env Parent) (st : State).

Lemma run_from_step env fuel node st visited action out next :
  node ≠ END_ →
  node_action env node = Some action →
  action st = Ok out →
  next_node node (apply_node_output st out) = Ok next →
  run_from env (S fuel) node st visited
  = run_from env fuel next (apply_node_output st out) (visited ++ [node]).
Proof.
  intros Hne Ha Hout Hnext. cbn [run_from]. rewrite decide_False by done.
  rewrite Ha, Hout. rsimpl. by rewrite Hnext.
Qed.

Lemma run_from_raise env fuel node st visited action :
  node ≠ END_ →
  node_action env node = Some action →
  is_ok (action st) = false →
  is_ok (run_from env (S fuel) node st visited) = false.
Proof.
  intros Hne Ha Hout. cbn [run_from]. rewrite decide_False by done.
  rewrite Ha. by destruct (action st).
Qed.

Lemma run_from_end env fuel st visited :
  run_from env (S fuel) END_ st visited = Ok (visited, st).
Proof. reflexivity. Qed.

(** The steps after the classification leave the category untouched. *)
Lemma category_kept_response st r :
  question_category (update st (response_update r)) = question_category st.
Proof. cbn. by destruct (question_category st). Qed.

Lemma plain_agent_category env st out :
  general_question_agent env st = Ok out ∨ rules_agent env st = Ok out
  ∨ follow_up_agent env st = Ok out →
  question_category (apply_node_output st out) = question_category st.
Proof.
  unfold general_question_agent, rules_agent, follow_up_agent, format_messages.
  intros [H|[H|H]];
    (destruct (prompt_loaded env _); rsimpl; [|discriminate H]);
    match type of H with
    | context [try_except (mbind _ ?m)] => destruct m; rsimpl
    end;
    injection H as <-; first [apply category_kept_response | reflexivity].
Qed.

Lemma extraction_category env st u :
  filter_parameters_extraction_agent env st = Ok u →
  question_category (update st u) = question_category st.
Proof.
  unfold filter_parameters_extraction_agent, format_messages.
  repeat match goal with
         | |- context [prompt_loaded env ?n] =>
             destruct (prompt_loaded env n); rsimpl; [|discriminate]
         end.
  destruct (gather _ _ _ _ _ _) as [[[[a b] c] d]|e]; rsimpl; [|discriminate].
  destruct (gathered_attr a _); rsimpl; [|discriminate].
  destruct (gathered_attr c _); rsimpl; [|discriminate].
  destruct (gathered_attr d _); rsimpl; [|discriminate].
  intros [= <-]. cbn. by destruct (question_category st).
Qed.

Lemma retrieval_category env st out :
  child_parent_retriever_agent env st = Ok out →
  question_category (apply_node_output st out) = question_category st.
Proof.
  destruct (proj1 (retrieval_agent_total env st)) as [c ->]. intros [= <-].
  cbn. by destruct (question_category st).
Qed.

Lemma generation_category env ids_of st out :
  sg_bot_agent env ids_of st = Ok out →
  question_category (apply_node_output st out) = question_category st.
Proof.
  unfold sg_bot_agent, format_messages.
  destruct (format_content (content st)); rsimpl; [|discriminate].
  destruct (prompt_loaded env _); rsimpl; [|discriminate].
  destruct (stream_llm_response env _); rsimpl; intros [= <-]; cbn;
    by destruct (question_category st).
Qed.

Lemma classification_output env st out :
  query_classification_agent env st = Ok out →
  ∃ c, out = Some (category_update c)
       ∧ question_category (apply_node_output st out) = Some c.
Proof.
  unfold query_classification_agent, format_messages.
  destruct (prompt_loaded env _); rsimpl; [|discriminate].
  destruct (classifier_ainvoke env _) as [[c|]|e]; rsimpl; intros [= <-];
    (eexists; split; [reflexivity|]; cbn; by destruct (question_category st)).
Qed.

Lemma run_from_inv env fuel node st visited action next r :
  node ≠ END_ →
  node_action env node = Some action →
  (∀ st1, next_node node st1 = Ok next) →
  run_from env (S fuel) node st visited = Ok r →
  ∃ out, action st = Ok out
         ∧ run_from env fuel next (apply_node_output st out) (visited ++ [node]) = Ok r.
Proof.
  intros Hne Ha Hnext H. cbn [run_from] in H. rewrite decide_False in H by done.
  rewrite Ha in H. destruct (action st) as [out|e]; rsimpl; [|discriminate H].
  rewrite Hnext in H. rsimpl. eauto.
Qed.

Lemma run_from_classification env fuel st visited r :
  run_from env (S fuel) "query_classification_agent" st visited = Ok r →
  ∃ c next, question_category
              (apply_node_output st (Some (category_update c))) = Some c
            ∧ path_map !! c = Some next
            ∧ run_from env fuel next (apply_node_output st (Some (category_update c)))
                (visited ++ ["query_classification_agent"]) = Ok r.
Proof.
  intros H. cbn [run_from] in H. rewrite decide_False in H by done.
  change (node_action env "query_classification_agent")
    with (Some (query_classification_agent env)) in H.
  cbn beta iota in H.
  destruct (query_classification_agent env st) as [out|e] eqn:Hout; rsimpl;
    [|discriminate H].
  destruct (classification_output env st out Hout) as (c & -> & Hc).
  unfold next_node in H. rewrite decide_True in H by done.
  unfold route_after_classification, route in H. rewrite Hc in H.
  change (default "general" (Some c)) with c in H.
  destruct (path_map !! c) as [next|] eqn:Hnext; rsimpl; [|discriminate H].
  eauto.
Qed.

Lemma path_map_inv c next :
  path_map !! c = Some next →
  (c = "program_selection" ∧ next = "filter_parameters_extraction")
  ∨ (c = "rules" ∧ next = "rules")
  ∨ (c = "follow_up" ∧ next = "follow_up")
  ∨ (c = "general" ∧ next = "general_question").
Proof.
  unfold path_map. intros H.
  destruct (decide (c = "program_selection")) as [->|H1];
    [left; split; [done|]; by injection H|].
  destruct (decide (c = "rules")) as [->|H2];
    [right; left; split; [done|]; by injection H|].
  destruct (decide (c = "follow_up")) as [->|H3];
    [right; right; left; split; [done|]; by injection H|].
  destruct (decide (c = "general")) as [->|H4];
    [right; right; right; split; [done|]; by injection H|].
  by rewrite !lookup_insert_ne, lookup_singleton_ne in H.
Qed.

(** X14: every run of the graph that completes has executed the rewrite
    and classification steps and then exactly one branch, the one of the
    category stored by the classification, which is still the category of
    the final state: the three steps of the grounded path for
    [program_selection], the single rules, follow-up or general step
    otherwise. *)
Theorem completed_run_follows_one_branch env st visited st' :
  run_graph env st = Ok (visited, st') →
  (question_category st' = Some "program_selection" ∧ visited = grounded_path)
  ∨ (question_category st' = Some "rules" ∧ visited = direct_path "rules")
  ∨ (question_category st' = Some "follow_up" ∧ visited = direct_path "follow_up")
  ∨ (question_category st' = Some "general" ∧ visited = direct_path "general_question").
Proof.
  unfold run_graph. change (edges !! START) with (Some "rewrite_query_agent").
  unfold recursion_limit. intros H.
  apply (run_from_inv env _ _ _ _ (rewrite_query_agent env) "query_classification_agent")
    in H as (out1 & _ & H); [|done|reflexivity|intros; reflexivity].
  apply run_from_classification in H as (c & next & Hc & Hnext & H).
  set (st2 := apply_node_output _ (Some (category_update c))) in *.
  apply path_map_inv in Hnext as [[-> ->]|[[-> ->]|[[-> ->]|[-> ->]]]].
  - left.
    apply (run_from_inv env _ _ _ _
             (fun st => u ← filter_parameters_extraction_agent env st; Ok (Some u))
             "child_parent_retriever")
      in H as (out3 & H3 & H); [|done|reflexivity|intros; reflexivity].
    destruct (filter_parameters_extraction_agent env st2) as [u|] eqn:Hu;
      [|discriminate H3]. rsimpl. injection H3 as <-.
    apply (run_from_inv env _ _ _ _ (child_parent_retriever_agent env) "sg_bot")
      in H as (out4 & H4 & H); [|done|reflexivity|intros; reflexivity].
    apply (run_from_inv env _ _ _ _ (sg_bot_agent env program_ids_of) END_)
      in H as (out5 & H5 & H); [|done|reflexivity|intros; reflexivity].
    rewrite run_from_end in H. injection H as <- <-. split; [|reflexivity].
    change (update st2 u) with (apply_node_output st2 (Some u)).
    rewrite (generation_category _ _ _ _ H5), (retrieval_category _ _ _ H4).
    cbn [apply_node_output]. by rewrite (extraction_category _ _ _ Hu).
  - right; left.
    apply (run_from_inv env _ _ _ _ (rules_agent env) END_)
      in H as (out3 & H3 & H); [|done|reflexivity|intros; reflexivity].
    rewrite run_from_end in H. injection H as <- <-. split; [|reflexivity].
    rewrite (plain_agent_category env st2 out3) by auto. done.
  - right; right; left.
    apply (run_from_inv env _ _ _ _ (follow_up_agent env) END_)
      in H as (out3 & H3 & H); [|done|reflexivity|intros; reflexivity].
    rewrite run_from_end in H. injection H as <- <-. split; [|reflexivity].
    rewrite (plain_agent_category env st2 out3) by auto. done.
  - right; right; right.
    apply (run_from_inv env _ _ _ _ (general_question_agent env) END_)
      in H as (out3 & H3 & H); [|done|reflexivity|intros; reflexivity].
    rewrite run_from_end in H. injection H as <- <-. split; [|reflexivity].
    rewrite (plain_agent_category env st2 out3) by auto. done.
Qed.

(** X15: when every prompt is available and the classifier call raises,
    the run completes through the general branch, whatever the other
    models do: the category stored is [general]. *)
Theorem classifier_failure_routes_to_general env st :
  (∀ n, prompt_loaded env n = true) →
  (∀ p, is_ok (classifier_ainvoke env p) = false) →
  ∃ st', run_graph env st = Ok (direct_path "general_question", st')
         ∧ question_category st' = Some "general".
Proof.
  intros Hp Hfail. unfold run_graph. change (edges !! START) with (Some "rewrite_query_agent").
  unfold recursion_limit.
  assert (∃ out1, rewrite_query_agent env st = Ok out1) as [out1 H1].
  { unfold rewrite_query_agent, format_messages. rewrite Hp. rsimpl.
    destruct (llm_grok_ainvoke env _); rsimpl; eauto. }
  rewrite (run_from_step env _ _ _ _ (rewrite_query_agent env) out1
             "query_classification_agent") by done.
  set (st1 := apply_node_output st out1).
  assert (query_classification_agent env st1 = Ok (Some (category_update "general"))) as H2.
  { rewrite classification_fail_open by apply Hp.
    specialize (Hfail (classification_prompt st1)).
    by destruct (classifier_ainvoke env _). }
  rewrite (run_from_step env _ _ _ _ (query_classification_agent env)
             (Some (category_update "general")) "general_question"); [|done|done|done|].
  2:{ unfold next_node, route_after_classification, route.
      rewrite decide_True by done. cbn [apply_node_output update question_category
        category_update]. by destruct (question_category st1). }
  set (st2 := apply_node_output st1 _).
  assert (∃ out3, general_question_agent env st2 = Ok out3) as [out3 H3].
  { unfold general_question_agent, format_messages. rewrite Hp. rsimpl.
    destruct (llm_4_1_mini_ainvoke env _); rsimpl; eauto. }
  rewrite (run_from_step env _ _ _ _ (general_question_agent env) out3 END_) by done.
  rewrite run_from_end. eexists. split; [reflexivity|].
  rewrite (plain_agent_category env st2 out3) by auto.
  unfold st2. cbn. by destruct (question_category st1).
Qed.

End MoreGraphFacts.

Section MoreGraphExamples.
Import SearchParams Retrievers Agents AgentObservations Graph Examples MoreExamples.

Lemma completed_run_follows_one_branch_witness :
  (question_category (snd healthy_final) = Some "program_selection"
   ∧ fst healthy_final = grounded_path)
  ∨ (question_category (snd healthy_final) = Some "rules"
     ∧ fst healthy_final = direct_path "rules")
  ∨ (question_category (snd healthy_final) = Some "follow_up"
     ∧ fst healthy_final = direct_path "follow_up")
  ∨ (question_category (snd healthy_final) = Some "general"
     ∧ fst healthy_final = direct_path "general_question").
Proof.
  apply (completed_run_follows_one_branch healthy_env (initial_state "mba")
           (fst healthy_final) (snd healthy_final)).
  reflexivity.
Defined.

Lemma classifier_failure_routes_to_general_witness :
  ∃ st', run_graph classifier_failure_env (initial_state "hello")
         = Ok (direct_path "general_question", st')
         ∧ question_category st' = Some "general".
Proof.
  apply (classifier_failure_routes_to_general classifier_failure_env
           (initial_state "hello")); intros; reflexivity.
Defined.

End MoreGraphExamples.

(** ** Streaming loop *)

Section MoreStreamFacts.
Import Text SearchParams Agents Stream Observations.
Variable json_dumps : gmap string jvalue → string.

Lemma content_step_attrs st c :
  new_excluded_ids (fst (content_step json_dumps st c)) = new_excluded_ids st
  ∧ rewritten_query (fst (content_step json_dumps st c)) = rewritten_query st
  ∧ content_yielded (fst (content_step json_dumps st c)) = true.
Proof.
  unfold content_step, preamble_step, section_step.
  cbn [response_type inside_program_section new_excluded_ids rewritten_query
       content_yielded line_buffer in_school_logo_line preamble_buffer].
  repeat (case_match; simplify_eq; cbn [fst snd new_excluded_ids rewritten_query
                                        content_yielded inside_program_section
                                        line_buffer in_school_logo_line response_type
                                        preamble_buffer] in *);
    by repeat split.
Qed.

(** One iteration adds the ids and the rewritten query of the event, and
    records whether content was streamed. *)
Lemma step_attrs st ev st' out :
  step json_dumps st ev = Ok (st', out) →
  new_excluded_ids st' = new_excluded_ids st ++ event_ids ev
  ∧ rewritten_query st' = event_rewritten ev ∪ rewritten_query st
  ∧ content_yielded st' = content_yielded st || streams_content ev.
Proof.
  intros H. destruct ev as [node content|node output|]; cbn [step] in H.
  - cbn [event_ids event_rewritten streams_content]. rewrite app_nil_r.
    destruct (is_streaming_node node); cbn [andb].
    + destruct (response_type st) eqn:Hrt; cbn beta iota in H;
        destruct (truthy_str content).
      * match type of H with
        | context [content_step json_dumps ?s ?c] =>
            pose proof (content_step_attrs s c) as (Ha & Hb & Hc);
            destruct (content_step json_dumps s c) as [st2 out2]
        end.
        injection H as <- <-; cbn [fst] in *;
          rewrite Ha, Hb, Hc, orb_true_r; by destruct (rewritten_query st).
      * injection H as <- <-; rewrite orb_false_r; by destruct (rewritten_query st).
      * match type of H with
        | context [content_step json_dumps ?s ?c] =>
            pose proof (content_step_attrs s c) as (Ha & Hb & Hc);
            destruct (content_step json_dumps s c) as [st2 out2]
        end.
        injection H as <- <-; cbn [fst new_excluded_ids rewritten_query] in *;
          rewrite Ha, Hb, Hc, orb_true_r; by destruct (rewritten_query st).
      * injection H as <- <-; cbn; rewrite orb_false_r; by destruct (rewritten_query st).
    + injection H as <- <-. rewrite orb_false_r. by destruct (rewritten_query st).
  - destruct output as [node_data|]; cbn [event_ids event_rewritten streams_content];
      rewrite orb_false_r; destruct (truthy_str node);
      try (injection H as <- <-; rewrite app_nil_r; by destruct (rewritten_query st)).
    destruct (excluded_ids node_data) as [[l|]|]; rsimpl; try discriminate H;
      injection H as <- <-; cbn [new_excluded_ids rewritten_query content_yielded];
      rewrite ?app_nil_r;
      (split_and!; [done| |done]);
      by destruct (st_rewritten_query node_data), (rewritten_query st).
  - injection H as <- <-. cbn. rewrite app_nil_r, orb_false_r.
    by destruct (rewritten_query st).
Qed.

(** X16: the list of ids to exclude only grows during a turn: whatever
    happens, the ids the turn started with stay in front; when the loop
    ends without exception the list is the initial one followed by the ids
    of every node output, in order and with repetitions. *)
Theorem excluded_ids_accumulate events st st' out err :
  consume json_dumps st events = (st', out, err) →
  (∃ added, new_excluded_ids st' = new_excluded_ids st ++ added)
  ∧ (err = None →
     new_excluded_ids st' = new_excluded_ids st ++ concat (map event_ids events)
     ∧ content_yielded st' = content_yielded st || existsb streams_content events).
Proof.
  revert st st' out err. induction events as [|ev events IH]; intros st st' out err H.
  - cbn in H. injection H as <- <- <-. split; [exists []; by rewrite app_nil_r|].
    intros _. cbn. by rewrite app_nil_r, orb_false_r.
  - cbn [consume] in H. destruct (step json_dumps st ev) as [[st1 out1]|e] eqn:Hstep.
    + destruct (consume json_dumps st1 events) as [[st2 out2] err2] eqn:Hrest.
      injection H as <- <- <-.
      destruct (step_attrs st ev st1 out1 Hstep) as (Hids & _ & Hcy).
      destruct (IH _ _ _ _ Hrest) as [[added Hadded] Hfull]. split.
      * exists (event_ids ev ++ added). by rewrite Hadded, Hids, app_assoc.
      * intros ->. destruct (Hfull eq_refl) as [H1 H2].
        cbn [map concat existsb]. by rewrite H1, H2, Hids, Hcy, app_assoc, orb_assoc.
    + injection H as <- <- <-. split; [exists []; by rewrite app_nil_r|done].
Qed.

Lemma truthy_str_nonempty (c : string) : truthy_str (Some c) = bool_decide (c ≠ "").
Proof. by destruct c. Qed.

(** *** Keys of the dictionaries yielded inside the loop *)

Lemma annotation_no_key k label meta buffer :
  (∀ url, meta url !! k = None) →
  Forall (fun c => has_key k c = false) (annotation json_dumps label meta buffer).
Proof.
  intros H. unfold annotation. case_match; repeat constructor.
  unfold has_key. rewrite H. by apply bool_decide_eq_false_2, is_Some_None.
Qed.

Lemma content_step_no_key k st c :
  ¬ loop_key k →
  Forall (fun c => has_key k c = false) (snd (content_step json_dumps st c)).
Proof.
  intros Hk.
  assert (∀ url, logo_metadata url !! k = None) as Hlogo.
  { intros url. unfold logo_metadata.
    rewrite lookup_insert_ne, lookup_singleton_ne; [done|..];
      intros <-; apply Hk; unfold loop_key; auto. }
  assert (∀ url, program_metadata url !! k = None) as Hprog.
  { intros url. unfold program_metadata.
    rewrite lookup_insert_ne, lookup_singleton_ne; [done|..];
      intros <-; apply Hk; unfold loop_key; auto. }
  assert (∀ s b, Forall (fun c => has_key k c = false)
                   (snd (section_step json_dumps s b))) as Hsection.
  { intros s b. unfold section_step.
    repeat case_match; cbn [snd];
      first [ by apply annotation_no_key | by repeat constructor ]. }
  assert (∀ s b, Forall (fun c => has_key k c = false) (snd (preamble_step s b)))
    as Hpreamble.
  { intros s b. unfold preamble_step. case_match; by repeat constructor. }
  unfold content_step. cbn [response_type inside_program_section].
  case_match; [|simpl; by repeat constructor].
  set (st1 := mkLoop _ _ _ _ _ _ _ _).
  destruct (inside_program_section st) eqn:Hin.
  - specialize (Hsection st1 c).
    destruct (section_step json_dumps st1 c) as [st3 out3]. by simpl in *.
  - specialize (Hpreamble st1 c).
    destruct (preamble_step st1 c) as [st2 out2]. cbn [fst snd] in *.
    destruct (inside_program_section st2).
    + specialize (Hsection st2 c).
      destruct (section_step json_dumps st2 c) as [st3 out3]. cbn [fst snd] in *.
      by apply Forall_app_2.
    + cbn [snd]. apply Forall_app_2; [done|constructor].
Qed.

Lemma step_no_key k st ev st' out :
  ¬ loop_key k →
  step json_dumps st ev = Ok (st', out) →
  Forall (fun c => has_key k c = false) out.
Proof.
  intros Hk H. destruct ev as [node content|node output|]; cbn [step] in H.
  - destruct (is_streaming_node node); [|injection H as <- <-; constructor].
    assert (∀ rt, has_key k (DictChunk (early_metadata rt)) = false) as Hearly.
    { intros rt. unfold has_key, early_metadata.
      rewrite lookup_insert_ne, lookup_singleton_ne;
        [by apply bool_decide_eq_false_2, is_Some_None|..];
        intros <-; apply Hk; unfold loop_key; auto. }
    destruct (response_type st); cbn beta iota in H; destruct (truthy_str content).
    + pose proof (content_step_no_key k st (default "" content) Hk) as Hc.
      destruct (content_step json_dumps st (default "" content)) as [st2 out2].
      by injection H as <- <-.
    + injection H as <- <-. constructor.
    + match type of H with
      | context [content_step json_dumps ?s ?c] =>
          pose proof (content_step_no_key k s c Hk) as Hc;
          destruct (content_step json_dumps s c) as [st2 out2]
      end.
      injection H as <- <-. apply Forall_cons. split; [apply Hearly|done].
    + injection H as <- <-. apply Forall_cons. split; [apply Hearly|constructor].
  - destruct (truthy_str node); [|injection H as <- <-; constructor].
    destruct output as [node_data|]; [|injection H as <- <-; constructor].
    destruct (excluded_ids node_data) as [[l|]|]; rsimpl; try discriminate H;
      injection H as <- <-; constructor.
  - injection H as <- <-. constructor.
Qed.

Lemma consume_no_key k events st st' out err :
  ¬ loop_key k →
  consume json_dumps st events = (st', out, err) →
  Forall (fun c => has_key k c = false) out.
Proof.
  intros Hk. revert st st' out err.
  induction events as [|ev events IH]; intros st st' out err H.
  - cbn in H. injection H as <- <- <-. constructor.
  - cbn [consume] in H. destruct (step json_dumps st ev) as [[st1 out1]|e] eqn:Hstep.
    + destruct (consume json_dumps st1 events) as [[st2 out2] err2] eqn:Hrest.
      injection H as <- <- <-. apply Forall_app_2.
      * by apply (step_no_key k st ev st1).
      * by apply (IH st1 st2 _ err2).
    + injection H as <- <- <-. constructor.
Qed.

Lemma consume_rewritten events st st' out :
  consume json_dumps st events = (st', out, None) →
  rewritten_query st' = last_rewritten (rewritten_query st) events.
Proof.
  revert st st' out. induction events as [|ev events IH]; intros st st' out H.
  - cbn in H. by injection H as <- <-.
  - cbn [consume] in H. destruct (step json_dumps st ev) as [[st1 out1]|e] eqn:Hstep;
      [|discriminate H].
    destruct (consume json_dumps st1 events) as [[st2 out2] err2] eqn:Hrest.
    injection H as <- <- ->.
    destruct (step_attrs st ev st1 out1 Hstep) as (_ & Hrq & _).
    rewrite (IH _ _ _ Hrest), Hrq. reflexivity.
Qed.

(** X18: the final metadata and the completion marker close the stream
    exactly when the turn ends without exception after at least one
    non-empty chunk of a streaming node; they hold the run identifier and
    the last rewritten query stored by a node output.  No chunk before them,
    and no chunk at all of a turn that raises or streams nothing, carries
    the completion key or a run identifier. *)
Theorem closing_chunks run_id excluded conversion events failure :
  let out := fst (stream_workflow json_dumps run_id excluded conversion events failure) in
  let err := snd (stream_workflow json_dumps run_id excluded conversion events failure) in
  (err = None →
   ∃ front,
     out = front ++ (if existsb streams_content events
                     then closing run_id (last_rewritten None events) else [])
     ∧ Forall (fun c => has_key "__stream_complete__" c = false
                        ∧ has_key "run_id" c = false) front)
  ∧ (err ≠ None →
     Forall (fun c => has_key "__stream_complete__" c = false
                      ∧ has_key "run_id" c = false) out).
Proof.
  assert (¬ loop_key "__stream_complete__") as Hk1 by (by intros [|[|[|]]]).
  assert (¬ loop_key "run_id") as Hk2 by (by intros [|[|[|]]]).
  unfold stream_workflow. destruct conversion as [h|e]; [|by split].
  destruct (consume json_dumps (initial_loop excluded) events) as [[st out] err] eqn:Hcons.
  pose proof (consume_no_key _ _ _ _ _ _ Hk1 Hcons) as H1.
  pose proof (consume_no_key _ _ _ _ _ _ Hk2 Hcons) as H2.
  assert (Forall (fun c => has_key "__stream_complete__" c = false
                           ∧ has_key "run_id" c = false) out) as Hout.
  { apply Forall_and. by split. }
  destruct err as [e|]; [by split|]. destruct failure as [e|]; [by split|].
  cbn [fst snd]. split; [intros _|done].
  destruct (proj2 (excluded_ids_accumulate _ _ _ _ _ Hcons) eq_refl) as [_ Hcy].
  cbn [initial_loop content_yielded orb] in Hcy.
  pose proof (consume_rewritten _ _ _ _ Hcons) as Hrq. cbn [initial_loop rewritten_query] in Hrq.
  unfold finish. rewrite Hcy, Hrq.
  eexists. rewrite app_assoc. split; [reflexivity|].
  apply Forall_app_2; [done|]. case_match; by repeat constructor.
Qed.


End MoreStreamFacts.

Section MoreStreamExamples.
Import Text SearchParams Agents Stream Observations Examples MoreExamples.

Lemma excluded_ids_accumulate_witness :
  new_excluded_ids (fst (fst grounded_loop))
  = new_excluded_ids (initial_loop (Some [IdInt 5]))
      ++ concat (map event_ids grounded_events)
  ∧ content_yielded (fst (fst grounded_loop))
    = content_yielded (initial_loop (Some [IdInt 5]))
      || existsb streams_content grounded_events.
Proof.
  apply (proj2 (excluded_ids_accumulate render grounded_events
                  (initial_loop (Some [IdInt 5]))
                  (fst (fst grounded_loop)) (snd (fst grounded_loop)) None eq_refl)).
  reflexivity.
Defined.

(** The ids of the witness: the id 5, excluded before the turn, is listed
    again by the generation. *)
Example grounded_loop_ids :
  new_excluded_ids (fst (fst grounded_loop)) = [IdInt 5; IdInt 5; IdInt 7].
Proof. reflexivity. Qed.

Lemma closing_chunks_witness :
  ∃ front,
    fst (stream_workflow render (Some "r1") (Some [IdInt 5]) (Ok NoMessages)
           grounded_events None)
    = front ++ (if existsb streams_content grounded_events
                then closing (Some "r1") (last_rewritten None grounded_events) else [])
    ∧ Forall (fun c => has_key "__stream_complete__" c = false
                       ∧ has_key "run_id" c = false) front.
Proof.
  apply (proj1 (closing_chunks render (Some "r1") (Some [IdInt 5]) (Ok NoMessages)
                  grounded_events None)).
  reflexivity.
Defined.


(** In the witness the logo line reaches the end of the stream without a
    newline: nothing is yielded for it. *)
Example trailing_logo_line_dropped :
  trailing_flush ("" +:+ foldr String.append "" ["School logo: "; "http://x"]) = [].
Proof. reflexivity. Qed.

End MoreStreamExamples.

(** ** Chat service *)

Section MoreChatFacts.
Import Text SearchParams Agents Stream ChatService Observations.

(** X20: [stream_chat] forwards the text of the workflow unchanged and in
    order, and never forwards the internal completion dictionary: no frame
    of its output carries the key [__stream_complete__]. *)
Theorem stream_chat_forwards {M E : Type} (conversation : result (M * E))
    (bot_stream : E → M → list chunk * option exn) :
  (∀ msgs ex, conversation = Ok (msgs, ex) →
     omap frame_text (stream_chat conversation bot_stream)
     = omap chunk_text (fst (bot_stream ex msgs)))
  ∧ Forall (fun f => is_control_frame f = false) (stream_chat conversation bot_stream).
Proof.
  assert (∀ e, is_control_frame (DataDict (error_data e)) = false) as Herr.
  { intros e. unfold is_control_frame, error_data.
    rewrite lookup_insert_ne, lookup_singleton_ne by done.
    by apply bool_decide_eq_false_2, is_Some_None. }
  assert (∀ chunks : list chunk,
            omap frame_text (omap frame_of_chunk chunks) = omap chunk_text chunks
            ∧ Forall (fun f => is_control_frame f = false) (omap frame_of_chunk chunks))
    as Hchunks.
  { induction chunks as [|c chunks [IH1 IH2]]; [by split|].
    destruct c as [s|d]; cbn [omap list_omap frame_of_chunk frame_text chunk_text];
      fold (@omap list _ _ _ frame_of_chunk chunks);
      fold (@omap list _ _ _ chunk_text chunks).
    - fold (@omap list _ _ _ frame_text (omap frame_of_chunk chunks)).
      rewrite IH1. split; [done|]. by apply Forall_cons.
    - case_decide as Hd; [done|].
      cbn [omap list_omap frame_text].
      fold (@omap list _ _ _ frame_text (omap frame_of_chunk chunks)).
      split; [done|]. apply Forall_cons. split; [|done].
      by apply bool_decide_eq_false_2. }
  split.
  - intros msgs ex ->. unfold stream_chat.
    destruct (bot_stream ex msgs) as [chunks [e|]]; cbn [fst];
      rewrite omap_app, (proj1 (Hchunks chunks)); cbn; by rewrite app_nil_r.
  - unfold stream_chat. destruct conversation as [[msgs ex]|e].
    + destruct (bot_stream ex msgs) as [chunks [e|]];
        (apply Forall_app_2; [apply Hchunks|]); repeat constructor; try apply Herr.
    + repeat constructor; try apply Herr.
Qed.

End MoreChatFacts.

Lemma stream_chat_forwards_witness :
  omap Observations.frame_text
    (ChatService.stream_chat (Ok (Agents.NoMessages, None)) Examples.interrupted_stream)
  = omap Observations.chunk_text (fst (Examples.interrupted_stream None Agents.NoMessages)).
Proof.
  apply (proj1 (stream_chat_forwards (Ok (Agents.NoMessages, None))
                  Examples.interrupted_stream) Agents.NoMessages None).
  reflexivity.
Defined.

(** * Further properties: parameters, caches, history and saving *)

(** ** The two parameter builders *)

Section MoreParameterFacts.
Import SearchParams FilterParams.

Lemma in_condition_not_leading field l p el :
  Cond field (In_ l) ∉ leading_conditions p el.
Proof.
  unfold leading_conditions, price_conditions. rewrite !elem_of_app.
  assert (∀ (b : bool) names, ¬ Cond field (In_ l) ∈ (if b then [one_of names] else []))
    as Hone.
  { intros [] names H; [|by apply elem_of_nil in H].
    apply list_elem_of_singleton in H. by apply elem_of_one_of_cond in H. }
  intros [[[[H|H]|H]|H]|H].
  - repeat case_match; try (by apply elem_of_nil in H);
      apply list_elem_of_singleton in H; discriminate.
  - case_match; [apply list_elem_of_singleton in H; discriminate|by apply elem_of_nil in H].
  - by apply Hone in H.
  - by apply Hone in H.
  - case_match; [apply list_elem_of_singleton in H; discriminate|by apply elem_of_nil in H].
Qed.

(** X21: [filter_retriever_search_params] always returns, with the given
    [k] and one [$in] condition on the field [program_type] whose list is
    never empty: the given program types, or the default catalogue when
    none is given; the search type [mmr] is set exactly when program types
    are given.  When [child_parent_retriever_search_params] returns for the
    same non-empty program types, its filter carries the same list on the
    other field [new_program_type], does not contain the condition of the
    plain builder, and asks for [k + 1] documents. *)
Theorem filter_parameters_compared pts k :
  ∃ l, filter_retriever_search_params pts k
       = mkParams (if decide (pts = []) then None else Some "mmr")
                  (Some (mkKwargs (Some k) (Some (Cond "program_type" (In_ l)))))
     ∧ l ≠ []
     ∧ (pts = [] → l = default_program_types)
     ∧ (pts ≠ [] → l = pts)
     ∧ ∀ ids pci el e sp,
         pts ≠ [] →
         child_parent_retriever_search_params pts k ids pci el e = Ok sp →
         ∃ f, sp = mkParams None (Some (mkKwargs (Some (k + 1)) (Some f)))
              ∧ program_type_condition f = Some l
              ∧ Cond "program_type" (In_ l) ∉ top_conditions f.
Proof.
  destruct pts as [|t pts].
  - exists default_program_types. repeat split; try done.
  - exists (t :: pts). repeat split; try done.
    intros ids pci el e sp _ H.
    unfold child_parent_retriever_search_params in H. cbn [truthy_list] in H.
    rewrite create_filter_conditions_all in H.
    destruct pci as [p|]; [|by rewrite body_none in H].
    rewrite body_some in H. cbn in H. injection H as <-.
    eexists. split; [reflexivity|]. split; [apply program_type_condition_body|].
    rewrite top_conditions_body, !elem_of_app.
    intros [[H|H]|H].
    + by apply in_condition_not_leading in H.
    + apply list_elem_of_singleton in H. discriminate.
    + unfold exclusion_conditions in H.
      case_match; [apply list_elem_of_singleton in H; discriminate|by apply elem_of_nil in H].
Qed.

Lemma filter_parameters_compared_witness :
  ∃ l f, filter_retriever_search_params ["MBA"] 5
         = mkParams (Some "mmr")
                    (Some (mkKwargs (Some 5) (Some (Cond "program_type" (In_ l)))))
       ∧ child_parent_retriever_search_params
           ["MBA"] 5 None (Some Examples.no_price_campus) None false
         = Ok (mkParams None (Some (mkKwargs (Some 6) (Some f))))
       ∧ program_type_condition f = Some l
       ∧ Cond "program_type" (In_ l) ∉ top_conditions f.
Proof.
  destruct (filter_parameters_compared ["MBA"] 5) as (l & H1 & _ & _ & _ & Hcp).
  destruct (Hcp None (Some Examples.no_price_campus) None false _
                ltac:(discriminate) eq_refl) as (f & Hsp & Hpt & Hnot).
  exists l, f. split; [exact H1|]. split; [|by split].
  change (5 + 1) with 6 in Hsp. rewrite <- Hsp. reflexivity.
Defined.

End MoreParameterFacts.

(** ** The prompt cache *)

Section MorePromptFacts.
Import Prompts.
Context {Template : Type}.

(** X22: [get_prompt] leaves every other entry of the cache alone; once a
    name has an entry (found there, or stored by a fetch that returned,
    even with [None]), a further call returns the same value without
    changing the cache, whatever the client does; and a name has no entry
    afterwards only when it had none and the fetch raised, in which case
    the call returned [None] and the cache is unchanged, so that the next
    call fetches again. *)
Theorem get_prompt_memoised (c1 c2 : result (string → result (option Template)))
    (name : string) (cache : gmap string (option Template)) :
  (∀ other, other ≠ name → snd (get_prompt c1 name cache) !! other = cache !! other)
  ∧ (is_Some (snd (get_prompt c1 name cache) !! name) →
       get_prompt c2 name (snd (get_prompt c1 name cache)) = get_prompt c1 name cache)
  ∧ (snd (get_prompt c1 name cache) !! name = None →
       get_prompt c1 name cache = (None, cache)
       ∧ cache !! name = None ∧ is_ok (c ← c1; c name) = false).
Proof.
  unfold get_prompt. destruct (cache !! name) as [p|] eqn:E.
  - cbn [fst snd]. rewrite E. split; [done|]. split; [done|]. intros H. discriminate.
  - destruct (c ← c1; c name) as [p|e] eqn:Hc; cbn [fst snd].
    + split; [intros other Ho; by rewrite lookup_insert_ne|].
      rewrite lookup_insert_eq. split; [done|]. intros H. discriminate.
    + rewrite E. split; [done|]. split; [by intros [? ?]|done].
Qed.

Lemma preload_loop_spec (c : string → result (option Template)) names n0 f0 cache0 :
  ∃ cache',
    preload_loop c names n0 f0 cache0
    = ((n0 + length (filter (fun n => is_Some (delivered c n)) names))%nat,
       f0 ++ filter (fun n => delivered c n = None) names, cache')
    ∧ ∀ n, cache' !! n
           = match (if decide (n ∈ names) then delivered c n else None) with
             | Some p => Some (Some p)
             | None => cache0 !! n
             end.
Proof.
  revert n0 f0 cache0. induction names as [|a names IH]; intros n0 f0 cache0.
  - exists cache0. cbn [preload_loop]. rewrite filter_nil, app_nil_r, Nat.add_0_r.
    split; [done|]. intros n. by rewrite decide_False by apply not_elem_of_nil.
  - cbn [preload_loop]. destruct (delivered c a) as [p|] eqn:Hd.
    + assert (c a = Ok (Some p)) as Hca.
      { unfold delivered in Hd. destruct (c a) as [[q|]|]; congruence. }
      rewrite Hca.
      destruct (IH (S n0) f0 (<[a:=Some p]> cache0)) as (cache' & -> & Hcache).
      exists cache'. split.
      * rewrite (filter_cons_True (fun n => is_Some (delivered c n))) by (by rewrite Hd).
        rewrite (filter_cons_False (fun n => delivered c n = None)) by (by rewrite Hd).
        cbn [length]. by rewrite Nat.add_succ_r.
      * intros n. rewrite Hcache. destruct (decide (n = a)) as [->|Hna].
        -- rewrite (decide_True (P := a ∈ a :: names)) by apply list_elem_of_here.
           rewrite Hd. destruct (decide (a ∈ names)); [done|].
           by rewrite lookup_insert_eq.
        -- rewrite lookup_insert_ne by done.
           destruct (decide (n ∈ names)) as [Hn|Hn].
           ++ by rewrite decide_True by (by apply list_elem_of_further).
           ++ rewrite decide_False; [done|].
              intros [?|?]%elem_of_cons; done.
    + assert (∀ k, preload_loop c names n0 (f0 ++ [a]) cache0 = k →
                   match c a with
                   | Ok (Some prompt) =>
                       preload_loop c names (S n0) f0 (<[a:=Some prompt]> cache0)
                   | _ => preload_loop c names n0 (f0 ++ [a]) cache0
                   end = k) as Hstep.
      { intros k <-. unfold delivered in Hd. by destruct (c a) as [[q|]|]. }
      destruct (IH n0 (f0 ++ [a]) cache0) as (cache' & Heq & Hcache).
      exists cache'. split.
      * apply Hstep. rewrite Heq.
        rewrite (filter_cons_False (fun n => is_Some (delivered c n)))
          by (rewrite Hd; by intros [? ?]).
        rewrite (filter_cons_True (fun n => delivered c n = None)) by done.
        by rewrite <- app_assoc.
      * intros n. rewrite Hcache. destruct (decide (n = a)) as [->|Hna].
        -- rewrite (decide_True (P := a ∈ a :: names)) by apply list_elem_of_here.
           rewrite Hd. by destruct (decide (a ∈ names)).
        -- destruct (decide (n ∈ names)) as [Hn|Hn].
           ++ by rewrite decide_True by (by apply list_elem_of_further).
           ++ rewrite decide_False; [done|].
              intros [?|?]%elem_of_cons; done.
Qed.

Lemma length_filter_delivered (c : string → result (option Template)) names :
  (length (filter (fun n => is_Some (delivered c n)) names)
   + length (filter (fun n => delivered c n = None) names) = length names)%nat.
Proof.
  induction names as [|a names IH]; [done|].
  destruct (delivered c a) as [p|] eqn:Hd.
  - rewrite (filter_cons_True (fun n => is_Some (delivered c n))) by (by rewrite Hd).
    rewrite (filter_cons_False (fun n => delivered c n = None)) by (by rewrite Hd).
    cbn [length]. by rewrite <- IH.
  - rewrite (filter_cons_False (fun n => is_Some (delivered c n)))
      by (rewrite Hd; by intros [? ?]).
    rewrite (filter_cons_True (fun n => delivered c n = None)) by done.
    cbn [length]. by rewrite Nat.add_succ_r, <- IH.
Qed.

(** X23: when [preload_all_prompts] returns, the client could be created,
    the number of loaded prompts and the number of failed names add up to
    the sixteen names of the list, the failed names are, in the order of
    the list, those for which the client raised or returned [None], every
    delivered prompt of the list is in the cache, and the entries of the
    failed names and of the names outside the list are as before. *)
Theorem preload_accounting (client : result (string → result (option Template)))
    (cache cache' : gmap string (option Template)) (loaded : nat) (failed : list string) :
  preload_all_prompts client cache = Ok (loaded, failed, cache') →
  ∃ c, client = Ok c
     ∧ (loaded + length failed = 16)%nat
     ∧ failed = filter (fun n => delivered c n = None) prompt_names
     ∧ (∀ n p, n ∈ prompt_names → delivered c n = Some p → cache' !! n = Some (Some p))
     ∧ (∀ n, n ∉ prompt_names ∨ n ∈ failed → cache' !! n = cache !! n).
Proof.
  unfold preload_all_prompts. destruct client as [c|e]; [|discriminate]. rsimpl.
  destruct (preload_loop_spec c prompt_names 0 [] cache) as (ch & -> & Hcache).
  intros [= <- <- <-]. exists c. split; [done|]. rewrite ?app_nil_l. split.
  { cbn [Nat.add]. by rewrite length_filter_delivered. }
  split; [done|]. split.
  - intros n p Hn Hd. by rewrite Hcache, decide_True, Hd.
  - intros n [Hn|Hn]; rewrite Hcache.
    + by rewrite decide_False.
    + apply list_elem_of_filter in Hn as [Hd Hn]. by rewrite decide_True, Hd.
Qed.

(** X24: every name that the agents, the summary and the title update pass
    to [pull_prompt_from_langsmith] is in the list of
    [preload_all_prompts]: after a preload without failures, each of these
    calls returns a prompt from the cache, without using the client and
    without changing the cache. *)
Theorem preloaded_prompts_hit (client c2 : result (string → result (option Template)))
    (cache cache' : gmap string (option Template)) (loaded : nat) (n : string) :
  preload_all_prompts client cache = Ok (loaded, [], cache') →
  n ∈ pulled_prompt_names →
  ∃ p, pull_prompt_from_langsmith c2 n cache' = (Some p, cache').
Proof.
  unfold preload_all_prompts. destruct client as [c|e]; [|discriminate]. rsimpl.
  destruct (preload_loop_spec c prompt_names 0 [] cache) as (ch & -> & Hcache).
  rewrite ?app_nil_l. intros [= _ Hfailed <-] Hn.
  assert (n ∈ prompt_names) as Hin.
  { revert n Hn. apply Forall_forall.
    apply (bool_decide_unpack (Forall (fun n => n ∈ prompt_names) pulled_prompt_names)).
    vm_compute. exact I. }
  destruct (delivered c n) as [p|] eqn:Hd.
  - exists p. unfold pull_prompt_from_langsmith, get_prompt.
    by rewrite Hcache, decide_True, Hd.
  - assert (n ∈ filter (fun n => delivered c n = None) prompt_names) as Hf
      by (by apply list_elem_of_filter).
    rewrite Hfailed in Hf. by apply elem_of_nil in Hf.
Qed.

End MorePromptFacts.

Section MorePromptExamples.
Import Prompts.

Lemma get_prompt_memoised_witness :
  get_prompt MoreExamples.offline_client "rules-agent-prompt"
    (snd (get_prompt MoreExamples.echo_client "rules-agent-prompt" ∅))
  = get_prompt MoreExamples.echo_client "rules-agent-prompt" ∅.
Proof.
  apply (proj1 (proj2 (get_prompt_memoised MoreExamples.echo_client
                         MoreExamples.offline_client "rules-agent-prompt" ∅))).
  by eexists.
Defined.

Lemma preload_accounting_witness :
  ∃ c, MoreExamples.partial_client = Ok c
     ∧ ["title-update-prompt"] = filter (fun n => delivered c n = None) prompt_names.
Proof.
  destruct (preload_accounting MoreExamples.partial_client ∅
              (snd (preload_loop MoreExamples.partial_pull prompt_names 0 [] ∅))
              15 ["title-update-prompt"] eq_refl)
    as (c & Hc & _ & Hf & _).
  by exists c.
Defined.

Lemma preloaded_prompts_hit_witness :
  ∃ p, pull_prompt_from_langsmith MoreExamples.offline_client "system-prompt-test"
         MoreExamples.preloaded_cache
       = (Some p, MoreExamples.preloaded_cache).
Proof.
  apply (preloaded_prompts_hit MoreExamples.echo_client MoreExamples.offline_client
           ∅ MoreExamples.preloaded_cache 16 "system-prompt-test").
  - reflexivity.
  - apply (bool_decide_unpack ("system-prompt-test" ∈ pulled_prompt_names)).
    vm_compute. exact I.
Defined.

End MorePromptExamples.

(** ** The cached retriever *)

Section MoreCacheFacts.
Import RetrieverCache.
Context {R : Type} (construct : configuration → result R).

Lemma calls_cached (r : R) cfgs :
  calls construct cfgs (Some r) = (map (fun _ => Returned r) cfgs, Some r).
Proof.
  induction cfgs as [|cfg cfgs IH]; [done|].
  cbn [calls get_cached_child_parent_retriever map]. by rewrite IH.
Qed.

Lemma not_returned_empty cfg :
  returned (fst (get_cached_child_parent_retriever construct cfg None)) = false →
  snd (get_cached_child_parent_retriever construct cfg None) = None.
Proof.
  unfold get_cached_child_parent_retriever.
  destruct (negb _ || negb _); [done|]. by destruct (construct cfg).
Qed.

Lemma returned_cached cfg r :
  fst (get_cached_child_parent_retriever construct cfg None) = Returned r →
  get_cached_child_parent_retriever construct cfg None = (Returned r, Some r).
Proof.
  unfold get_cached_child_parent_retriever.
  destruct (negb _ || negb _); [done|]. destruct (construct cfg); [|done].
  cbn. by intros [= ->].
Qed.

(** X25: once [get_cached_child_parent_retriever] has returned a
    retriever, every later call returns that same retriever and the cache
    keeps it, whatever the configuration has become, even a missing one.
    Until then each call is on its own: the calls that raise leave the
    cache empty, and a call with a missing [json_dir] or
    [embeddings_name] raises the configuration error without calling the
    constructor. *)
Theorem retriever_cached_for_good :
  (∀ r cfgs, calls construct cfgs (Some r) = (map (fun _ => Returned r) cfgs, Some r))
  ∧ (∀ before cfg after r,
       Forall (fun c => returned (fst (get_cached_child_parent_retriever construct c None))
                        = false) before →
       fst (get_cached_child_parent_retriever construct cfg None) = Returned r →
       calls construct (before ++ cfg :: after) None
       = (map (fun c => fst (get_cached_child_parent_retriever construct c None)) before
            ++ Returned r :: map (fun _ => Returned r) after,
          Some r))
  ∧ (∀ cfg,
       truthy_str (cfg_json_dir cfg) = false ∨ truthy_str (cfg_embeddings_name cfg) = false →
       get_cached_child_parent_retriever construct cfg None = (ConfigurationError, None)).
Proof.
  split; [apply calls_cached|]. split.
  - intros before cfg after r Hbefore Hcfg.
    induction Hbefore as [|b before Hb _ IH].
    + cbn [app calls map]. rewrite (returned_cached _ _ Hcfg). by rewrite calls_cached.
    + cbn [app calls map]. pose proof (not_returned_empty _ Hb) as Hnone.
      destruct (get_cached_child_parent_retriever construct b None) as [o c].
      cbn [fst snd] in *. subst c. by rewrite IH.
  - intros cfg [H|H]; unfold get_cached_child_parent_retriever; rewrite H; [done|].
    by rewrite orb_true_r.
Qed.

End MoreCacheFacts.

Lemma retriever_cached_for_good_witness :
  RetrieverCache.calls MoreExamples.construct_name
    ([MoreExamples.missing_configuration]
       ++ MoreExamples.complete_configuration :: [MoreExamples.missing_configuration]) None
  = (map (fun c => fst (RetrieverCache.get_cached_child_parent_retriever
                          MoreExamples.construct_name c None))
         [MoreExamples.missing_configuration]
       ++ RetrieverCache.Returned "data/json"
            :: map (fun _ => RetrieverCache.Returned "data/json")
                   [MoreExamples.missing_configuration],
     Some "data/json").
Proof.
  apply (proj1 (proj2 (retriever_cached_for_good MoreExamples.construct_name))).
  - by repeat constructor.
  - reflexivity.
Defined.

(** ** History conversion and summaries *)

Section MoreFormattingFacts.
Import Text Retrievers Agents Stream Formatting.

Lemma convert_message_line m :
  convertible m = true → ∃ s, convert_message m = Ok (Line s).
Proof.
  unfold convertible, convert_message, item.
  destruct (m !! "role") as [role|]; [|done]. rsimpl.
  destruct (decide (role = JStr "user")).
  - intros [v Hv]%bool_decide_eq_true. rewrite Hv. rsimpl. by eexists.
  - rsimpl. destruct (decide (role = JStr "assistant")); [|done].
    intros [v Hv]%bool_decide_eq_true. rewrite Hv. rsimpl. by eexists.
Qed.

Lemma convert_message_other m :
  convertible m = false →
  (∃ k, convert_message m = Raise (KeyError k) ∧ k ∈ ["'role'"; "'content'"; "'summary'"])
  ∨ convert_message m = Ok (Message m).
Proof.
  unfold convertible, convert_message, item.
  destruct (m !! "role") as [role|]; rsimpl.
  - destruct (decide (role = JStr "user")).
    + destruct (m !! "content") as [v|]; [by rewrite bool_decide_eq_true_2|].
      intros _. left. exists "'content'". split; [done|]. set_solver.
    + rsimpl. destruct (decide (role = JStr "assistant")); [|by right].
      destruct (m !! "summary") as [v|]; [by rewrite bool_decide_eq_true_2|].
      intros _. left. exists "'summary'". split; [done|]. set_solver.
  - intros _. left. exists "'role'". split; [done|]. set_solver.
Qed.

Lemma mapM_convert msgs :
  match mapM convert_message msgs with
  | Ok pieces =>
      Forall2 (fun m p => (convertible m = true ∧ ∃ s, p = Line s)
                          ∨ (convertible m = false ∧ p = Message m)) msgs pieces
  | Raise e =>
      (∃ k, e = KeyError k ∧ k ∈ ["'role'"; "'content'"; "'summary'"])
      ∧ ¬ Forall (fun m => convertible m = true) msgs
  end.
Proof.
  induction msgs as [|m msgs IH]; [by constructor|].
  cbn [mapM]. destruct (convertible m) eqn:Hm.
  - destruct (convert_message_line m Hm) as [s ->]. rsimpl.
    destruct (mapM convert_message msgs) as [pieces|e]; rsimpl.
    + constructor; [|done]. left. split; [done|by eexists].
    + destruct IH as [Hk Hnot]. split; [done|].
      intros H. apply Hnot. by apply Forall_cons_1 in H as [_ H].
  - assert (¬ Forall (fun m => convertible m = true) (m :: msgs)) as Hnot.
    { intros H. apply Forall_cons_1 in H as [H _]. congruence. }
    destruct (convert_message_other m Hm) as [(k & -> & Hk)| ->]; rsimpl.
    + split; [by exists k|done].
    + destruct (mapM convert_message msgs) as [pieces|e]; rsimpl.
      * constructor; [|done]. by right.
      * destruct IH as [Hk _]. by split.
Qed.

Lemma join_pieces_spec msgs pieces i :
  Forall2 (fun m p => (convertible m = true ∧ ∃ s, p = Line s)
                      ∨ (convertible m = false ∧ p = Message m)) msgs pieces →
  match join_pieces i pieces with
  | Ok _ => Forall (fun m => convertible m = true) msgs
  | Raise e =>
      ∃ j m, msgs !! j = Some m ∧ convertible m = false
             ∧ Forall (fun m => convertible m = true) (take j msgs)
             ∧ e = TypeError ("sequence item " +:+ pretty (i + j)%nat
                              +:+ ": expected str instance, dict found")
  end.
Proof.
  intros H. revert i. induction H as [|m p msgs pieces Hmp _ IH]; intros i.
  { cbn [join_pieces]. constructor. }
  destruct Hmp as [[Hm [s ->]]|[Hm ->]]; cbn [join_pieces].
  - specialize (IH (S i)). destruct (join_pieces (S i) pieces) as [r|e]; rsimpl.
    + by constructor.
    + destruct IH as (j & m' & Hj & Hm' & Hfront & ->). exists (S j), m'.
      split; [done|]. split; [done|]. split; [by constructor|].
      by rewrite Nat.add_succ_r.
  - exists 0%nat, m. split; [done|]. split; [done|]. split; [constructor|].
    by rewrite Nat.add_0_r.
Qed.

(** X26: [convert_db_messages_to_langchain] returns exactly when every
    stored message has the role [user] and a [content], or the role
    [assistant] and a [summary].  Otherwise it raises: a [KeyError] for a
    missing [role], [content] or [summary], or else the [TypeError] of the
    final join, which names the position of the first message with another
    role. *)
Theorem conversion_accepts msgs :
  (is_ok (convert_db_messages_to_langchain msgs) = true
   ↔ Forall (fun m => convertible m = true) msgs)
  ∧ ∀ e, convert_db_messages_to_langchain msgs = Raise e →
      (∃ k, e = KeyError k ∧ k ∈ ["'role'"; "'content'"; "'summary'"])
      ∨ (∃ i m, msgs !! i = Some m ∧ convertible m = false
                ∧ Forall (fun m => convertible m = true) (take i msgs)
                ∧ e = TypeError ("sequence item " +:+ pretty i
                                 +:+ ": expected str instance, dict found")).
Proof.
  unfold convert_db_messages_to_langchain.
  pose proof (mapM_convert msgs) as Hmap.
  destruct (mapM convert_message msgs) as [pieces|e0]; rsimpl.
  - pose proof (join_pieces_spec msgs pieces 0 Hmap) as Hjoin.
    destruct (join_pieces 0 pieces) as [text|e1]; cbn [is_ok].
    + split; [done|]. intros e He. discriminate.
    + destruct Hjoin as (j & m & Hj & Hm & Hfront & ->). split.
      * split; [done|]. intros Hall.
        assert (convertible m = true) as Hm'.
        { eapply Forall_lookup_1 in Hall; [exact Hall|exact Hj]. }
        congruence.
      * intros e [= <-]. right. exists j, m. by repeat split.
  - destruct Hmap as [Hk Hnot]. cbn [is_ok]. split.
    + split; [done|]. intros Hall. by destruct Hnot.
    + intros e [= <-]. by left.
Qed.

End MoreFormattingFacts.

Lemma conversion_accepts_witness :
  (∃ k, TypeError "sequence item 1: expected str instance, dict found" = KeyError k
        ∧ k ∈ ["'role'"; "'content'"; "'summary'"])
  ∨ (∃ i m, [MoreExamples.stored_user; MoreExamples.stored_system] !! i = Some m
            ∧ Formatting.convertible m = false
            ∧ Forall (fun m => Formatting.convertible m = true)
                     (take i [MoreExamples.stored_user; MoreExamples.stored_system])
            ∧ TypeError "sequence item 1: expected str instance, dict found"
              = TypeError ("sequence item " +:+ pretty i
                           +:+ ": expected str instance, dict found")).
Proof.
  apply (proj2 (conversion_accepts [MoreExamples.stored_user; MoreExamples.stored_system])).
  vm_compute. reflexivity.
Defined.

Section MoreSummaryFacts.
Import Text Formatting.

Lemma length_take_str n s : String.length (take_str n s) = (n `min` String.length s)%nat.
Proof.
  revert s. induction n as [|n IH]; intros [|c s]; cbn [take_str String.length]; try done.
  by rewrite IH.
Qed.

Lemma length_app_str a b :
  String.length (a +:+ b) = (String.length a + String.length b)%nat.
Proof.
  induction a as [|c a IH]; [done|]. rewrite app_cons. cbn [String.length]. by rewrite IH.
Qed.

(** X29: the summary that [stream_chat] stores is always defined: it is
    the model's summary when the summary prompt is available and the model
    call returns; in every other case it is the answer itself when the
    answer has at most 200 characters, and otherwise its first 200
    characters followed by three dots, 203 characters in all. *)
Theorem chat_summary_bounded (prompt_available : bool) (llm : result string)
    (full_response : string) :
  (∀ t, prompt_available = true → llm = Ok t →
        chat_summary prompt_available llm full_response = t)
  ∧ (prompt_available = false ∨ is_ok llm = false →
       chat_summary prompt_available llm full_response = truncated full_response)
  ∧ (String.length (truncated full_response) ≤ 203)%nat
  ∧ ((String.length full_response ≤ 200)%nat → truncated full_response = full_response)
  ∧ ((200 < String.length full_response)%nat →
       truncated full_response = take_str 200 full_response +:+ "..."
       ∧ String.length (truncated full_response) = 203%nat).
Proof.
  unfold chat_summary, summarize_response, truncated. split; [|split; [|split; [|split]]].
  - by intros t -> ->.
  - intros [->| H]; [done|]. destruct prompt_available; [|done]. by destruct llm.
  - destruct (Nat.ltb_spec 200 (String.length full_response)) as [H|H]; [|lia].
    rewrite length_app_str, length_take_str. change (String.length "...") with 3%nat. lia.
  - intros H. destruct (Nat.ltb_spec 200 (String.length full_response)); [lia|done].
  - intros H. destruct (Nat.ltb_spec 200 (String.length full_response)); [|lia].
    split; [done|].
    rewrite length_app_str, length_take_str. change (String.length "...") with 3%nat. lia.
Qed.

Lemma chat_summary_bounded_witness :
  Formatting.chat_summary false (Ok "summary") "Two programs" = truncated "Two programs"
  ∧ truncated "Two programs" = "Two programs".
Proof.
  split.
  - apply (proj1 (proj2 (chat_summary_bounded false (Ok "summary") "Two programs"))).
    by left.
  - apply (proj1 (proj2 (proj2 (proj2
             (chat_summary_bounded false (Ok "summary") "Two programs"))))).
    cbn [String.length]. lia.
Defined.

End MoreSummaryFacts.

(** ** What the chat service saves *)

Section MoreSavingFacts.
Import Text SearchParams Agents Stream ChatService Formatting Persistence Observations.

Lemma full_response_frames chunks :
  full_response chunks
  = foldr String.append "" (omap frame_text (omap frame_of_chunk chunks)).
Proof.
  induction chunks as [|[s|d] chunks IH]; [done| |].
  - cbn. by rewrite IH.
  - cbn. rewrite IH.
    by destruct (decide (is_Some (d !! "__stream_complete__"))).
Qed.

(** X27: [stream_chat] saves nothing unless the messages and the excluded
    ids were loaded, the workflow's stream ended without exception and its
    metadata says it completed.  It then stores, in this order, the
    excluded ids of the metadata, the user's message with the rewritten
    query, and, only if the answer is not blank, the assistant's message
    with its summary.  The answer stored is the concatenation of exactly
    the text frames sent to the client, and the frames are those of the
    stream alone. *)
Theorem saving_after_stream {M E : Type} (user_input : string)
    (summary : string → string) (conversation : result (M * E))
    (bot_turn : E → M → turn) :
  fst (stream_chat_saving user_input summary conversation bot_turn)
  = stream_chat conversation (fun ex msgs => turn_stream (bot_turn ex msgs))
  ∧ (snd (stream_chat_saving user_input summary conversation bot_turn) ≠ [] →
     ∃ msgs ex chunks rq ids,
       conversation = Ok (msgs, ex)
       ∧ bot_turn ex msgs = Finished chunks true rq ids
       ∧ full_response chunks
         = foldr String.append ""
             (omap frame_text
                (fst (stream_chat_saving user_input summary conversation bot_turn)))
       ∧ snd (stream_chat_saving user_input summary conversation bot_turn)
         = [UpdateExcludedIds ids; SaveMessage "user" user_input None rq]
           ++ (if not_blank (full_response chunks)
               then [SaveMessage "assistant" (full_response chunks)
                       (Some (summary (full_response chunks))) None]
               else [])).
Proof.
  unfold stream_chat_saving, stream_chat.
  destruct conversation as [[msgs ex]|e]; [|by split].
  destruct (bot_turn ex msgs) as [chunks e|chunks completed rq ids] eqn:Hturn;
    cbn [turn_stream fst snd]; [by split|].
  split; [done|]. unfold saved. destruct completed; [|done]. intros _.
  exists msgs, ex, chunks, rq, ids. split; [done|]. split; [done|]. split; [|done].
  rewrite omap_app. cbn [omap frame_text]. rewrite app_nil_r.
  apply full_response_frames.
Qed.

Lemma saving_after_stream_witness :
  ∃ (msgs : option (list (gmap string jvalue))) (ex : option (list doc_id)) chunks rq ids,
    Ok (None, None) = Ok (msgs, ex)
    ∧ MoreExamples.finished_turn ex msgs = Finished chunks true rq ids
    ∧ full_response chunks
      = foldr String.append ""
          (omap frame_text
             (fst (stream_chat_saving "mba?" MoreExamples.fallback_summary
                     (Ok (None, None)) MoreExamples.finished_turn)))
    ∧ snd (stream_chat_saving "mba?" MoreExamples.fallback_summary
             (Ok (None, None)) MoreExamples.finished_turn)
      = [UpdateExcludedIds ids; SaveMessage "user" "mba?" None rq]
        ++ (if not_blank (full_response chunks)
            then [SaveMessage "assistant" (full_response chunks)
                    (Some (MoreExamples.fallback_summary (full_response chunks))) None]
            else []).
Proof.
  apply (proj2 (saving_after_stream "mba?" MoreExamples.fallback_summary
                  (Ok (None, None)) MoreExamples.finished_turn)).
  vm_compute. intros H. discriminate.
Defined.

Lemma convert_user_record cid content summary rq :
  convert_message (message_data cid "user" content summary rq)
  = Ok (Line (newline +:+ "user: " +:+ content +:+ newline)).
Proof. reflexivity. Qed.

Lemma convert_assistant_record cid content summary rq :
  convert_message (message_data cid "assistant" content (Some summary) rq)
  = Ok (Line (newline +:+ "assistant summary: " +:+ summary +:+ newline)).
Proof. reflexivity. Qed.

Lemma convertible_user_record cid content summary rq :
  convertible (message_data cid "user" content summary rq) = true.
Proof. reflexivity. Qed.

Lemma convertible_assistant_record cid content summary rq :
  convertible (message_data cid "assistant" content summary rq) = true.
Proof. by destruct summary. Qed.

(** X28: the records that [save_message] builds for what [stream_chat]
    saves are always accepted by [convert_db_messages_to_langchain], and
    those of a completed turn convert to the line of the user's message
    followed, when an answer was stored, by the line of its summary; the
    answer itself never enters the history. *)
Theorem saved_turn_converts (conversation_id user_input : string)
    (summary : string → string) (chunks : list chunk) (completed : bool)
    (rq : option string) (ids : list doc_id) :
  Forall (fun m => convertible m = true)
         (records conversation_id (saved user_input summary chunks completed rq ids))
  ∧ convert_db_messages_to_langchain
      (records conversation_id (saved user_input summary chunks true rq ids))
    = Ok ((newline +:+ "user: " +:+ user_input +:+ newline)
          +:+ (if not_blank (full_response chunks)
               then newline +:+ "assistant summary: "
                    +:+ summary (full_response chunks) +:+ newline
               else "")).
Proof.
  unfold saved, convert_db_messages_to_langchain. split.
  - destruct completed; [|constructor].
    destruct (not_blank (full_response chunks)).
    + change (records conversation_id _)
        with [message_data conversation_id "user" user_input None rq;
              message_data conversation_id "assistant" (full_response chunks)
                (Some (summary (full_response chunks))) None].
      repeat constructor.
    + change (records conversation_id _)
        with [message_data conversation_id "user" user_input None rq].
      repeat constructor.
  - destruct (not_blank (full_response chunks)).
    + change (records conversation_id _)
        with [message_data conversation_id "user" user_input None rq;
              message_data conversation_id "assistant" (full_response chunks)
                (Some (summary (full_response chunks))) None].
      cbn [Retrievers.mapM]. rewrite convert_user_record, convert_assistant_record. rsimpl.
      cbn [join_pieces]. rsimpl. by rewrite app_empty_r.
    + change (records conversation_id _)
        with [message_data conversation_id "user" user_input None rq].
      cbn [Retrievers.mapM]. rewrite convert_user_record. rsimpl. cbn [join_pieces]. rsimpl.
      by rewrite !app_empty_r.
Qed.

Lemma consume_completed json_dumps events st st' out :
  consume json_dumps st events = (st', out, None) →
  new_excluded_ids st' = new_excluded_ids st ++ concat (map event_ids events)
  ∧ content_yielded st' = content_yielded st || existsb streams_content events.
Proof.
  revert st st' out. induction events as [|ev events IH]; intros st st' out H.
  - cbn in H. injection H as <- <-. cbn. by rewrite app_nil_r, orb_false_r.
  - cbn [consume] in H.
    destruct (step json_dumps st ev) as [[st1 out1]|e] eqn:Hstep; [|discriminate H].
    destruct (consume json_dumps st1 events) as [[st2 out2] err2] eqn:Hrest.
    injection H as <- <- ->.
    destruct (step_attrs json_dumps st ev st1 out1 Hstep) as (Hids & _ & Hcy).
    destruct (IH _ _ _ Hrest) as [H1 H2].
    cbn [map concat existsb]. by rewrite H1, H2, Hids, Hcy, app_assoc, orb_assoc.
Qed.

(** X30: with the workflow as the bot, a turn is saved exactly when the
    stored messages convert, the loop and the graph raise nothing, and a
    streaming node produced a non-empty chunk; a turn that streams nothing
    leaves no trace, not even the user's message.  What is saved first is
    the list of excluded ids the turn started with followed by those of
    every node output, then the user's message with the last rewritten
    query.  A history that does not convert ends the turn with the error
    frame and the end marker alone. *)
Theorem workflow_turn_saved (json_dumps : gmap string jvalue → string)
    (run_id : option string) (events : list event) (failure : option exn)
    (user_input : string) (summary : string → string)
    (msgs : option (list (gmap string jvalue))) (ex : option (list doc_id)) :
  (snd (stream_chat_saving user_input summary (Ok (msgs, ex))
          (workflow_turn json_dumps run_id events failure)) ≠ []
   ↔ is_ok (converted_messages msgs) = true
     ∧ snd (consume json_dumps (initial_loop ex) events) = None
     ∧ failure = None
     ∧ existsb streams_content events = true)
  ∧ (snd (stream_chat_saving user_input summary (Ok (msgs, ex))
            (workflow_turn json_dumps run_id events failure)) ≠ [] →
     ∃ rest,
       snd (stream_chat_saving user_input summary (Ok (msgs, ex))
              (workflow_turn json_dumps run_id events failure))
       = UpdateExcludedIds (default [] ex ++ concat (map event_ids events))
           :: SaveMessage "user" user_input None (last_rewritten None events) :: rest)
  ∧ (∀ e, converted_messages msgs = Raise e →
       stream_chat_saving user_input summary (Ok (msgs, ex))
         (workflow_turn json_dumps run_id events failure)
       = ([DataDict (error_data e); DataDone], [])).
Proof.
  unfold stream_chat_saving, workflow_turn, stream_workflow.
  destruct (converted_messages msgs) as [h|e0].
  2:{ cbn. split; [|split].
      - split; [done|]. by intros [? _].
      - done.
      - by intros e [= <-]. }
  destruct (consume json_dumps (initial_loop ex) events) as [[st out] err] eqn:Hc.
  cbn [fst snd]. destruct err as [e1|].
  { cbn. split; [|split]; [|done|done]. split; [done|]. by intros (_ & ? & _). }
  destruct failure as [e2|].
  { cbn. split; [|split]; [|done|done]. split; [done|]. by intros (_ & _ & ? & _). }
  destruct (consume_completed _ _ _ _ _ Hc) as [Hids Hcy].
  pose proof (consume_rewritten _ _ _ _ _ Hc) as Hrq.
  cbn in Hids, Hcy, Hrq. rewrite Hids, Hcy, Hrq. cbn [snd is_ok]. unfold saved.
  destruct (existsb streams_content events).
  - split; [|split]; [|by eexists|done]. split; [done|]. intros _. done.
  - split; [|split]; [|done|done]. split; [done|]. by intros (_ & _ & _ & ?).
Qed.

Lemma workflow_turn_saved_witness :
  ∃ rest,
    snd (stream_chat_saving "mba?" MoreExamples.fallback_summary (Ok (None, Some [IdInt 5]))
           (workflow_turn Examples.render (Some "r1") MoreExamples.grounded_events None))
    = UpdateExcludedIds (default [] (Some [IdInt 5])
                         ++ concat (map event_ids MoreExamples.grounded_events))
        :: SaveMessage "user" "mba?" None (last_rewritten None MoreExamples.grounded_events)
        :: rest.
Proof.
  apply (proj1 (proj2 (workflow_turn_saved Examples.render (Some "r1")
                         MoreExamples.grounded_events None "mba?"
                         MoreExamples.fallback_summary None (Some [IdInt 5])))).
  vm_compute. intros H. discriminate.
Defined.

End MoreSavingFacts.

(** ** Turns of the text branches *)

Section MoreTextTurnFacts.
Import Text SearchParams Agents Stream Observations.

Lemma step_text_turn json_dumps st ev st' out :
  response_type st ≠ Some "programs" →
  outside_sg_bot ev = true →
  step json_dumps st ev = Ok (st', out) →
  response_type st' ≠ Some "programs"
  ∧ line_buffer st' = line_buffer st
  ∧ response_type st' = (if streamed ev
                         then match response_type st with
                              | None => Some "text"
                              | Some r => Some r
                              end
                         else response_type st)
  ∧ out = (if streamed ev
           then match response_type st with
                | None => [DictChunk (early_metadata "text")]
                | Some _ => []
                end
           else [])
          ++ match event_text ev with Some c => [TextChunk c] | None => [] end.
Proof.
  intros Hrt Hout H. destruct ev as [node content|node output|]; cbn [step] in H.
  - cbn [streamed event_text outside_sg_bot] in *.
    apply bool_decide_eq_true in Hout.
    destruct (is_streaming_node node) eqn:Hnode.
    2:{ injection H as <- <-. split_and!; try done. by destruct content. }
    rewrite decide_False in H by done.
    destruct content as [c|].
    + rewrite truthy_str_nonempty in H. cbn [andb].
      destruct (decide (c = "")) as [->|Hc].
      * rewrite bool_decide_eq_false_2 in H by (by intros ?).
        rewrite bool_decide_eq_false_2 by (by intros ?).
        destruct (response_type st) as [r|] eqn:Hr; injection H as <- <-;
          cbn [response_type line_buffer]; rewrite ?Hr; by split_and!.
      * rewrite bool_decide_eq_true_2 in H by done.
        rewrite bool_decide_eq_true_2 by done.
        unfold content_step in H.
        destruct (response_type st) as [r|] eqn:Hr;
          cbn [response_type default] in H; rewrite ?Hr in H;
          rewrite decide_False in H by congruence;
          injection H as <- <-; cbn [response_type line_buffer]; rewrite ?Hr;
          by split_and!.
    + cbn [truthy_str] in H.
      destruct (response_type st) as [r|] eqn:Hr; injection H as <- <-;
        cbn [response_type line_buffer]; rewrite ?Hr; by split_and!.
  - cbn [streamed event_text]. destruct (truthy_str node).
    2:{ by injection H as <- <-. }
    destruct output as [node_data|].
    2:{ by injection H as <- <-. }
    destruct (excluded_ids node_data) as [[l|]|]; rsimpl; [|discriminate H|];
      by injection H as <- <-.
  - by injection H as <- <-.
Qed.

Lemma consume_text_turn json_dumps events st st' out :
  response_type st ≠ Some "programs" →
  Forall (fun ev => outside_sg_bot ev = true) events →
  consume json_dumps st events = (st', out, None) →
  line_buffer st' = line_buffer st
  ∧ out = match response_type st with
          | None => if existsb streamed events
                    then [DictChunk (early_metadata "text")] else []
          | Some _ => []
          end
          ++ map TextChunk (omap event_text events).
Proof.
  intros Hrt Hall. revert st st' out Hrt.
  induction Hall as [|ev events Hev _ IH]; intros st st' out Hrt H.
  - cbn in H. injection H as <- <-. split; [done|]. by destruct (response_type st).
  - cbn [consume] in H.
    destruct (step json_dumps st ev) as [[st1 out1]|e] eqn:Hstep; [|discriminate H].
    destruct (consume json_dumps st1 events) as [[st2 out2] err2] eqn:Hrest.
    injection H as <- <- ->.
    destruct (step_text_turn _ _ _ _ _ Hrt Hev Hstep) as (Hrt1 & Hlb & Hrt1' & ->).
    destruct (IH _ _ _ Hrt1 Hrest) as [Hlb2 ->].
    split; [by rewrite Hlb2|].
    cbn [existsb]. rewrite Hrt1'.
    change (omap event_text (ev :: events))
      with (match event_text ev with
            | Some c => c :: omap event_text events
            | None => omap event_text events
            end).
    assert (streamed ev = false → event_text ev = None) as Hnone.
    { destruct ev as [node [c|]| |]; cbn [streamed event_text]; try done.
      by intros ->. }
    destruct (streamed ev); [|rewrite Hnone by done];
      destruct (response_type st) as [r|]; try destruct (event_text ev) as [c|];
      cbn [orb app map]; rewrite ?app_nil_r; reflexivity.
Qed.

(** X17: a turn in which no chunk comes from the grounded-generation
    node, as in the rules, follow-up and general branches, is passed
    through verbatim, whatever node outputs and other events it carries:
    when the loop raises nothing, the chunks yielded are the
    [response_type] event with value [text], if a streaming node produced
    any chunk, then exactly the non-empty chunks of the streaming nodes, in
    order, and, if the graph ends without exception and one chunk was not
    empty, the final metadata with the run identifier and the last
    rewritten query, and the completion marker. *)
Theorem text_turn_passthrough (json_dumps : gmap string jvalue → string)
    (run_id : option string) (excluded : option (list doc_id)) (h : history)
    (events : list event) (failure : option exn) :
  Forall (fun ev => outside_sg_bot ev = true) events →
  snd (consume json_dumps (initial_loop excluded) events) = None →
  stream_workflow json_dumps run_id excluded (Ok h) events failure
  = ((if existsb streamed events then [DictChunk (early_metadata "text")] else [])
       ++ map TextChunk (omap event_text events)
       ++ match failure with
          | None => if existsb streams_content events
                    then closing run_id (last_rewritten None events) else []
          | Some _ => []
          end,
     failure).
Proof.
  intros Hall Herr. unfold stream_workflow.
  destruct (consume json_dumps (initial_loop excluded) events) as [[st out] err] eqn:Hc.
  cbn [snd] in Herr. subst err.
  assert (response_type (initial_loop excluded) ≠ Some "programs") as Hrt by done.
  destruct (consume_text_turn _ _ _ _ _ Hrt Hall Hc) as [Hlb ->].
  destruct (consume_completed _ _ _ _ _ Hc) as [_ Hcy].
  pose proof (consume_rewritten _ _ _ _ _ Hc) as Hrq.
  cbn [initial_loop response_type line_buffer content_yielded rewritten_query orb]
    in Hlb, Hcy, Hrq |- *.
  destruct failure as [e|]; [by rewrite app_nil_r|].
  unfold finish. rewrite Hlb, Hcy, Hrq. cbn [truthy_str andb app].
  by rewrite <- app_assoc.
Qed.

End MoreTextTurnFacts.

Lemma text_turn_passthrough_witness :
  Stream.stream_workflow Examples.render (Some "r1") None (Ok Agents.NoMessages)
    MoreExamples.rules_events None
  = ([Stream.DictChunk (Stream.early_metadata "text"); Stream.TextChunk "Hi";
      Stream.TextChunk " there";
      Stream.DictChunk (Stream.final_metadata (Some "r1") (Some "what are the rules"));
      Stream.DictChunk Stream.stream_complete], None).
Proof.
  apply (text_turn_passthrough Examples.render (Some "r1") None Agents.NoMessages
           MoreExamples.rules_events None).
  - by repeat constructor.
  - reflexivity.
Defined.
